(** * Firebase manual OAuth with PKCE: the callback Cloud Function

    A shallow embedding of [functions/main.py].  The module level
    configuration becomes a record [Config]; the collaborators the
    function calls (the [requests] HTTP client, PyJWT, the Firestore
    client and the Firebase Admin credential signer) become a record
    [World] of oracles, and every outbound call is recorded in a trace of
    [event]s.  Python exceptions are values of type [exn]; the functions
    of the source are programs of a small trace-and-exception monad [M].
    Calls to [logger] touch neither the values nor the outbound calls and
    are left out. *)

From Stdlib Require Import String Ascii List ZArith Bool Lia DecimalString.
Import ListNotations.
Local Open Scope string_scope.
Local Open Scope list_scope.
Local Open Scope Z_scope.
Set Warnings "-register-all".

(** ** Python values *)

(** The values that flow through the handler: decoded JSON, plus the
    Firestore sentinel [firestore.SERVER_TIMESTAMP].  A Python [str] is a
    Rocq [string] holding its UTF-8 bytes; a [dict] keeps insertion order. *)
Inductive pyval : Type :=
| PNone
| PBool (b : bool)
| PInt (z : Z)
| PStr (s : string)
| PList (l : list pyval)
| PDict (d : list (string * pyval))
| PSentinel (name : string).

Definition dict := list (string * pyval).

(** Python truthiness, the [bool(x)] behind [not x], [x or y] and [all]. *)
Definition truthy (v : pyval) : bool :=
  match v with
  | PNone => false
  | PBool b => b
  | PInt z => negb (Z.eqb z 0)
  | PStr s => negb (String.eqb s "")
  | PList l => match l with [] => false | _ => true end
  | PDict d => match d with [] => false | _ => true end
  | PSentinel _ => true
  end.

Definition is_none (v : pyval) : bool :=
  match v with PNone => true | _ => false end.

(** [x or y] *)
Definition py_or (x y : pyval) : pyval := if truthy x then x else y.

(** [d[k]] as an option: the first binding of [k]. *)
Fixpoint dict_get (k : string) (d : dict) : option pyval :=
  match d with
  | [] => None
  | (k', v) :: rest => if String.eqb k k' then Some v else dict_get k rest
  end.

(** [k in d] *)
Definition dict_mem (k : string) (d : dict) : bool :=
  match dict_get k d with Some _ => true | None => false end.

(** [d.get(k)], with the default [None]. *)
Definition dict_get_default (k : string) (d : dict) : pyval :=
  match dict_get k d with Some v => v | None => PNone end.

(** [d[k] = v]: an existing key keeps its position, a new key goes last. *)
Fixpoint dict_set (k : string) (v : pyval) (d : dict) : dict :=
  match d with
  | [] => [(k, v)]
  | (k', v') :: rest =>
      if String.eqb k k' then (k, v) :: rest else (k', v') :: dict_set k v rest
  end.

(** [{k: v for k, v in d.items() if v is not None}] *)
Definition drop_none (d : dict) : dict :=
  filter (fun kv => negb (is_none (snd kv))) d.

Definition dict_keys (d : dict) : list string := map fst d.

(** ** Strings *)

(** [needle in s] for two strings. *)
Fixpoint str_in (needle s : string) : bool :=
  String.prefix needle s
  || match s with
     | EmptyString => false
     | String _ rest => str_in needle rest
     end.

(** [s.split(sep)] for a separator of one character: never empty, one more
    piece than there are separators. *)
Fixpoint split_on (sep : ascii) (s : string) : list string :=
  match s with
  | EmptyString => [EmptyString]
  | String c rest =>
      if Ascii.eqb c sep then EmptyString :: split_on sep rest
      else match split_on sep rest with
           | piece :: pieces => String c piece :: pieces
           | [] => [String c EmptyString]
           end
  end.

Definition pipe : ascii := "|"%char.

(** [s.count(c)] for a character [c]. *)
Fixpoint count_char (c : ascii) (s : string) : nat :=
  match s with
  | EmptyString => O
  | String x rest =>
      if Ascii.eqb x c then S (count_char c rest) else count_char c rest
  end.

Definition string_of_Z (z : Z) : string := NilZero.string_of_int (Z.to_int z).

(** ** Exceptions *)

(** The exception classes the handler can meet, all below [Exception]:
    those of [requests], those of PyJWT, the builtins the code itself can
    raise, and [OtherException] for any further class a collaborator
    raises (Google API errors, Firebase Admin errors). *)
Inductive exn_class : Type :=
| Exception
(* requests.exceptions *)
| RequestException | HTTPError | ConnectionError | Timeout
| RequestsJSONDecodeError
(* jwt.exceptions *)
| PyJWTError | InvalidTokenError | DecodeError | InvalidSignatureError
| ExpiredSignatureError | ImmatureSignatureError | InvalidAudienceError
| InvalidIssuerError | InvalidIssuedAtError | InvalidAlgorithmError
| MissingRequiredClaimError | InvalidSubjectError | InvalidJTIError
| InvalidKeyError
| PyJWKClientError | PyJWKClientConnectionError | PyJWKSetError
(* builtins *)
| ValueError | TypeError | AttributeError | IndexError | UnicodeDecodeError
| OtherException (qualname : string).

(** The first base class of each class, as the libraries declare them. *)
Definition base_class (c : exn_class) : option exn_class :=
  match c with
  | Exception => None
  | RequestException => Some Exception
  | HTTPError | ConnectionError | Timeout | RequestsJSONDecodeError =>
      Some RequestException
  | PyJWTError => Some Exception
  | InvalidTokenError => Some PyJWTError
  | DecodeError | ExpiredSignatureError | ImmatureSignatureError
  | InvalidAudienceError | InvalidIssuerError | InvalidIssuedAtError
  | InvalidAlgorithmError | MissingRequiredClaimError
  | InvalidSubjectError | InvalidJTIError =>
      Some InvalidTokenError
  | InvalidSignatureError => Some DecodeError
  | InvalidKeyError | PyJWKClientError | PyJWKSetError => Some PyJWTError
  | PyJWKClientConnectionError => Some PyJWKClientError
  | ValueError | TypeError | AttributeError | IndexError => Some Exception
  | UnicodeDecodeError => Some ValueError
  | OtherException _ => Some Exception
  end.

Definition exn_class_eqb (a b : exn_class) : bool :=
  match a, b with
  | Exception, Exception
  | RequestException, RequestException | HTTPError, HTTPError
  | ConnectionError, ConnectionError | Timeout, Timeout
  | RequestsJSONDecodeError, RequestsJSONDecodeError
  | PyJWTError, PyJWTError | InvalidTokenError, InvalidTokenError
  | DecodeError, DecodeError | InvalidSignatureError, InvalidSignatureError
  | ExpiredSignatureError, ExpiredSignatureError
  | ImmatureSignatureError, ImmatureSignatureError
  | InvalidAudienceError, InvalidAudienceError
  | InvalidIssuerError, InvalidIssuerError
  | InvalidIssuedAtError, InvalidIssuedAtError
  | InvalidAlgorithmError, InvalidAlgorithmError
  | MissingRequiredClaimError, MissingRequiredClaimError
  | InvalidSubjectError, InvalidSubjectError
  | InvalidJTIError, InvalidJTIError
  | InvalidKeyError, InvalidKeyError
  | PyJWKClientError, PyJWKClientError
  | PyJWKClientConnectionError, PyJWKClientConnectionError
  | PyJWKSetError, PyJWKSetError
  | ValueError, ValueError | TypeError, TypeError
  | AttributeError, AttributeError | IndexError, IndexError
  | UnicodeDecodeError, UnicodeDecodeError => true
  | OtherException x, OtherException y => String.eqb x y
  | _, _ => false
  end.

(** [issubclass(c, target)]: walk up the base classes; the hierarchy is at
    most four deep. *)
Fixpoint issubclass_fuel (fuel : nat) (c target : exn_class) : bool :=
  exn_class_eqb c target
  || match fuel with
     | O => false
     | S fuel' =>
         match base_class c with
         | Some b => issubclass_fuel fuel' b target
         | None => false
         end
     end.

Definition issubclass : exn_class -> exn_class -> bool := issubclass_fuel 4.

(** A raised exception: its class and [str(e)]. *)
Record exn : Type := mk_exn { exn_cls : exn_class; exn_str : string }.

(** [isinstance(e, target)], the test of an [except target] clause. *)
Definition isinstance (e : exn) (target : exn_class) : bool :=
  issubclass (exn_cls e) target.

Inductive result (A : Type) : Type :=
| Ok (a : A)
| Raise (e : exn).
Arguments Ok {A} a.
Arguments Raise {A} e.

(** ** Outbound calls and the monad of the handler *)

(** One constructor per outbound call of the source. *)
Inductive event : Type :=
| EvTokenPost (url : string) (data : dict) (timeout : Z)
| EvJwksFetch (url : string)
| EvFirestoreSet (collection document : string) (data : dict) (merge : bool)
| EvCreateCustomToken (uid : pyval) (developer_claims : option dict).

Definition trace := list event.

(** A program takes the calls made so far and returns a value or a raised
    exception, with the calls extended by its own. *)
Definition M (A : Type) : Type := trace -> result A * trace.

Definition ret {A} (a : A) : M A := fun t => (Ok a, t).
Definition raise {A} (c : exn_class) (msg : string) : M A :=
  fun t => (Raise (mk_exn c msg), t).
Definition bind {A B} (m : M A) (k : A -> M B) : M B :=
  fun t => match m t with
           | (Ok a, t') => k a t'
           | (Raise e, t') => (Raise e, t')
           end.
Definition emit (ev : event) : M unit := fun t => (Ok tt, t ++ [ev]).
Definition lift {A} (r : result A) : M A := fun t => (r, t).

Declare Scope py_scope.
Delimit Scope py_scope with py.
Notation "x <- m ;; k" := (bind m (fun x => k))
  (at level 100, m at next level, right associativity) : py_scope.
Notation "m ;;; k" := (bind m (fun _ => k))
  (at level 100, right associativity) : py_scope.
Local Open Scope py_scope.

(** [type(v).__name__] *)
Definition type_name (v : pyval) : string :=
  match v with
  | PNone => "NoneType"
  | PBool _ => "bool"
  | PInt _ => "int"
  | PStr _ => "str"
  | PList _ => "list"
  | PDict _ => "dict"
  | PSentinel _ => "Sentinel"
  end.

Definition no_attribute (v : pyval) (attr : string) : string :=
  "'" ++ type_name v ++ "' object has no attribute '" ++ attr ++ "'".

(** [v.get(k)]: only a dict has the method. *)
Definition py_get (v : pyval) (k : string) : M pyval :=
  match v with
  | PDict d => ret (dict_get_default k d)
  | _ => raise AttributeError (no_attribute v "get")
  end.

(** ['|' in subject] for a string on the left: substring test on a str,
    membership on a list, key test on a dict, [TypeError] otherwise. *)
Definition py_str_in (needle : string) (v : pyval) : M bool :=
  match v with
  | PStr s => ret (str_in needle s)
  | PList l =>
      ret (existsb (fun x => match x with
                             | PStr s => String.eqb needle s
                             | _ => false
                             end) l)
  | PDict d => ret (dict_mem needle d)
  | _ => raise TypeError
           ("argument of type '" ++ type_name v ++ "' is not iterable")
  end.

(** [subject.split('|')]: only a str has the method. *)
Definition py_split (v : pyval) (sep : ascii) : M (list pyval) :=
  match v with
  | PStr s => ret (map PStr (split_on sep s))
  | _ => raise AttributeError (no_attribute v "split")
  end.

(** [l[-1]] *)
Definition py_last (l : list pyval) : M pyval :=
  match l with
  | x :: rest => ret (last rest x)
  | [] => raise IndexError "list index out of range"
  end.

(** ** Configuration *)

(** The module level constants, read once from the environment.  The four
    required ones default to the empty string, [CUSTOM_CLAIM_NAME] to
    [None]. *)
Record Config : Type := mk_config {
  OAUTH_ISSUER_URL : string;
  OAUTH_CLIENT_ID : string;
  OAUTH_CLIENT_SECRET : string;
  OAUTH_REDIRECT_URI : string;
  CUSTOM_CLAIM_NAME : option string
}.

(** The process environment, [os.environ]: names and values are strs. *)
Definition environ := list (string * string).

(** [os.environ.get(name)] *)
Fixpoint environ_get (name : string) (env : environ) : option string :=
  match env with
  | [] => None
  | (n, v) :: rest => if String.eqb name n then Some v else environ_get name rest
  end.

(** [os.environ.get(name, '')] *)
Definition environ_get_or_empty (name : string) (env : environ) : string :=
  match environ_get name env with Some v => v | None => "" end.

(** The five assignments at module level that read the configuration. *)
Definition load_config (env : environ) : Config :=
  mk_config (environ_get_or_empty "OAUTH_ISSUER_URL" env)
            (environ_get_or_empty "OAUTH_CLIENT_ID" env)
            (environ_get_or_empty "OAUTH_CLIENT_SECRET" env)
            (environ_get_or_empty "OAUTH_REDIRECT_URI" env)
            (environ_get "CUSTOM_CLAIM_NAME" env).

(** ** The collaborators *)

(** What [requests.post] hands back: the attributes of [Response] the
    code reads.  [resp_json] is [None] when the body does not parse. *)
Record http_response : Type := mk_http_response {
  status_code : Z;
  reason : string;
  resp_url : string;
  resp_json : option pyval
}.

(** [requests.post] either raises (connection refused, timeout, ...) or
    returns a response, whatever its status. *)
Inductive post_outcome : Type :=
| PostRaises (e : exn)
| PostReplies (r : http_response).

(** A key of the provider's key set, as PyJWT's [PyJWK] shows it. *)
Record jwk : Type := mk_jwk {
  key_id : option string;
  public_key_use : option string;
  key_is_rsa : bool;
  key_material : string
}.

(** A compact JWT taken apart: the [alg] and [kid] of its header, and its
    payload when that is a JSON object. *)
Record jwt_parts : Type := mk_jwt_parts {
  hdr_alg : option string;
  hdr_kid : option string;
  jwt_payload : option dict
}.

(** What [auth.create_custom_token] returns. *)
Inductive minted : Type :=
| TokenBytes (b : string)
| TokenStr (s : string).

(** The world outside the function.  [jwks_fetch n url] is the [n]-th
    download of the key set by one [PyJWKClient]; [jwt_load] splits and
    base64-decodes a token ([None]: malformed); [rsa_verify k t] is the
    RS256 signature check of token [t] under key [k]; [clock_now] is the
    time in seconds; [firestore_client] is [firestore.client()], which
    builds the client and sends nothing; [py_int_of_str s] is the builtin
    [int(s)] on a str ([None]: [ValueError]); [firestore_auto_id] is the
    random id the Firestore client makes up for a document without one. *)
Record World : Type := mk_world {
  requests_post : string -> dict -> Z -> post_outcome;
  jwks_fetch : nat -> string -> result (list jwk);
  jwt_load : string -> option jwt_parts;
  rsa_verify : jwk -> string -> bool;
  clock_now : Z;
  firestore_client : result unit;
  firestore_set : string -> string -> dict -> bool -> result unit;
  auth_create_custom_token : pyval -> option dict -> result minted;
  utf8_decode : string -> result string;
  py_int_of_str : string -> option Z;
  firestore_auto_id : string
}.

(** *** requests *)

(** [Response.raise_for_status]: [HTTPError] for a 4xx or 5xx status,
    with the message the library builds. *)
Definition raise_for_status (r : http_response) : M unit :=
  if (400 <=? status_code r) && (status_code r <? 500) then
    raise HTTPError (string_of_Z (status_code r) ++ " Client Error: "
                     ++ reason r ++ " for url: " ++ resp_url r)
  else if (500 <=? status_code r) && (status_code r <? 600) then
    raise HTTPError (string_of_Z (status_code r) ++ " Server Error: "
                     ++ reason r ++ " for url: " ++ resp_url r)
  else ret tt.

(** [Response.json] *)
Definition response_json (r : http_response) : M pyval :=
  match resp_json r with
  | Some v => ret v
  | None => raise RequestsJSONDecodeError "Expecting value"
  end.

(** *** PyJWT *)

Definition option_string_eqb (a b : option string) : bool :=
  match a, b with
  | Some x, Some y => String.eqb x y
  | None, None => true
  | _, _ => false
  end.

(** [_load] and the payload decoding shared by every decode: a token that
    is not a str, does not split into three base64 segments, or whose
    payload is not a JSON object is a [DecodeError]. *)
Definition jws_load (w : World) (token : pyval) : M jwt_parts :=
  match token with
  | PStr t =>
      match jwt_load w t with
      | Some p => ret p
      | None => raise DecodeError "Not enough segments"
      end
  | _ => raise DecodeError
           "Invalid token type. Token must be a <class 'bytes'>"
  end.

Definition decode_payload (p : jwt_parts) : M dict :=
  match jwt_payload p with
  | Some claims => ret claims
  | None => raise DecodeError "Invalid payload string: must be a json object"
  end.

(** [PyJWKClient.get_signing_keys]: download the set, keep the keys for
    signature use that carry a key id. *)
Definition get_signing_keys (w : World) (url : string) (attempt : nat)
  : M (list jwk) :=
  emit (EvJwksFetch url) ;;;
  keys <- lift (jwks_fetch w attempt url) ;;
  match filter (fun k => (option_string_eqb (public_key_use k) (Some "sig")
                          || option_string_eqb (public_key_use k) None)
                         && match key_id k with
                            | Some i => negb (String.eqb i "")
                            | None => false
                            end) keys with
  | [] => raise PyJWKClientError
            "The JWKS endpoint did not contain any signing keys"
  | signing => ret signing
  end.

(** The double quote, and [f'{kid}'] for a key id that may be [None]. *)
Definition dquote : string := String "034"%char EmptyString.

Definition show_kid (kid : option string) : string :=
  match kid with Some k => k | None => "None" end.

Definition no_signing_key (kid : option string) : string :=
  "Unable to find a signing key that matches: "
  ++ dquote ++ show_kid kid ++ dquote.

Definition match_kid (keys : list jwk) (kid : option string) : option jwk :=
  find (fun k => option_string_eqb (key_id k) kid) keys.

(** [PyJWKClient.get_signing_key]: one refresh of the key set when the key
    id is not found, then [PyJWKClientError]. *)
Definition get_signing_key (w : World) (url : string) (kid : option string)
  : M jwk :=
  keys <- get_signing_keys w url 0%nat ;;
  match match_kid keys kid with
  | Some k => ret k
  | None =>
      keys' <- get_signing_keys w url 1%nat ;;
      match match_kid keys' kid with
      | Some k => ret k
      | None => raise PyJWKClientError (no_signing_key kid)
      end
  end.

(** [PyJWKClient.get_signing_key_from_jwt]: decode the token without
    verifying it, look its [kid] up. *)
Definition get_signing_key_from_jwt (w : World) (url : string) (token : pyval)
  : M jwk :=
  p <- jws_load w token ;;
  _ <- decode_payload p ;;
  get_signing_key w url (hdr_kid p).

(** [int(v)], as PyJWT applies it to [iat], [nbf] and [exp]: an int or a
    bool converts, a str converts or is a [ValueError], anything else is
    a [TypeError]. *)
Inductive int_outcome : Type :=
| IntValue (z : Z)
| IntValueError
| IntTypeError.

Definition py_int (w : World) (v : pyval) : int_outcome :=
  match v with
  | PInt z => IntValue z
  | PBool b => IntValue (if b then 1 else 0)
  | PStr s => match py_int_of_str w s with
              | Some z => IntValue z
              | None => IntValueError
              end
  | _ => IntTypeError
  end.

(** [str(MissingRequiredClaimError(name))] *)
Definition missing_claim (name : string) : string :=
  "Token is missing the " ++ dquote ++ name ++ dquote ++ " claim".

(** One of [_validate_iat], [_validate_nbf], [_validate_exp]: the claim,
    when present, goes through [int()]; PyJWT catches the [ValueError]
    and raises its own exception, and lets the [TypeError] through. *)
Definition validate_timestamp (w : World) (claims : dict) (name : string)
    (not_an_integer : exn_class) (message : string) (check : Z -> M unit)
  : M unit :=
  match dict_get name claims with
  | None => ret tt
  | Some v =>
      match py_int w v with
      | IntValue z => check z
      | IntValueError => raise not_an_integer message
      | IntTypeError =>
          raise TypeError
            ("int() argument must be a string, a bytes-like object or a "
             ++ "real number, not '" ++ type_name v ++ "'")
      end
  end.

(** The registered claims [jwt.decode] checks by default when an audience
    and an issuer are given, in its order: [iat], [nbf], [exp], [iss],
    [aud], [sub], [jti].  The clock is read in whole seconds, which
    decides the comparisons with integer claims the same way. *)
Definition validate_claims (w : World) (audience issuer : string)
    (claims : dict) : M unit :=
  validate_timestamp w claims "iat" InvalidIssuedAtError
    "Issued At claim (iat) must be an integer."
    (fun iat => if clock_now w <? iat
                then raise ImmatureSignatureError
                       "The token is not yet valid (iat)"
                else ret tt) ;;;
  validate_timestamp w claims "nbf" DecodeError
    "Not Before claim (nbf) must be an integer."
    (fun nbf => if clock_now w <? nbf
                then raise ImmatureSignatureError
                       "The token is not yet valid (nbf)"
                else ret tt) ;;;
  validate_timestamp w claims "exp" DecodeError
    "Expiration Time claim (exp) must be an integer."
    (fun exp => if exp <=? clock_now w
                then raise ExpiredSignatureError "Signature has expired"
                else ret tt) ;;;
  match dict_get "iss" claims with
  | None => raise MissingRequiredClaimError (missing_claim "iss")
  | Some (PStr i) => if String.eqb i issuer then ret tt
                     else raise InvalidIssuerError "Invalid issuer"
  | Some _ => raise InvalidIssuerError
                "Payload Issuer (iss) must be a string"
  end ;;;
  match dict_get "aud" claims with
  | None => raise MissingRequiredClaimError (missing_claim "aud")
  | Some v =>
      if negb (truthy v)
      then raise MissingRequiredClaimError (missing_claim "aud")
      else match v with
           | PStr a => if String.eqb a audience then ret tt
                       else raise InvalidAudienceError "Audience doesn't match"
           | PList l =>
               if forallb (fun x => match x with PStr _ => true | _ => false end) l
               then if existsb (fun x => match x with
                                         | PStr a => String.eqb a audience
                                         | _ => false
                                         end) l
                    then ret tt
                    else raise InvalidAudienceError "Audience doesn't match"
               else raise InvalidAudienceError "Invalid claim format in token"
           | _ => raise InvalidAudienceError "Invalid claim format in token"
           end
  end ;;;
  match dict_get "sub" claims with
  | None => ret tt
  | Some (PStr _) => ret tt
  | Some _ => raise InvalidSubjectError "Subject must be a string"
  end ;;;
  match dict_get "jti" claims with
  | None => ret tt
  | Some (PStr _) => ret tt
  | Some _ => raise InvalidJTIError "JWT ID must be a string"
  end.

(** [jwt.decode(token, key, algorithms=..., audience=..., issuer=...)]:
    load, check the header's [alg] against the allowed list, prepare the
    key for RS256 (a key that is not an RSA key is a [TypeError]), verify
    the signature, decode the payload, validate the claims. *)
Definition jwt_decode (w : World) (token : pyval) (key : jwk)
    (algorithms : list string) (audience issuer : string) : M dict :=
  p <- jws_load w token ;;
  match hdr_alg p with
  | None => raise InvalidAlgorithmError "The specified alg value is not allowed"
  | Some alg =>
      if String.eqb alg "" || negb (existsb (String.eqb alg) algorithms)
      then raise InvalidAlgorithmError "The specified alg value is not allowed"
      else if negb (key_is_rsa key)
      then raise TypeError "Expecting a PEM-formatted key."
      else if negb (rsa_verify w key
                      match token with PStr t => t | _ => "" end)
      then raise InvalidSignatureError "Signature verification failed"
      else
        claims <- decode_payload p ;;
        validate_claims w audience issuer claims ;;;
        ret claims
  end.

(** *** json and the HTTP framework *)

(** What [json.dumps] can encode: everything but a sentinel object. *)
Fixpoint json_serializable (v : pyval) : bool :=
  match v with
  | PSentinel _ => false
  | PList l => forallb json_serializable l
  | PDict d => forallb (fun kv => json_serializable (snd kv)) d
  | _ => true
  end.

(** [json.dumps(v)]; the text is kept as the value it encodes. *)
Definition json_dumps (v : pyval) : result pyval :=
  if json_serializable v then Ok v
  else Raise (mk_exn TypeError "Object is not JSON serializable").

(** [https_fn.Response(body, status=..., headers=...)]: [body] is the JSON
    document whose text the response carries. *)
Record Response : Type := mk_response {
  status : Z;
  headers : list (string * string);
  body : pyval
}.

(** The incoming request, as far as [req.get_json(silent=True)] reads it:
    [None] when there is no body, the content type is not JSON, or the
    body does not parse. *)
Record Request : Type := mk_request { request_json : option pyval }.

Definition get_json_silent (req : Request) : pyval :=
  match request_json req with Some v => v | None => PNone end.

(** [https_fn.Response(json.dumps(d), status=s,
                       headers={'Content-Type': 'application/json'})] *)
Definition json_response (d : dict) (s : Z) : result Response :=
  match json_dumps (PDict d) with
  | Ok doc => Ok (mk_response s [("Content-Type", "application/json")] doc)
  | Raise e => Raise e
  end.

(** *** Firestore *)

(** The client joins the collection path and the document id with ['/']
    and splits the result again: the pieces of [users/<id>].  A document
    reference needs an even number of them. *)
Definition document_path (document_id : string) : list string :=
  split_on "/"%char ("users/" ++ document_id).

Definition document_path_ok (document_id : string) : bool :=
  Nat.even (length (document_path document_id)).

(** ** The program *)

Section Program.

Variable cfg : Config.
Variable w : World.

(** [exchange_code_for_tokens] *)
Definition exchange_code_for_tokens (code code_verifier redirect_uri : pyval)
  : M pyval :=
  let token_url := (OAUTH_ISSUER_URL cfg ++ "/oidc/token")%string in
  let effective_redirect_uri :=
    py_or redirect_uri (PStr (OAUTH_REDIRECT_URI cfg)) in
  let payload :=
    [ ("grant_type", PStr "authorization_code");
      ("code", code);
      ("code_verifier", code_verifier);
      ("client_id", PStr (OAUTH_CLIENT_ID cfg));
      ("client_secret", PStr (OAUTH_CLIENT_SECRET cfg));
      ("redirect_uri", effective_redirect_uri) ] in
  emit (EvTokenPost token_url payload 10) ;;;
  match requests_post w token_url payload 10 with
  | PostRaises e => lift (Raise e)
  | PostReplies response =>
      raise_for_status response ;;;
      response_json response
  end.

(** [verify_id_token] *)
Definition verify_id_token (id_token : pyval) : M dict :=
  let jwks_url := (OAUTH_ISSUER_URL cfg ++ "/oidc/jwks")%string in
  signing_key <- get_signing_key_from_jwt w jwks_url id_token ;;
  decoded_token <- jwt_decode w id_token signing_key ["RS256"]
                     (OAUTH_CLIENT_ID cfg) (OAUTH_ISSUER_URL cfg) ;;
  ret decoded_token.

(** [CUSTOM_CLAIM_NAME and CUSTOM_CLAIM_NAME in claims] *)
Definition custom_claim_present (claims : dict) : option string :=
  match CUSTOM_CLAIM_NAME cfg with
  | Some name =>
      if truthy (PStr name) && dict_mem name claims then Some name else None
  | None => None
  end.

(** [subject.split('|')[-1] if '|' in subject else subject] *)
Definition auth_uid_of (subject : pyval) : M pyval :=
  has_separator <- py_str_in "|" subject ;;
  if has_separator : bool then
    pieces <- py_split subject pipe ;;
    py_last pieces
  else ret subject.

(** The profile built by [create_or_update_user], before the write. *)
Definition profile_data_of (subject : pyval) (claims : dict) : dict :=
  let profile_data :=
    [ ("sub", subject);
      ("email", dict_get_default "email" claims);
      ("name", dict_get_default "name" claims);
      ("given_name", dict_get_default "given_name" claims);
      ("family_name", dict_get_default "family_name" claims);
      ("updated_at", PSentinel "SERVER_TIMESTAMP") ] in
  let profile_data :=
    match custom_claim_present claims with
    | Some name => dict_set name (dict_get_default name claims) profile_data
    | None => profile_data
    end in
  drop_none profile_data.

(** [db.collection('users').document(auth_uid)], before anything is
    sent: [None] gets an id made up by the client; joining the path is a
    [TypeError] for anything else that is not a str; a str whose path has
    an odd number of pieces, as ["a/b"] has, is a [ValueError]. *)
Definition firestore_document (document_id : pyval) : M string :=
  match document_id with
  | PNone => ret (firestore_auto_id w)
  | PStr s =>
      if document_path_ok s then ret s
      else raise ValueError
             "A document must have an even number of path elements"
  | v => raise TypeError
           ("sequence item 1: expected str instance, "
            ++ type_name v ++ " found")
  end.

(** [create_or_update_user] *)
Definition create_or_update_user (claims : dict) : M pyval :=
  db <- lift (firestore_client w) ;;
  let subject := dict_get_default "sub" claims in
  if negb (truthy subject)
  then raise ValueError "ID token missing 'sub' claim"
  else
    auth_uid <- auth_uid_of subject ;;
    let profile_data := profile_data_of subject claims in
    user_ref <- firestore_document auth_uid ;;
    emit (EvFirestoreSet "users" user_ref profile_data true) ;;;
    lift (firestore_set w "users" user_ref profile_data true) ;;;
    ret auth_uid.

(** The claim bag built by [create_custom_token]. *)
Definition developer_claims_of (claims : dict) : dict :=
  match custom_claim_present claims with
  | Some name => dict_set name (dict_get_default name claims) []
  | None => []
  end.

(** [auth.create_custom_token(uid, developer_claims=...)] *)
Definition sdk_create_custom_token (uid : pyval)
    (developer_claims : option dict) : M minted :=
  emit (EvCreateCustomToken uid developer_claims) ;;;
  lift (auth_create_custom_token w uid developer_claims).

(** [create_custom_token] *)
Definition create_custom_token (uid : pyval) (claims : dict) : M string :=
  let developer_claims := developer_claims_of claims in
  custom_token <- sdk_create_custom_token uid
                    (if truthy (PDict developer_claims)
                     then Some developer_claims else None) ;;
  match custom_token with
  | TokenBytes b => lift (utf8_decode w b)
  | TokenStr s => ret s
  end.

(** The [try] block of [handleOAuthCallback]. *)
Definition handleOAuthCallback_try (req : Request) : M Response :=
  if negb (forallb truthy [ PStr (OAUTH_ISSUER_URL cfg);
                            PStr (OAUTH_CLIENT_ID cfg);
                            PStr (OAUTH_CLIENT_SECRET cfg);
                            PStr (OAUTH_REDIRECT_URI cfg) ])
  then lift (json_response
         [ ("error", PStr "configuration_error");
           ("message", PStr "Cloud Function not properly configured. Check environment variables.") ]
         500)
  else
    let request_json := get_json_silent req in
    if negb (truthy request_json)
    then lift (json_response
           [ ("error", PStr "invalid_request");
             ("message", PStr "Request body must be JSON") ] 400)
    else
      code <- py_get request_json "code" ;;
      code_verifier <- py_get request_json "codeVerifier" ;;
      redirect_uri <- py_get request_json "redirectUri" ;;
      if negb (truthy code) || negb (truthy code_verifier)
      then lift (json_response
             [ ("error", PStr "invalid_request");
               ("message", PStr "Missing code or codeVerifier") ] 400)
      else
        token_response <-
          exchange_code_for_tokens code code_verifier redirect_uri ;;
        id_token <- py_get token_response "id_token" ;;
        if negb (truthy id_token)
        then lift (json_response
               [ ("error", PStr "token_error");
                 ("message", PStr "No ID token received") ] 500)
        else
          decoded_claims <- verify_id_token id_token ;;
          uid <- create_or_update_user decoded_claims ;;
          custom_token <- create_custom_token uid decoded_claims ;;
          lift (json_response
            [ ("customToken", PStr custom_token); ("uid", uid) ] 200).

(** The [except] clauses, tried in the order of the source; an exception
    none of them names would leave the function. *)
Definition handleOAuthCallback_except (e : exn) : result Response :=
  if isinstance e HTTPError then
    json_response
      [ ("error", PStr "token_exchange_failed");
        ("message",
         PStr ("Failed to exchange authorization code: " ++ exn_str e)) ]
      500
  else if isinstance e InvalidTokenError then
    json_response
      [ ("error", PStr "invalid_token");
        ("message", PStr ("ID token verification failed: " ++ exn_str e)) ]
      401
  else if isinstance e Exception then
    json_response
      [ ("error", PStr "internal_error");
        ("message", PStr ("An unexpected error occurred: " ++ exn_str e)) ]
      500
  else Raise e.

(** [handleOAuthCallback]: the response returned (or the exception that
    escapes), and the outbound calls made on the way. *)
Definition handleOAuthCallback (req : Request) : result Response * trace :=
  match handleOAuthCallback_try req [] with
  | (Ok response, calls) => (Ok response, calls)
  | (Raise e, calls) => (handleOAuthCallback_except e, calls)
  end.

End Program.

(** ** Concrete configurations, worlds and requests *)

Module Examples.

Definition cfg_ok : Config :=
  mk_config "https://idp.example.com" "client-1" "s3cret"
            "https://app.example.com/callback" (Some "national_id").

(** The same deployment with the client secret left unset. *)
Definition cfg_no_secret : Config :=
  mk_config "https://idp.example.com" "client-1" ""
            "https://app.example.com/callback" (Some "national_id").

Definition key1 : jwk := mk_jwk (Some "k1") (Some "sig") true "rsa-public-1".

Definition claims_of (subject : string) (extra : dict) : dict :=
  [ ("iss", PStr "https://idp.example.com");
    ("aud", PStr "client-1");
    ("exp", PInt 2000);
    ("sub", PStr subject);
    ("email", PStr "user@example.com") ] ++ extra.

(** A provider that answers the token request with [post], publishes
    [key1] and issues the tokens [tokens] describes; the store and the
    signer always succeed. *)
Definition world_of (post : post_outcome) (tokens : string -> option jwt_parts)
  : World :=
  mk_world (fun _ _ _ => post)
           (fun _ _ => Ok [key1])
           tokens
           (fun _ _ => true)
           1000
           (Ok tt)
           (fun _ _ _ _ => Ok tt)
           (fun _ _ => Ok (TokenBytes "signed.custom.token"))
           (fun b => Ok b)
           (fun _ => None)
           "Zk3yTq8mWn5pLr2vXc7b".

Definition reply_with_token : post_outcome :=
  PostReplies (mk_http_response 200 "OK" "https://idp.example.com/oidc/token"
                 (Some (PDict [("access_token", PStr "at-1");
                               ("id_token", PStr "header.payload.sig")]))).

Definition token_with (alg kid : string) (claims : dict)
  : string -> option jwt_parts :=
  fun t => if String.eqb t "header.payload.sig"
           then Some (mk_jwt_parts (Some alg) (Some kid) (Some claims))
           else None.

Definition w_ok : World :=
  world_of reply_with_token
           (token_with "RS256" "k1"
              (claims_of "idp|12345" [("national_id", PStr "0101302989")])).

Definition req_ok : Request :=
  mk_request (Some (PDict [("code", PStr "auth-code-1");
                           ("codeVerifier", PStr "verifier-1")])).

(** The world of [w_ok] with a signer that fails. *)
Definition w_signer_fails : World :=
  mk_world (fun _ _ _ => reply_with_token)
           (fun _ _ => Ok [key1])
           (token_with "RS256" "k1" (claims_of "idp|12345" []))
           (fun _ _ => true)
           1000
           (Ok tt)
           (fun _ _ _ _ => Ok tt)
           (fun _ _ => Raise (mk_exn (OtherException "CertificateFetchError")
                                "signing failed"))
           (fun b => Ok b)
           (fun _ => None)
           "Zk3yTq8mWn5pLr2vXc7b".

End Examples.

(** ** The vocabulary of the statements *)

(** The piece [split('|')[-1]] selects. *)
Definition final_piece (s : string) : string :=
  match split_on pipe s with
  | piece :: pieces => last pieces piece
  | [] => EmptyString
  end.

(** [all([OAUTH_ISSUER_URL, OAUTH_CLIENT_ID, OAUTH_CLIENT_SECRET,
          OAUTH_REDIRECT_URI])] *)
Definition config_complete (cfg : Config) : bool :=
  forallb truthy [ PStr (OAUTH_ISSUER_URL cfg); PStr (OAUTH_CLIENT_ID cfg);
                   PStr (OAUTH_CLIENT_SECRET cfg);
                   PStr (OAUTH_REDIRECT_URI cfg) ].

(** The request body is a JSON object whose [code] and [codeVerifier] are
    both truthy; [redirect] is its [redirectUri], [None] when absent. *)
Definition well_formed_request (req : Request) (code verifier redirect : pyval)
  : Prop :=
  exists fields : dict,
    request_json req = Some (PDict fields)
    /\ dict_get_default "code" fields = code
    /\ dict_get_default "codeVerifier" fields = verifier
    /\ dict_get_default "redirectUri" fields = redirect
    /\ truthy code = true
    /\ truthy verifier = true.

(** The part of the [try] block that follows the token exchange. *)
Definition after_exchange (cfg : Config) (w : World) (token_response : pyval)
  : M Response :=
  (id_token <- py_get token_response "id_token" ;;
   if negb (truthy id_token)
   then lift (json_response
          [ ("error", PStr "token_error");
            ("message", PStr "No ID token received") ] 500)
   else
     decoded_claims <- verify_id_token cfg w id_token ;;
     uid <- create_or_update_user cfg w decoded_claims ;;
     custom_token <- create_custom_token cfg w uid decoded_claims ;;
     lift (json_response
       [ ("customToken", PStr custom_token); ("uid", uid) ] 200))%py.

(** The headers of every response of the handler. *)
Definition json_headers : list (string * string) :=
  [("Content-Type", "application/json")].

(** The body of every error response. *)
Definition error_body (kind message : string) : pyval :=
  PDict [("error", PStr kind); ("message", PStr message)].

(** The answer that goes with an exception, by its class: an
    [HTTPError] is a failed token exchange, any other [InvalidTokenError]
    an invalid token, everything else an internal error. *)
Definition error_answer (e : exn) : Response :=
  if isinstance e HTTPError then
    mk_response 500 json_headers
      (error_body "token_exchange_failed"
         ("Failed to exchange authorization code: " ++ exn_str e))
  else if isinstance e InvalidTokenError then
    mk_response 401 json_headers
      (error_body "invalid_token"
         ("ID token verification failed: " ++ exn_str e))
  else
    mk_response 500 json_headers
      (error_body "internal_error"
         ("An unexpected error occurred: " ++ exn_str e)).

(** One of the steps of a run raises [e], the steps before it having
    returned; [calls] are the outbound calls made up to then.  The steps
    are the token exchange, reading [id_token] off its result, the
    verification, the write of the user record and the minting. *)
Inductive stage_failure (cfg : Config) (w : World)
    (code verifier redirect : pyval) (e : exn) (calls : trace) : Prop :=
| ExchangeFails :
    exchange_code_for_tokens cfg w code verifier redirect [] =
      (Raise e, calls) ->
    stage_failure cfg w code verifier redirect e calls
| TokenResponseFails token_response :
    exchange_code_for_tokens cfg w code verifier redirect [] =
      (Ok token_response, calls) ->
    py_get token_response "id_token" calls = (Raise e, calls) ->
    stage_failure cfg w code verifier redirect e calls
| VerificationFails token_response id_token t1 :
    exchange_code_for_tokens cfg w code verifier redirect [] =
      (Ok token_response, t1) ->
    py_get token_response "id_token" t1 = (Ok id_token, t1) ->
    truthy id_token = true ->
    verify_id_token cfg w id_token t1 = (Raise e, calls) ->
    stage_failure cfg w code verifier redirect e calls
| UserRecordFails token_response id_token claims t1 t2 :
    exchange_code_for_tokens cfg w code verifier redirect [] =
      (Ok token_response, t1) ->
    py_get token_response "id_token" t1 = (Ok id_token, t1) ->
    truthy id_token = true ->
    verify_id_token cfg w id_token t1 = (Ok claims, t2) ->
    create_or_update_user cfg w claims t2 = (Raise e, calls) ->
    stage_failure cfg w code verifier redirect e calls
| CredentialFails token_response id_token claims uid t1 t2 t3 :
    exchange_code_for_tokens cfg w code verifier redirect [] =
      (Ok token_response, t1) ->
    py_get token_response "id_token" t1 = (Ok id_token, t1) ->
    truthy id_token = true ->
    verify_id_token cfg w id_token t1 = (Ok claims, t2) ->
    create_or_update_user cfg w claims t2 = (Ok uid, t3) ->
    create_custom_token cfg w uid claims t3 = (Raise e, calls) ->
    stage_failure cfg w code verifier redirect e calls.

(** The request has no usable [code] or no usable [codeVerifier]: there
    is no JSON body, or the body is not an object holding a truthy value
    under each of the two names. *)
Definition lacks_code_or_verifier (req : Request) : bool :=
  match request_json req with
  | Some (PDict fields) =>
      negb (truthy (dict_get_default "code" fields))
      || negb (truthy (dict_get_default "codeVerifier" fields))
  | _ => true
  end.

(** The JSON body, if any, is an object or an empty value ([null],
    [false], [0], the empty string, the empty array). *)
Definition body_is_object_or_empty (req : Request) : bool :=
  match get_json_silent req with
  | PDict _ => true
  | v => negb (truthy v)
  end.

(** The error kinds of the handler and the status each is sent with. *)
Definition error_kinds : list (string * Z) :=
  [ ("configuration_error", 500); ("invalid_request", 400);
    ("token_error", 500); ("token_exchange_failed", 500);
    ("invalid_token", 401); ("internal_error", 500) ].

(** An error response: one of the six kinds, with its status. *)
Definition classified_error (response : Response) : Prop :=
  exists kind message : string,
    body response = error_body kind message
    /\ In (kind, status response) error_kinds.

(** A success response: status 200, a credential and a uid. *)
Definition success_shape (response : Response) : Prop :=
  status response = 200
  /\ exists custom_token uid : string,
       body response =
         PDict [("customToken", PStr custom_token); ("uid", PStr uid)].

(** The profile fields [create_or_update_user] always considers. *)
Definition fixed_fields (subject : pyval) (claims : dict) : dict :=
  [ ("sub", subject);
    ("email", dict_get_default "email" claims);
    ("name", dict_get_default "name" claims);
    ("given_name", dict_get_default "given_name" claims);
    ("family_name", dict_get_default "family_name" claims);
    ("updated_at", PSentinel "SERVER_TIMESTAMP") ].

(** The two provider URLs the code builds from the issuer URL. *)
Definition token_url (cfg : Config) : string :=
  OAUTH_ISSUER_URL cfg ++ "/oidc/token".

Definition jwks_url (cfg : Config) : string :=
  OAUTH_ISSUER_URL cfg ++ "/oidc/jwks".

(** The form [exchange_code_for_tokens] posts. *)
Definition token_request (cfg : Config) (code verifier redirect : pyval)
  : event :=
  EvTokenPost (token_url cfg)
    [ ("grant_type", PStr "authorization_code");
      ("code", code);
      ("code_verifier", verifier);
      ("client_id", PStr (OAUTH_CLIENT_ID cfg));
      ("client_secret", PStr (OAUTH_CLIENT_SECRET cfg));
      ("redirect_uri", py_or redirect (PStr (OAUTH_REDIRECT_URI cfg))) ]
    10.

(** The text of the [HTTPError] that [raise_for_status] builds for a 4xx
    or 5xx answer. *)
Definition status_line (response : http_response) : string :=
  string_of_Z (status_code response)
  ++ (if status_code response <? 500 then " Client Error: "
      else " Server Error: ")
  ++ reason response ++ " for url: " ++ resp_url response.

(** A program that makes no outbound call. *)
Definition silent {A} (m : M A) : Prop :=
  forall t r t', m t = (r, t') -> t' = t.



(** The identifier [create_or_update_user] derives from a str subject. *)
Definition derived_uid (subject : string) : string :=
  if str_in "|" subject then final_piece subject else subject.

(** The names of the four required environment variables. *)
Definition required_variables : list string :=
  [ "OAUTH_ISSUER_URL"; "OAUTH_CLIENT_ID"; "OAUTH_CLIENT_SECRET";
    "OAUTH_REDIRECT_URI" ].

(** The calls of one run, in the order the stages make them: the token
    request, then [n] downloads of the key set, then [tail]. *)
Definition calls_in_order (cfg : Config) (code verifier redirect : pyval)
    (n : nat) (tail : trace) : trace :=
  token_request cfg code verifier redirect
  :: repeat (EvJwksFetch (jwks_url cfg)) n ++ tail.

(** What can follow the downloads: nothing, the write, or the write and
    then the signing call for the same uid. *)
Definition write_then_mint (tail : trace) : Prop :=
  tail = []
  \/ (exists uid data, tail = [EvFirestoreSet "users" uid data true])
  \/ (exists uid data bag,
        tail = [ EvFirestoreSet "users" uid data true;
                 EvCreateCustomToken (PStr uid) bag ]).

(** The shape of the calls of any run of the handler. *)
Definition pipeline_shape (cfg : Config) (calls : trace) : Prop :=
  calls = []
  \/ exists code verifier redirect n tail,
       (n <= 2)%nat
       /\ calls = calls_in_order cfg code verifier redirect n tail
       /\ write_then_mint tail.

(** The [developer_claims] argument of the signing call:
    [developer_claims if developer_claims else None]. *)
Definition developer_claims_bag (cfg : Config) (claims : dict) : option dict :=
  match developer_claims_of cfg claims with
  | [] => None
  | bag => Some bag
  end.

(** The write of [create_or_update_user] and the signing call of
    [create_custom_token] for a str subject. *)
Definition user_write (cfg : Config) (claims : dict) (sub : string) : event :=
  EvFirestoreSet "users" (derived_uid sub)
    (profile_data_of cfg (PStr sub) claims) true.

Definition credential_request (cfg : Config) (claims : dict) (sub : string)
  : event :=
  EvCreateCustomToken (PStr (derived_uid sub)) (developer_claims_bag cfg claims).

(** The answer to a request in which every stage has succeeded. *)
Definition success_response (custom_token uid : string) : Response :=
  mk_response 200 json_headers
    (PDict [("customToken", PStr custom_token); ("uid", PStr uid)]).

(** The paths through the handler once the configuration is complete and
    the request is well formed: where the run stops, what is answered,
    and the calls made up to there. *)
Inductive run_of (cfg : Config) (w : World) (code verifier redirect : pyval)
  : result Response * trace -> Prop :=
| RunExchangeRaises e :
    exchange_code_for_tokens cfg w code verifier redirect [] =
      (Raise e, calls_in_order cfg code verifier redirect 0 []) ->
    run_of cfg w code verifier redirect
      (handleOAuthCallback_except e,
       calls_in_order cfg code verifier redirect 0 [])
| RunTokenResponseNotObject token_response :
    exchange_code_for_tokens cfg w code verifier redirect [] =
      (Ok token_response, calls_in_order cfg code verifier redirect 0 []) ->
    (forall d, token_response <> PDict d) ->
    run_of cfg w code verifier redirect
      (handleOAuthCallback_except
         (mk_exn AttributeError (no_attribute token_response "get")),
       calls_in_order cfg code verifier redirect 0 [])
| RunNoIdentityToken token_response :
    exchange_code_for_tokens cfg w code verifier redirect [] =
      (Ok (PDict token_response),
       calls_in_order cfg code verifier redirect 0 []) ->
    truthy (dict_get_default "id_token" token_response) = false ->
    run_of cfg w code verifier redirect
      (Ok (mk_response 500 json_headers
             (error_body "token_error" "No ID token received")),
       calls_in_order cfg code verifier redirect 0 [])
| RunVerificationRaises token_response e n :
    exchange_code_for_tokens cfg w code verifier redirect [] =
      (Ok (PDict token_response),
       calls_in_order cfg code verifier redirect 0 []) ->
    truthy (dict_get_default "id_token" token_response) = true ->
    verify_id_token cfg w (dict_get_default "id_token" token_response)
      (calls_in_order cfg code verifier redirect 0 []) =
      (Raise e, calls_in_order cfg code verifier redirect n []) ->
    (n <= 2)%nat ->
    run_of cfg w code verifier redirect
      (handleOAuthCallback_except e,
       calls_in_order cfg code verifier redirect n [])
| RunNothingWritten token_response claims e n :
    verify_id_token cfg w (dict_get_default "id_token" token_response)
      (calls_in_order cfg code verifier redirect 0 []) =
      (Ok claims, calls_in_order cfg code verifier redirect n []) ->
    (1 <= n <= 2)%nat ->
    create_or_update_user cfg w claims
      (calls_in_order cfg code verifier redirect n []) =
      (Raise e, calls_in_order cfg code verifier redirect n []) ->
    run_of cfg w code verifier redirect
      (handleOAuthCallback_except e,
       calls_in_order cfg code verifier redirect n [])
| RunWriteRaises token_response claims sub e n :
    verify_id_token cfg w (dict_get_default "id_token" token_response)
      (calls_in_order cfg code verifier redirect 0 []) =
      (Ok claims, calls_in_order cfg code verifier redirect n []) ->
    (1 <= n <= 2)%nat ->
    dict_get "sub" claims = Some (PStr sub) ->
    firestore_set w "users" (derived_uid sub)
      (profile_data_of cfg (PStr sub) claims) true = Raise e ->
    run_of cfg w code verifier redirect
      (handleOAuthCallback_except e,
       calls_in_order cfg code verifier redirect n [user_write cfg claims sub])
| RunMintRaises token_response claims sub e n :
    verify_id_token cfg w (dict_get_default "id_token" token_response)
      (calls_in_order cfg code verifier redirect 0 []) =
      (Ok claims, calls_in_order cfg code verifier redirect n []) ->
    (1 <= n <= 2)%nat ->
    dict_get "sub" claims = Some (PStr sub) ->
    firestore_set w "users" (derived_uid sub)
      (profile_data_of cfg (PStr sub) claims) true = Ok tt ->
    fst (create_custom_token cfg w (PStr (derived_uid sub)) claims []) =
      Raise e ->
    run_of cfg w code verifier redirect
      (handleOAuthCallback_except e,
       calls_in_order cfg code verifier redirect n
         [user_write cfg claims sub; credential_request cfg claims sub])
| RunSuccess token_response claims sub custom_token n :
    verify_id_token cfg w (dict_get_default "id_token" token_response)
      (calls_in_order cfg code verifier redirect 0 []) =
      (Ok claims, calls_in_order cfg code verifier redirect n []) ->
    (1 <= n <= 2)%nat ->
    dict_get "sub" claims = Some (PStr sub) ->
    firestore_set w "users" (derived_uid sub)
      (profile_data_of cfg (PStr sub) claims) true = Ok tt ->
    fst (create_custom_token cfg w (PStr (derived_uid sub)) claims []) =
      Ok custom_token ->
    run_of cfg w code verifier redirect
      (Ok (success_response custom_token (derived_uid sub)),
       calls_in_order cfg code verifier redirect n
         [user_write cfg claims sub; credential_request cfg claims sub]).

(** The answers given before any stage runs: the configuration is
    incomplete, there is no usable JSON body, the body is not an object,
    or the object lacks a truthy [code] or [codeVerifier]. *)
Inductive rejection (cfg : Config) (req : Request) : Response -> Prop :=
| RejectConfiguration :
    config_complete cfg = false ->
    rejection cfg req
      (mk_response 500 json_headers
         (error_body "configuration_error"
            "Cloud Function not properly configured. Check environment variables."))
| RejectNoBody :
    config_complete cfg = true ->
    truthy (get_json_silent req) = false ->
    rejection cfg req
      (mk_response 400 json_headers
         (error_body "invalid_request" "Request body must be JSON"))
| RejectNotObject v :
    config_complete cfg = true ->
    request_json req = Some v ->
    truthy v = true ->
    (forall fields, v <> PDict fields) ->
    rejection cfg req
      (mk_response 500 json_headers
         (error_body "internal_error"
            ("An unexpected error occurred: " ++ no_attribute v "get")))
| RejectMissingField fields :
    config_complete cfg = true ->
    request_json req = Some (PDict fields) ->
    fields <> [] ->
    truthy (dict_get_default "code" fields) = false
    \/ truthy (dict_get_default "codeVerifier" fields) = false ->
    rejection cfg req
      (mk_response 400 json_headers
         (error_body "invalid_request" "Missing code or codeVerifier")).

(** The profile keys the code fills from the claims, the custom claim
    apart. *)
(** The keys of a downloaded set that [PyJWKClient.get_signing_keys]
    keeps: those for signature use that carry a key id. *)
Definition signing_keys (keys : list jwk) : list jwk :=
  filter (fun k => (option_string_eqb (public_key_use k) (Some "sig")
                    || option_string_eqb (public_key_use k) None)
                   && match key_id k with
                      | Some i => negb (String.eqb i "")
                      | None => false
                      end) keys.

(** How often the key set is downloaded when the key id is found in
    neither download, and what the [PyJWKClientError] then says. *)
Definition downloads_on_miss (keys0 : list jwk) : nat :=
  match signing_keys keys0 with [] => 1 | _ :: _ => 2 end.

Definition message_on_miss (keys0 keys1 : list jwk) (kid : option string)
  : string :=
  match signing_keys keys0, signing_keys keys1 with
  | _ :: _, _ :: _ => no_signing_key kid
  | _, _ => "The JWKS endpoint did not contain any signing keys"
  end.

Definition fixed_keys : list string :=
  [ "sub"; "email"; "name"; "given_name"; "family_name"; "updated_at" ].

(** ** Facts about splitting *)

Section Splitting.

Lemma last_map {A B} (f : A -> B) (l : list A) (d : A) :
  last (map f l) (f d) = f (last l d).
Proof.
  induction l as [|a [|b l] IH]; simpl; auto.
Qed.

Lemma last_cons_default {A} (l : list A) (a d : A) :
  last (a :: l) d = last l a.
Proof.
  revert a d. induction l as [|b l IH]; intros a d; [reflexivity|].
  change (last (a :: b :: l) d) with (last (b :: l) d).
  now rewrite (IH b d), (IH b a).
Qed.

Lemma str_in_pipe_cons (c : ascii) (s : string) :
  str_in "|" (String c s) = Ascii.eqb c pipe || str_in "|" s.
Proof.
  change (str_in "|" (String c s))
    with (String.prefix "|" (String c s) || str_in "|" s).
  f_equal. cbn [String.prefix].
  destruct (ascii_dec "|" c) as [<-|Hne].
  - destruct s; reflexivity.
  - destruct (Ascii.eqb_spec c pipe) as [->|_]; [now elim Hne|].
    reflexivity.
Qed.

Lemma str_in_pipe_nil : str_in "|" "" = false.
Proof. reflexivity. Qed.

Lemma split_on_nonempty (sep : ascii) (s : string) : split_on sep s <> [].
Proof.
  destruct s as [|c s]; simpl; [discriminate|].
  destruct (Ascii.eqb c sep); [discriminate|].
  destruct (split_on sep s); discriminate.
Qed.

Lemma split_on_no_pipe (s : string) :
  str_in "|" s = false -> split_on pipe s = [s].
Proof.
  induction s as [|c s IH]; [reflexivity|].
  rewrite str_in_pipe_cons. intros H.
  apply orb_false_iff in H as [Hc Hs].
  simpl. rewrite Hc, (IH Hs). reflexivity.
Qed.

Lemma split_on_single (s p : string) :
  split_on pipe s = [p] -> str_in "|" s = false.
Proof.
  revert p. induction s as [|c s IH]; intros p; [reflexivity|].
  rewrite str_in_pipe_cons. simpl.
  destruct (Ascii.eqb c pipe) eqn:Hc.
  - intros H. injection H as _ H. now apply split_on_nonempty in H.
  - destruct (split_on pipe s) as [|q qs] eqn:Hs.
    + now apply split_on_nonempty in Hs.
    + intros H. injection H as _ ->. simpl. eauto.
Qed.

Lemma final_piece_cons (c : ascii) (s : string) :
  final_piece (String c s) =
    if Ascii.eqb c pipe || str_in "|" s then final_piece s
    else String c s.
Proof.
  unfold final_piece. simpl.
  destruct (Ascii.eqb c pipe) eqn:Hc; simpl.
  - destruct (split_on pipe s) as [|q qs] eqn:Hs.
    + now apply split_on_nonempty in Hs.
    + apply last_cons_default.
  - destruct (str_in "|" s) eqn:Hin.
    + destruct (split_on pipe s) as [|q qs] eqn:Hs.
      * now apply split_on_nonempty in Hs.
      * destruct qs as [|r rs].
        -- apply split_on_single in Hs. congruence.
        -- now rewrite !last_cons_default.
    + rewrite (split_on_no_pipe s Hin). reflexivity.
Qed.

(** With a separator present, the selected piece is what follows the
    last separator. *)
Lemma final_piece_after_last_pipe (s : string) :
  str_in "|" s = true ->
  exists before : string,
    s = (before ++ "|" ++ final_piece s)%string
    /\ str_in "|" (final_piece s) = false.
Proof.
  induction s as [|c s IH]; [discriminate|].
  intros H. rewrite final_piece_cons.
  rewrite str_in_pipe_cons in H. rewrite H.
  destruct (str_in "|" s) eqn:Hs.
  - destruct (IH eq_refl) as (before & Heq & Hno).
    exists (String c before). split; [|exact Hno].
    change (String c before ++ "|" ++ final_piece s)%string
      with (String c (before ++ "|" ++ final_piece s))%string.
    now rewrite <- Heq.
  - rewrite orb_false_r in H.
    destruct (Ascii.eqb_spec c pipe) as [->|]; [|discriminate].
    exists EmptyString.
    assert (Hf : final_piece s = s).
    { unfold final_piece. now rewrite (split_on_no_pipe s Hs). }
    rewrite Hf. split; [reflexivity|exact Hs].
Qed.

End Splitting.

(** ** Running programs of [M] *)

Section Running.

Context {A B : Type}.

Lemma bind_ok (m : M A) (k : A -> M B) t a t1 :
  m t = (Ok a, t1) -> bind m k t = k a t1.
Proof. unfold bind. now intros ->. Qed.

Lemma bind_raise (m : M A) (k : A -> M B) t e t1 :
  m t = (Raise e, t1) -> bind m k t = (Raise e, t1).
Proof. unfold bind. now intros ->. Qed.

Lemma bind_ok_inv (m : M A) (k : A -> M B) t b t' :
  bind m k t = (Ok b, t') ->
  exists a t1, m t = (Ok a, t1) /\ k a t1 = (Ok b, t').
Proof.
  unfold bind. destruct (m t) as [[a|e] t1]; [eauto|discriminate].
Qed.

Lemma bind_cases (m : M A) (k : A -> M B) t :
  (exists a t1, m t = (Ok a, t1) /\ bind m k t = k a t1)
  \/ (exists e t1, m t = (Raise e, t1) /\ bind m k t = (Raise e, t1)).
Proof.
  unfold bind. destruct (m t) as [[a|e] t1]; [left|right]; eauto.
Qed.

End Running.

(** Unfold the plumbing of [M] in the goal. *)
Ltac run_M :=
  unfold bind, ret, raise, lift, emit; cbn beta iota.

(** ** The derived identifier *)

Lemma auth_uid_of_str (s : string) (t : trace) :
  auth_uid_of (PStr s) t =
    (Ok (PStr (if str_in "|" s then final_piece s else s)), t).
Proof.
  unfold auth_uid_of, py_str_in. run_M.
  destruct (str_in "|" s); [|reflexivity].
  unfold py_split, py_last, final_piece. run_M.
  destruct (split_on pipe s) as [|p ps] eqn:Hs;
    [now apply split_on_nonempty in Hs|].
  cbn [map]. now rewrite last_map.
Qed.

(** A subject that reaches the document reference is a str. *)
Lemma auth_uid_of_document w (subject : pyval) t uid t1 doc t2 :
  auth_uid_of subject t = (Ok uid, t1) ->
  firestore_document w uid t1 = (Ok doc, t2) ->
  exists s, subject = PStr s.
Proof.
  destruct subject as [| b | z | s | l | d | n]; try discriminate; eauto.
  - unfold auth_uid_of, py_str_in. run_M.
    destruct (existsb _ l); [discriminate|].
    intros [= <- <-]. discriminate.
  - unfold auth_uid_of, py_str_in. run_M.
    destruct (dict_mem "|" d); [discriminate|].
    intros [= <- <-]. discriminate.
Qed.

(** What a run of [create_or_update_user] that returns looks like. *)
Lemma create_or_update_user_ok cfg w claims t uid t' :
  create_or_update_user cfg w claims t = (Ok uid, t') ->
  exists sub : string,
    dict_get "sub" claims = Some (PStr sub)
    /\ uid = PStr (if str_in "|" sub then final_piece sub else sub)
    /\ t' = t ++ [EvFirestoreSet "users"
                    (if str_in "|" sub then final_piece sub else sub)
                    (profile_data_of cfg (PStr sub) claims) true]
    /\ firestore_set w "users"
         (if str_in "|" sub then final_piece sub else sub)
         (profile_data_of cfg (PStr sub) claims) true = Ok tt.
Proof.
  unfold create_or_update_user. intros H.
  apply bind_ok_inv in H as (db & t0 & Hdb & H).
  assert (t0 = t) as ->.
  { revert Hdb. unfold lift. now intros [= _ <-]. }
  destruct (negb (truthy (dict_get_default "sub" claims))) eqn:Htruthy;
    [discriminate|].
  apply bind_ok_inv in H as (auth_uid & t1 & Huid & H).
  apply bind_ok_inv in H as (doc & t2 & Hdoc & H).
  destruct (auth_uid_of_document _ _ _ _ _ _ _ Huid Hdoc) as (sub & Hsub).
  rewrite Hsub in *. rewrite auth_uid_of_str in Huid.
  injection Huid as <- <-. cbn [firestore_document] in Hdoc.
  destruct (document_path_ok _) in Hdoc; [|discriminate].
  injection Hdoc as <- <-.
  exists sub. split.
  { unfold dict_get_default in Hsub.
    destruct (dict_get "sub" claims); [now subst|discriminate]. }
  revert H. run_M.
  destruct (firestore_set w _ _ _ _) as [[]|e] eqn:Hset; [|discriminate].
  intros [= <- <-]. auto.
Qed.

(** [create_or_update_user] on a str subject: the one write it makes. *)
Lemma create_or_update_user_str cfg w claims sub t :
  firestore_client w = Ok tt ->
  dict_get "sub" claims = Some (PStr sub) ->
  sub <> "" ->
  document_path_ok (if str_in "|" sub then final_piece sub else sub) = true ->
  let uid := if str_in "|" sub then final_piece sub else sub in
  let data := profile_data_of cfg (PStr sub) claims in
  create_or_update_user cfg w claims t =
    (match firestore_set w "users" uid data true with
     | Ok _ => Ok (PStr uid)
     | Raise e => Raise e
     end,
     t ++ [EvFirestoreSet "users" uid data true]).
Proof.
  intros Hdb Hsub Hne Hpath. unfold create_or_update_user, dict_get_default.
  unfold bind at 1, lift at 1. rewrite Hdb.
  rewrite Hsub. cbn [truthy].
  destruct (String.eqb_spec sub ""); [contradiction|]. cbn [negb].
  unfold bind at 1. rewrite auth_uid_of_str. run_M. cbn [firestore_document].
  rewrite Hpath.
  run_M. now destruct (firestore_set w _ _ _ _) as [[]|e].
Qed.

(** [create_custom_token]: the one signing call it makes. *)
Lemma create_custom_token_run cfg w u claims t :
  let bag := match developer_claims_of cfg claims with
             | [] => None
             | dc => Some dc
             end in
  create_custom_token cfg w u claims t =
    (match auth_create_custom_token w u bag with
     | Ok (TokenBytes b) => utf8_decode w b
     | Ok (TokenStr s) => Ok s
     | Raise e => Raise e
     end,
     t ++ [EvCreateCustomToken u bag]).
Proof.
  unfold create_custom_token, sdk_create_custom_token. run_M.
  cbn [truthy].
  destruct (developer_claims_of cfg claims) as [|kv dc];
    (destruct (auth_create_custom_token w u _) as [[b|s]|e]; reflexivity).
Qed.

(** ** The stages of the handler *)

Lemma config_complete_iff (cfg : Config) :
  config_complete cfg = true <->
  OAUTH_ISSUER_URL cfg <> "" /\ OAUTH_CLIENT_ID cfg <> ""
  /\ OAUTH_CLIENT_SECRET cfg <> "" /\ OAUTH_REDIRECT_URI cfg <> "".
Proof.
  unfold config_complete. cbn [forallb truthy].
  destruct (String.eqb_spec (OAUTH_ISSUER_URL cfg) "");
  destruct (String.eqb_spec (OAUTH_CLIENT_ID cfg) "");
  destruct (String.eqb_spec (OAUTH_CLIENT_SECRET cfg) "");
  destruct (String.eqb_spec (OAUTH_REDIRECT_URI cfg) "");
  cbn; intuition congruence.
Qed.

(** With the configuration complete and the request well formed, the
    [try] block is the token exchange followed by the later stages. *)
Lemma try_well_formed_request cfg w req code verifier redirect t :
  config_complete cfg = true ->
  well_formed_request req code verifier redirect ->
  handleOAuthCallback_try cfg w req t =
    bind (exchange_code_for_tokens cfg w code verifier redirect)
         (after_exchange cfg w) t.
Proof.
  intros Hcfg (fields & Hreq & Hcode & Hver & Hred & Tcode & Tver).
  unfold handleOAuthCallback_try. fold (config_complete cfg).
  rewrite Hcfg. cbn [negb].
  unfold get_json_silent. rewrite Hreq.
  assert (Hne : truthy (PDict fields) = true).
  { destruct fields; [|reflexivity]. subst code. discriminate. }
  rewrite Hne. cbn [negb py_get].
  run_M. rewrite Hcode, Hver, Hred, Tcode, Tver. reflexivity.
Qed.

Lemma json_response_error kind message s :
  json_response [("error", PStr kind); ("message", PStr message)] s =
    Ok (mk_response s json_headers (error_body kind message)).
Proof. reflexivity. Qed.

(** The run in which every stage succeeds. *)
Lemma try_all_stages_succeed cfg w req code verifier redirect
    token_response id_token claims uid custom_token t1 t2 t3 t4 :
  config_complete cfg = true ->
  well_formed_request req code verifier redirect ->
  exchange_code_for_tokens cfg w code verifier redirect [] =
    (Ok (PDict token_response), t1) ->
  dict_get_default "id_token" token_response = id_token ->
  truthy id_token = true ->
  verify_id_token cfg w id_token t1 = (Ok claims, t2) ->
  create_or_update_user cfg w claims t2 = (Ok (PStr uid), t3) ->
  create_custom_token cfg w (PStr uid) claims t3 = (Ok custom_token, t4) ->
  handleOAuthCallback cfg w req =
    (Ok (mk_response 200 json_headers
           (PDict [("customToken", PStr custom_token); ("uid", PStr uid)])),
     t4).
Proof.
  intros Hcfg Hreq Hex Hid Tid Hver Hsync Hmint.
  unfold handleOAuthCallback.
  rewrite (try_well_formed_request _ _ _ _ _ _ _ Hcfg Hreq).
  rewrite (bind_ok _ _ _ _ _ Hex). unfold after_exchange.
  cbn [py_get]. unfold bind at 1, ret at 1. rewrite Hid, Tid. cbn [negb].
  rewrite (bind_ok _ _ _ _ _ Hver), (bind_ok _ _ _ _ _ Hsync),
    (bind_ok _ _ _ _ _ Hmint).
  reflexivity.
Qed.

(** ** The success path *)

(** C1. When the configuration is complete, the request carries a code
    and a verifier, and the exchange, verification, sync and mint stages
    all succeed, [handleOAuthCallback] returns HTTP 200 with a JSON body
    holding exactly [customToken], the minted credential, and [uid], a
    string: the identifier derived from the [sub] claim of the verified
    identity token. *)
Theorem success_returns_token_and_derived_uid
    cfg w req code verifier redirect token_response id_token claims uid
    custom_token t1 t2 t3 t4 :
  config_complete cfg = true ->
  well_formed_request req code verifier redirect ->
  exchange_code_for_tokens cfg w code verifier redirect [] =
    (Ok (PDict token_response), t1) ->
  dict_get_default "id_token" token_response = id_token ->
  truthy id_token = true ->
  verify_id_token cfg w id_token t1 = (Ok claims, t2) ->
  create_or_update_user cfg w claims t2 = (Ok uid, t3) ->
  create_custom_token cfg w uid claims t3 = (Ok custom_token, t4) ->
  exists sub derived : string,
    dict_get "sub" claims = Some (PStr sub)
    /\ auth_uid_of (PStr sub) [] = (Ok (PStr derived), [])
    /\ handleOAuthCallback cfg w req =
         (Ok (mk_response 200 json_headers
                (PDict [("customToken", PStr custom_token);
                        ("uid", PStr derived)])),
          t4).
Proof.
  intros Hcfg Hreq Hex Hid Tid Hver Hsync Hmint.
  destruct (create_or_update_user_ok _ _ _ _ _ _ Hsync)
    as (sub & Hsub & Huid & _).
  exists sub, (if str_in "|" sub then final_piece sub else sub).
  split; [exact Hsub|]. split; [apply auth_uid_of_str|].
  subst uid. eapply try_all_stages_succeed; eassumption.
Qed.

Lemma success_returns_token_and_derived_uid_witness :
  exists sub derived : string,
    dict_get "sub"
      (Examples.claims_of "idp|12345" [("national_id", PStr "0101302989")])
      = Some (PStr sub)
    /\ auth_uid_of (PStr sub) [] = (Ok (PStr derived), [])
    /\ handleOAuthCallback Examples.cfg_ok Examples.w_ok Examples.req_ok =
         (Ok (mk_response 200 json_headers
                (PDict [("customToken", PStr "signed.custom.token");
                        ("uid", PStr derived)])),
          [ EvTokenPost "https://idp.example.com/oidc/token"
              [ ("grant_type", PStr "authorization_code");
                ("code", PStr "auth-code-1");
                ("code_verifier", PStr "verifier-1");
                ("client_id", PStr "client-1");
                ("client_secret", PStr "s3cret");
                ("redirect_uri", PStr "https://app.example.com/callback") ]
              10;
            EvJwksFetch "https://idp.example.com/oidc/jwks";
            EvFirestoreSet "users" "12345"
              [ ("sub", PStr "idp|12345");
                ("email", PStr "user@example.com");
                ("updated_at", PSentinel "SERVER_TIMESTAMP");
                ("national_id", PStr "0101302989") ]
              true;
            EvCreateCustomToken (PStr "12345")
              (Some [("national_id", PStr "0101302989")]) ]).
Proof.
  eapply (success_returns_token_and_derived_uid
            Examples.cfg_ok Examples.w_ok Examples.req_ok
            (PStr "auth-code-1") (PStr "verifier-1") PNone).
  - reflexivity.
  - eexists. repeat split; reflexivity.
  - lazy; reflexivity.
  - lazy; reflexivity.
  - reflexivity.
  - lazy; reflexivity.
  - lazy; reflexivity.
  - lazy; reflexivity.
Defined.

(** ** The derived user identifier *)

Lemma str_in_pipe_app_pipe (s : string) :
  str_in "|" (s ++ "|") = true.
Proof.
  induction s as [|c s IH]; [reflexivity|].
  change (String c s ++ "|")%string with (String c (s ++ "|"))%string.
  rewrite str_in_pipe_cons, IH. apply orb_true_r.
Qed.

Lemma final_piece_app_pipe (s : string) :
  final_piece (s ++ "|") = "".
Proof.
  induction s as [|c s IH]; [reflexivity|].
  change (String c s ++ "|")%string with (String c (s ++ "|"))%string.
  rewrite final_piece_cons, str_in_pipe_app_pipe, orb_true_r. exact IH.
Qed.

(** C4. The derived identifier is a deterministic pure function of the
    subject claim: ["idp|12345"] derives to ["12345"], a subject without
    ['|'] such as ["abc123"] derives to itself, the derivation makes no
    outbound call and does not depend on the calls made before it, and two
    runs of [create_or_update_user] on claims with the same subject,
    whatever the configuration, the world and the other claims, return
    the same identifier. *)
Theorem derived_uid_deterministic :
  (forall t, auth_uid_of (PStr "idp|12345") t = (Ok (PStr "12345"), t))
  /\ (forall t, auth_uid_of (PStr "abc123") t = (Ok (PStr "abc123"), t))
  /\ (forall s t, str_in "|" s = false ->
        auth_uid_of (PStr s) t = (Ok (PStr s), t))
  /\ (forall s t t',
        fst (auth_uid_of (PStr s) t) = fst (auth_uid_of (PStr s) t')
        /\ snd (auth_uid_of (PStr s) t) = t)
  /\ (forall cfg1 w1 claims1 t1 uid1 t1' cfg2 w2 claims2 t2 uid2 t2',
        dict_get "sub" claims1 = dict_get "sub" claims2 ->
        create_or_update_user cfg1 w1 claims1 t1 = (Ok uid1, t1') ->
        create_or_update_user cfg2 w2 claims2 t2 = (Ok uid2, t2') ->
        uid1 = uid2).
Proof.
  split; [|split; [|split; [|split]]].
  - intros t. now rewrite auth_uid_of_str.
  - intros t. now rewrite auth_uid_of_str.
  - intros s t Hs. now rewrite auth_uid_of_str, Hs.
  - intros s t t'. now rewrite !auth_uid_of_str.
  - intros cfg1 w1 claims1 t1 uid1 t1' cfg2 w2 claims2 t2 uid2 t2' Hsub H1 H2.
    apply create_or_update_user_ok in H1 as (s1 & Hs1 & -> & _).
    apply create_or_update_user_ok in H2 as (s2 & Hs2 & -> & _).
    rewrite Hs1, Hs2 in Hsub. now injection Hsub as ->.
Qed.

Lemma derived_uid_deterministic_witness :
  str_in "|" "abc123" = false
  /\ auth_uid_of (PStr "abc123") [] = (Ok (PStr "abc123"), [])
  /\ PStr "12345" = PStr "12345".
Proof.
  split; [reflexivity|]. split.
  - apply (proj1 (proj2 (proj2 derived_uid_deterministic))). reflexivity.
  - apply (proj2 (proj2 (proj2 (proj2 derived_uid_deterministic)))
             Examples.cfg_ok Examples.w_ok
             (Examples.claims_of "idp|12345" []) [] (PStr "12345")
             [EvFirestoreSet "users" "12345"
                [ ("sub", PStr "idp|12345");
                  ("email", PStr "user@example.com");
                  ("updated_at", PSentinel "SERVER_TIMESTAMP") ] true]
             Examples.cfg_no_secret Examples.w_ok
             [("sub", PStr "idp|12345"); ("name", PStr "N. N.")]
             [EvJwksFetch "u"] (PStr "12345")
             [EvJwksFetch "u";
              EvFirestoreSet "users" "12345"
                [ ("sub", PStr "idp|12345");
                  ("name", PStr "N. N.");
                  ("updated_at", PSentinel "SERVER_TIMESTAMP") ] true]);
      reflexivity.
Defined.

(** C10. For a subject that contains ['|'] the derived identifier is what
    follows the last ['|']: ["a|b|c"] derives to ["c"], and a subject that
    ends in ['|'] derives to the empty string.  That empty string is the
    document key of the Firestore write, and, when the write returns, the
    uid handed to [auth.create_custom_token]. *)
Theorem derived_uid_after_last_separator :
  (forall s t, str_in "|" s = true ->
     exists before uid : string,
       auth_uid_of (PStr s) t = (Ok (PStr uid), t)
       /\ s = (before ++ "|" ++ uid)%string
       /\ str_in "|" uid = false)
  /\ (forall t, auth_uid_of (PStr "a|b|c") t = (Ok (PStr "c"), t))
  /\ (forall s t, auth_uid_of (PStr (s ++ "|")) t = (Ok (PStr ""), t))
  /\ (forall cfg w claims s t,
        firestore_client w = Ok tt ->
        dict_get "sub" claims = Some (PStr (s ++ "|")) ->
        exists r data,
          create_or_update_user cfg w claims t =
            (r, t ++ [EvFirestoreSet "users" "" data true])
          /\ (r = Ok (PStr "") \/ exists e, r = Raise e))
  /\ (forall cfg w claims s t uid t1,
        dict_get "sub" claims = Some (PStr (s ++ "|")) ->
        create_or_update_user cfg w claims t = (Ok uid, t1) ->
        exists r data bag,
          create_custom_token cfg w uid claims t1 =
            (r, t ++ [EvFirestoreSet "users" "" data true;
                      EvCreateCustomToken (PStr "") bag])).
Proof.
  assert (Hne : forall s, (s ++ "|")%string <> "").
  { intros [|c s]; discriminate. }
  split; [|split; [|split; [|split]]].
  - intros s t Hs.
    destruct (final_piece_after_last_pipe s Hs) as (before & Heq & Hno).
    exists before, (final_piece s).
    now rewrite auth_uid_of_str, Hs.
  - intros t. now rewrite auth_uid_of_str.
  - intros s t.
    now rewrite auth_uid_of_str, str_in_pipe_app_pipe, final_piece_app_pipe.
  - intros cfg w claims s t Hdb Hsub.
    rewrite (create_or_update_user_str cfg w claims _ t Hdb Hsub (Hne s));
      rewrite str_in_pipe_app_pipe, final_piece_app_pipe; [|reflexivity].
    eexists _, _. split; [reflexivity|].
    destruct (firestore_set w _ _ _ _) as [u|e]; [left|right]; eauto.
  - intros cfg w claims s t uid t1 Hsub Hrun.
    apply create_or_update_user_ok in Hrun as (sub & Hsub' & -> & -> & _).
    rewrite Hsub in Hsub'. injection Hsub' as <-.
    rewrite str_in_pipe_app_pipe, final_piece_app_pipe.
    rewrite create_custom_token_run.
    eexists _, _, _. now rewrite <- app_assoc.
Qed.

Lemma derived_uid_after_last_separator_witness :
  str_in "|" "kenni.is|12345" = true
  /\ exists before uid : string,
       auth_uid_of (PStr "kenni.is|12345") [] = (Ok (PStr uid), [])
       /\ "kenni.is|12345" = (before ++ "|" ++ uid)%string
       /\ str_in "|" uid = false.
Proof.
  split; [reflexivity|].
  apply (proj1 derived_uid_after_last_separator). reflexivity.
Defined.

(** ** Configuration and request validation *)

(** C8. If any of the issuer URL, the client id, the client secret or the
    redirect URI is empty, every request is answered with HTTP 500 and
    error kind [configuration_error], and no outbound call has been made. *)
Theorem incomplete_configuration_fails_fast cfg w req :
  OAUTH_ISSUER_URL cfg = "" \/ OAUTH_CLIENT_ID cfg = ""
  \/ OAUTH_CLIENT_SECRET cfg = "" \/ OAUTH_REDIRECT_URI cfg = "" ->
  handleOAuthCallback cfg w req =
    (Ok (mk_response 500 json_headers
           (error_body "configuration_error"
              "Cloud Function not properly configured. Check environment variables.")),
     []).
Proof.
  intros Hempty.
  assert (Hcfg : config_complete cfg = false).
  { destruct (config_complete cfg) eqn:H; [|reflexivity].
    apply config_complete_iff in H. intuition congruence. }
  unfold handleOAuthCallback, handleOAuthCallback_try.
  fold (config_complete cfg). now rewrite Hcfg.
Qed.

Lemma incomplete_configuration_fails_fast_witness :
  OAUTH_CLIENT_SECRET Examples.cfg_no_secret = ""
  /\ handleOAuthCallback Examples.cfg_no_secret Examples.w_ok Examples.req_ok =
       (Ok (mk_response 500 json_headers
              (error_body "configuration_error"
                 "Cloud Function not properly configured. Check environment variables.")),
        []).
Proof.
  split; [reflexivity|].
  apply incomplete_configuration_fails_fast.
  right; right; left. reflexivity.
Defined.

(** C7, as the code has it.  With the configuration complete, a request
    with no JSON body, with an empty JSON value as body, or with a JSON
    object that lacks a truthy [code] or a truthy [codeVerifier], is
    answered with HTTP 400 and error kind [invalid_request], and no
    outbound call has been made. *)
Theorem invalid_request_rejected cfg w req :
  config_complete cfg = true ->
  lacks_code_or_verifier req = true ->
  body_is_object_or_empty req = true ->
  exists message : string,
    handleOAuthCallback cfg w req =
      (Ok (mk_response 400 json_headers (error_body "invalid_request" message)),
       []).
Proof.
  intros Hcfg Hlacks Hshape.
  unfold handleOAuthCallback, handleOAuthCallback_try.
  fold (config_complete cfg). rewrite Hcfg. cbn [negb].
  unfold lacks_code_or_verifier, body_is_object_or_empty, get_json_silent in *.
  destruct (request_json req) as [v|]; [|eexists; reflexivity].
  destruct (truthy v) eqn:Hv; cbn [negb]; [|eexists; reflexivity].
  destruct v as [| b | z | s | l | fields | n]; try congruence;
    try (rewrite Hv in Hshape; discriminate).
  cbn [py_get]. run_M. rewrite Hlacks. eexists; reflexivity.
Qed.

Lemma invalid_request_rejected_witness :
  exists message : string,
    handleOAuthCallback Examples.cfg_ok Examples.w_ok
      (mk_request (Some (PDict [("code", PStr "auth-code-1")]))) =
      (Ok (mk_response 400 json_headers (error_body "invalid_request" message)),
       []).
Proof.
  apply invalid_request_rejected; reflexivity.
Defined.

(** C7 as stated fails twice.  Under an incomplete configuration a
    request without a body is answered with 500 [configuration_error]:
    the configuration check comes first.  Under a complete configuration
    a body that is a non-empty JSON array has no method [get], and the
    request is answered with 500 [internal_error]. *)
Lemma invalid_request_not_always_400 :
  (lacks_code_or_verifier (mk_request None) = true
   /\ handleOAuthCallback Examples.cfg_no_secret Examples.w_ok
        (mk_request None) =
        (Ok (mk_response 500 json_headers
               (error_body "configuration_error"
                  "Cloud Function not properly configured. Check environment variables.")),
         []))
  /\ (lacks_code_or_verifier (mk_request (Some (PList [PInt 1]))) = true
      /\ handleOAuthCallback Examples.cfg_ok Examples.w_ok
           (mk_request (Some (PList [PInt 1]))) =
           (Ok (mk_response 500 json_headers
                  (error_body "internal_error"
                     "An unexpected error occurred: 'list' object has no attribute 'get'")),
            [])).
Proof. repeat split. Qed.

(** ** Every request is answered *)

Lemma issubclass_Exception (c : exn_class) : issubclass c Exception = true.
Proof. destruct c; reflexivity. Qed.

(** Every exception is caught by one of the three clauses. *)
Lemma except_classifies (e : exn) :
  exists response,
    handleOAuthCallback_except e = Ok response /\ classified_error response.
Proof.
  unfold handleOAuthCallback_except, classified_error.
  destruct (isinstance e HTTPError).
  { rewrite json_response_error. eexists; split; [reflexivity|].
    eexists _, _. split; [reflexivity|]. cbn. tauto. }
  destruct (isinstance e InvalidTokenError).
  { rewrite json_response_error. eexists; split; [reflexivity|].
    eexists _, _. split; [reflexivity|]. cbn. tauto. }
  unfold isinstance. rewrite issubclass_Exception.
  rewrite json_response_error. eexists; split; [reflexivity|].
  eexists _, _. split; [reflexivity|]. cbn. tauto.
Qed.

(** A response returned from inside the [try] block is the success
    response or one of three error responses. *)
Lemma try_returns_classified cfg w req t response t' :
  handleOAuthCallback_try cfg w req t = (Ok response, t') ->
  success_shape response \/ classified_error response.
Proof.
  unfold handleOAuthCallback_try.
  destruct (negb (forallb truthy _)).
  { rewrite json_response_error. intros [= <- _]. right.
    eexists _, _. split; [reflexivity|]. cbn. tauto. }
  destruct (negb (truthy (get_json_silent req))).
  { rewrite json_response_error. intros [= <- _]. right.
    eexists _, _. split; [reflexivity|]. cbn. tauto. }
  intros H.
  apply bind_ok_inv in H as (code & ta & _ & H).
  apply bind_ok_inv in H as (verifier & tb & _ & H).
  apply bind_ok_inv in H as (redirect & tc & _ & H).
  destruct (negb (truthy code) || negb (truthy verifier)).
  { rewrite json_response_error in H. injection H as <- _. right.
    eexists _, _. split; [reflexivity|]. cbn. tauto. }
  apply bind_ok_inv in H as (token_response & t1 & _ & H).
  apply bind_ok_inv in H as (id_token & t1' & _ & H).
  destruct (negb (truthy id_token)).
  { rewrite json_response_error in H. injection H as <- _. right.
    eexists _, _. split; [reflexivity|]. cbn. tauto. }
  apply bind_ok_inv in H as (claims & t2 & _ & H).
  apply bind_ok_inv in H as (uid & t3 & Hsync & H).
  apply bind_ok_inv in H as (custom_token & t4 & _ & H).
  apply create_or_update_user_ok in Hsync as (sub & _ & -> & _).
  injection H as <- _. left. split; [reflexivity|].
  eexists _, _. reflexivity.
Qed.

(** The [except] clauses answer every exception, with the answer that
    goes with its class. *)
Lemma except_is_error_answer (e : exn) :
  handleOAuthCallback_except e = Ok (error_answer e).
Proof.
  unfold handleOAuthCallback_except, error_answer.
  destruct (isinstance e HTTPError); [apply json_response_error|].
  destruct (isinstance e InvalidTokenError); [apply json_response_error|].
  unfold isinstance. rewrite issubclass_Exception.
  apply json_response_error.
Qed.

Lemma error_answer_classified (e : exn) :
  classified_error (error_answer e) /\ status (error_answer e) <> 200.
Proof.
  unfold error_answer, classified_error.
  destruct (isinstance e HTTPError);
    [|destruct (isinstance e InvalidTokenError)];
    (split; [eexists _, _; split; [reflexivity|cbn; tauto]|cbn; lia]).
Qed.

(** An error response never has status 200. *)
Lemma classified_error_not_200 response :
  classified_error response -> status response <> 200.
Proof.
  intros (kind & message & _ & Hin) H200. rewrite H200 in Hin.
  cbn in Hin.
  repeat (destruct Hin as [Hin|Hin]; [discriminate|]). exact Hin.
Qed.

(** A step that raises makes the [try] block raise, with the calls made
    up to then. *)
Lemma stage_failure_raises cfg w req code verifier redirect e calls :
  config_complete cfg = true ->
  well_formed_request req code verifier redirect ->
  stage_failure cfg w code verifier redirect e calls ->
  handleOAuthCallback_try cfg w req [] = (Raise e, calls).
Proof.
  intros Hcfg Hreq Hfail.
  rewrite (try_well_formed_request _ _ _ _ _ _ _ Hcfg Hreq).
  destruct Hfail
    as [Hex
       |token_response Hex Hget
       |token_response id_token t1 Hex Hget Tid Hver
       |token_response id_token claims t1 t2 Hex Hget Tid Hver Hsync
       |token_response id_token claims uid t1 t2 t3
          Hex Hget Tid Hver Hsync Hmint].
  - now rewrite (bind_raise _ _ _ _ _ Hex).
  - rewrite (bind_ok _ _ _ _ _ Hex). unfold after_exchange.
    now rewrite (bind_raise _ _ _ _ _ Hget).
  - rewrite (bind_ok _ _ _ _ _ Hex). unfold after_exchange.
    rewrite (bind_ok _ _ _ _ _ Hget), Tid. cbn [negb].
    now rewrite (bind_raise _ _ _ _ _ Hver).
  - rewrite (bind_ok _ _ _ _ _ Hex). unfold after_exchange.
    rewrite (bind_ok _ _ _ _ _ Hget), Tid. cbn [negb].
    rewrite (bind_ok _ _ _ _ _ Hver).
    now rewrite (bind_raise _ _ _ _ _ Hsync).
  - rewrite (bind_ok _ _ _ _ _ Hex). unfold after_exchange.
    rewrite (bind_ok _ _ _ _ _ Hget), Tid. cbn [negb].
    rewrite (bind_ok _ _ _ _ _ Hver).
    rewrite (bind_ok _ _ _ _ _ Hsync).
    now rewrite (bind_raise _ _ _ _ _ Hmint).
Qed.

(** C9. For every request the handler returns one response and lets no
    exception out.  The response is either the 200 response or has the
    body [{"error": kind, "message": text}] with [kind] one of
    [configuration_error] (500), [invalid_request] (400), [token_error]
    (500), [token_exchange_failed] (500), [invalid_token] (401) and
    [internal_error] (500).  A token response that lacks an identity
    token is answered with 500 [token_error].  Every exception raised
    inside the [try] block is answered by its class alone: 500
    [token_exchange_failed] for an [HTTPError], 401 [invalid_token] for
    any other [InvalidTokenError], 500 [internal_error] for the rest;
    so is the failure of each step of a run (the token exchange, reading
    the identity token, the verification, the write of the user record,
    the minting), together with the calls made up to it.  A 200 answer
    is given only when the [try] block returned it, no exception having
    been raised. *)
Theorem every_request_answered_and_classified cfg w req :
  (exists response calls,
     handleOAuthCallback cfg w req = (Ok response, calls)
     /\ (success_shape response \/ classified_error response)
     /\ (status response <> 200 -> classified_error response))
  /\ (forall code verifier redirect token_response t1,
        config_complete cfg = true ->
        well_formed_request req code verifier redirect ->
        exchange_code_for_tokens cfg w code verifier redirect [] =
          (Ok (PDict token_response), t1) ->
        truthy (dict_get_default "id_token" token_response) = false ->
        handleOAuthCallback cfg w req =
          (Ok (mk_response 500 json_headers
                 (error_body "token_error" "No ID token received")),
           t1))
  /\ (forall e calls,
        handleOAuthCallback_try cfg w req [] = (Raise e, calls) ->
        handleOAuthCallback cfg w req = (Ok (error_answer e), calls)
        /\ classified_error (error_answer e)
        /\ status (error_answer e) <> 200)
  /\ (forall code verifier redirect e calls,
        config_complete cfg = true ->
        well_formed_request req code verifier redirect ->
        stage_failure cfg w code verifier redirect e calls ->
        handleOAuthCallback cfg w req = (Ok (error_answer e), calls))
  /\ (forall response calls,
        handleOAuthCallback cfg w req = (Ok response, calls) ->
        status response = 200 ->
        handleOAuthCallback_try cfg w req [] = (Ok response, calls)
        /\ success_shape response).
Proof.
  split; [|split; [|split; [|split]]].
  - unfold handleOAuthCallback.
    destruct (handleOAuthCallback_try cfg w req []) as [[response|e] calls] eqn:H.
    + exists response, calls. split; [reflexivity|].
      apply try_returns_classified in H. split; [exact H|].
      destruct H as [[H200 _]|H]; [contradiction|auto].
    + destruct (except_classifies e) as (response & -> & Hc).
      exists response, calls. auto.
  - intros code verifier redirect token_response t1 Hcfg Hreq Hex Hid.
    unfold handleOAuthCallback.
    rewrite (try_well_formed_request _ _ _ _ _ _ _ Hcfg Hreq).
    rewrite (bind_ok _ _ _ _ _ Hex). unfold after_exchange.
    cbn [py_get]. unfold bind at 1, ret at 1. now rewrite Hid.
  - intros e calls Htry. split; [|apply error_answer_classified].
    unfold handleOAuthCallback.
    now rewrite Htry, except_is_error_answer.
  - intros code verifier redirect e calls Hcfg Hreq Hfail.
    unfold handleOAuthCallback.
    rewrite (stage_failure_raises _ _ _ _ _ _ _ _ Hcfg Hreq Hfail).
    now rewrite except_is_error_answer.
  - intros response calls Hrun H200. revert Hrun.
    unfold handleOAuthCallback.
    destruct (handleOAuthCallback_try cfg w req [])
      as [[answer|e] made] eqn:Htry.
    + intros [= <- <-]. split; [reflexivity|].
      apply try_returns_classified in Htry as [Hok|Herr]; [exact Hok|].
      now elim (classified_error_not_200 _ Herr).
    + rewrite except_is_error_answer. intros [= <- <-].
      now elim (proj2 (error_answer_classified e)).
Qed.

Lemma every_request_answered_and_classified_witness :
  handleOAuthCallback Examples.cfg_ok
    (Examples.world_of
       (PostReplies (mk_http_response 200 "OK"
                       "https://idp.example.com/oidc/token"
                       (Some (PDict [("access_token", PStr "at-1")]))))
       (fun _ => None))
    Examples.req_ok =
    (Ok (mk_response 500 json_headers
           (error_body "token_error" "No ID token received")),
     [ EvTokenPost "https://idp.example.com/oidc/token"
         [ ("grant_type", PStr "authorization_code");
           ("code", PStr "auth-code-1");
           ("code_verifier", PStr "verifier-1");
           ("client_id", PStr "client-1");
           ("client_secret", PStr "s3cret");
           ("redirect_uri", PStr "https://app.example.com/callback") ]
         10 ])
  /\ handleOAuthCallback Examples.cfg_ok
       (Examples.world_of Examples.reply_with_token
          (Examples.token_with "RS256" "k1"
             [ ("iss", PStr "https://idp.example.com");
               ("aud", PStr "another-client");
               ("exp", PInt 2000);
               ("sub", PStr "idp|12345") ]))
       Examples.req_ok =
       (Ok (mk_response 401 json_headers
              (error_body "invalid_token"
                 "ID token verification failed: Audience doesn't match")),
        [ token_request Examples.cfg_ok (PStr "auth-code-1")
            (PStr "verifier-1") PNone;
          EvJwksFetch "https://idp.example.com/oidc/jwks" ]).
Proof.
  split.
  - apply (proj1 (proj2 (every_request_answered_and_classified
                           Examples.cfg_ok
                           (Examples.world_of
                              (PostReplies
                                 (mk_http_response 200 "OK"
                                    "https://idp.example.com/oidc/token"
                                    (Some (PDict [("access_token",
                                                   PStr "at-1")]))))
                              (fun _ => None))
                           Examples.req_ok))
             (PStr "auth-code-1") (PStr "verifier-1") PNone
             [("access_token", PStr "at-1")]
             [ token_request Examples.cfg_ok (PStr "auth-code-1")
                 (PStr "verifier-1") PNone ]
             eq_refl
             (ex_intro _ [ ("code", PStr "auth-code-1");
                           ("codeVerifier", PStr "verifier-1") ]
                (conj eq_refl (conj eq_refl (conj eq_refl
                   (conj eq_refl (conj eq_refl eq_refl))))))
             eq_refl eq_refl).
  - apply (proj1 (proj2 (proj2 (proj2
              (every_request_answered_and_classified
                 Examples.cfg_ok
                 (Examples.world_of Examples.reply_with_token
                    (Examples.token_with "RS256" "k1"
                       [ ("iss", PStr "https://idp.example.com");
                         ("aud", PStr "another-client");
                         ("exp", PInt 2000);
                         ("sub", PStr "idp|12345") ]))
                 Examples.req_ok))))
             (PStr "auth-code-1") (PStr "verifier-1") PNone
             (mk_exn InvalidAudienceError "Audience doesn't match")
             [ token_request Examples.cfg_ok (PStr "auth-code-1")
                 (PStr "verifier-1") PNone;
               EvJwksFetch "https://idp.example.com/oidc/jwks" ]
             eq_refl
             (ex_intro _ [ ("code", PStr "auth-code-1");
                           ("codeVerifier", PStr "verifier-1") ]
                (conj eq_refl (conj eq_refl (conj eq_refl
                   (conj eq_refl (conj eq_refl eq_refl))))))
             (VerificationFails Examples.cfg_ok
                (Examples.world_of Examples.reply_with_token
                   (Examples.token_with "RS256" "k1"
                      [ ("iss", PStr "https://idp.example.com");
                        ("aud", PStr "another-client");
                        ("exp", PInt 2000);
                        ("sub", PStr "idp|12345") ]))
                (PStr "auth-code-1") (PStr "verifier-1") PNone
                (mk_exn InvalidAudienceError "Audience doesn't match")
                [ token_request Examples.cfg_ok (PStr "auth-code-1")
                    (PStr "verifier-1") PNone;
                  EvJwksFetch "https://idp.example.com/oidc/jwks" ]
                (PDict [ ("access_token", PStr "at-1");
                         ("id_token", PStr "header.payload.sig") ])
                (PStr "header.payload.sig")
                [ token_request Examples.cfg_ok (PStr "auth-code-1")
                    (PStr "verifier-1") PNone ]
                eq_refl eq_refl eq_refl eq_refl)).
Defined.

(** ** Propagation of the custom claim *)

Section DictFacts.

Lemma dict_get_set_same k v d : dict_get k (dict_set k v d) = Some v.
Proof.
  induction d as [|[k' v'] d IH]; cbn [dict_set dict_get].
  - now rewrite String.eqb_refl.
  - destruct (String.eqb k k') eqn:E; cbn [dict_get].
    + now rewrite String.eqb_refl.
    + now rewrite E.
Qed.

Lemma dict_get_drop_none_some k d v :
  dict_get k d = Some v -> v <> PNone ->
  dict_get k (drop_none d) = Some v.
Proof.
  intros Hget Hv. induction d as [|[k' v'] d IH]; [discriminate|].
  cbn [dict_get] in Hget. unfold drop_none in *. cbn [filter snd].
  destruct (String.eqb k k') eqn:E.
  - injection Hget as ->.
    assert (Hn : is_none v = false).
    { destruct v; [now elim Hv|reflexivity..]. }
    rewrite Hn. cbn [negb dict_get]. now rewrite E.
  - destruct (negb (is_none v')); cbn [dict_get]; [rewrite E|]; auto.
Qed.

Lemma dict_get_notin k d :
  ~ In k (dict_keys d) -> dict_get k d = None.
Proof.
  induction d as [|[k' v'] d IH]; [reflexivity|].
  cbn [dict_keys map fst In dict_get]. intros H.
  destruct (String.eqb_spec k k') as [->|_]; [tauto|].
  apply IH. unfold dict_keys. tauto.
Qed.

Lemma dict_get_drop_none_notin k d :
  dict_get k d = None -> dict_get k (drop_none d) = None.
Proof.
  induction d as [|[k' v'] d IH]; [reflexivity|].
  cbn [dict_get]. unfold drop_none in *. cbn [filter snd].
  destruct (String.eqb k k') eqn:E; [discriminate|].
  intros H. destruct (negb (is_none v')); cbn [dict_get];
    [rewrite E|]; auto.
Qed.

(** In a dict with distinct keys, a key bound to [None] is gone after
    the [None] values are dropped. *)
Lemma dict_get_drop_none_null k d :
  NoDup (dict_keys d) -> dict_get k d = Some PNone ->
  dict_get k (drop_none d) = None.
Proof.
  induction d as [|[k' v'] d IH]; [discriminate|].
  cbn [dict_keys map fst dict_get]. intros Hnd Hget.
  inversion Hnd as [|? ? Hnotin Hnd']; subst.
  unfold drop_none in *. cbn [filter snd].
  destruct (String.eqb_spec k k') as [->|Hne].
  - injection Hget as ->. cbn [is_none negb].
    apply dict_get_drop_none_notin, dict_get_notin, Hnotin.
  - destruct (negb (is_none v')); cbn [dict_get]; auto.
    destruct (String.eqb_spec k k'); [contradiction|auto].
Qed.

Lemma dict_set_keys_in k v d x :
  In x (dict_keys (dict_set k v d)) -> x = k \/ In x (dict_keys d).
Proof.
  induction d as [|[k' v'] d IH]; cbn [dict_set].
  - cbn. intuition.
  - destruct (String.eqb_spec k k') as [->|Hne]; cbn; [intuition|].
    intros [<-|Hx]; [auto|]. destruct (IH Hx); auto.
Qed.

Lemma dict_set_keys_nodup k v d :
  NoDup (dict_keys d) -> NoDup (dict_keys (dict_set k v d)).
Proof.
  induction d as [|[k' v'] d IH]; cbn [dict_set].
  - intros _. cbn. constructor; [tauto|constructor].
  - cbn [dict_keys map fst]. intros Hnd.
    inversion Hnd as [|? ? Hnotin Hnd']; subst.
    destruct (String.eqb_spec k k') as [->|Hne].
    + cbn. now constructor.
    + cbn [dict_keys map fst]. constructor; [|now apply IH].
      intros Hk. apply dict_set_keys_in in Hk as [->|Hk]; [now elim Hne|].
      now apply Hnotin.
Qed.

End DictFacts.

Lemma fixed_fields_nodup subject claims :
  NoDup (dict_keys (fixed_fields subject claims)).
Proof.
  cbn. repeat constructor; cbn; intuition discriminate.
Qed.

Lemma custom_claim_present_some cfg claims name v :
  CUSTOM_CLAIM_NAME cfg = Some name -> name <> "" ->
  dict_get name claims = Some v ->
  custom_claim_present cfg claims = Some name
  /\ dict_get_default name claims = v.
Proof.
  intros Hcfg Hne Hget. unfold custom_claim_present, dict_mem, dict_get_default.
  rewrite Hcfg, Hget. cbn [truthy].
  destruct (String.eqb_spec name ""); [contradiction|]. auto.
Qed.

Lemma custom_claim_present_none cfg claims :
  CUSTOM_CLAIM_NAME cfg = None \/ CUSTOM_CLAIM_NAME cfg = Some ""
  \/ (exists name, CUSTOM_CLAIM_NAME cfg = Some name
                   /\ dict_get name claims = None) ->
  custom_claim_present cfg claims = None.
Proof.
  unfold custom_claim_present, dict_mem.
  intros [-> | [-> | (name & -> & ->)]]; [reflexivity..|].
  now rewrite andb_false_r.
Qed.

(** A name the claims do not hold is not in the profile built from the
    fixed fields, [updated_at] apart. *)
Lemma fixed_fields_absent subject claims name :
  dict_get name claims = None ->
  name <> "sub" -> name <> "updated_at" ->
  dict_get name (drop_none (fixed_fields subject claims)) = None.
Proof.
  intros Habsent Hsub Hupd.
  assert (Hnull : dict_get_default name claims = PNone).
  { unfold dict_get_default. now rewrite Habsent. }
  destruct (dict_get name (fixed_fields subject claims)) as [v|] eqn:Hget;
    [|now apply dict_get_drop_none_notin].
  apply dict_get_drop_none_null; [apply fixed_fields_nodup|].
  rewrite Hget. f_equal. revert Hget.
  unfold fixed_fields. cbn [dict_get].
  destruct (String.eqb_spec name "sub"); [contradiction|].
  repeat match goal with
         | |- context [String.eqb name ?k] =>
             destruct (String.eqb_spec name k) as [->|?];
             [try contradiction; rewrite Hnull; now intros [= <-]|]
         end.
  discriminate.
Qed.

(** C5, as the code has it.  In a run where the user record is written
    and the credential is requested: when [CUSTOM_CLAIM_NAME] is
    configured and the verified claims hold a value other than [None]
    under it, that value is in the profile data written and is the one
    developer claim of the credential; when the name is unconfigured
    (unset or empty) or the key is absent from the claims, no developer
    claims are passed and the profile data holds the fixed fields only.
    A key present with the value [None] is passed as a developer claim
    and dropped from the profile data with the other [None] values. *)
Theorem custom_claim_propagation cfg w claims t uid t1 r t2 :
  create_or_update_user cfg w claims t = (Ok uid, t1) ->
  create_custom_token cfg w uid claims t1 = (r, t2) ->
  exists (doc : string) (profile_data : dict) (developer_claims : option dict),
    t2 = t ++ [ EvFirestoreSet "users" doc profile_data true;
                EvCreateCustomToken uid developer_claims ]
    /\ (forall name v,
          CUSTOM_CLAIM_NAME cfg = Some name -> name <> "" ->
          dict_get name claims = Some v -> v <> PNone ->
          dict_get name profile_data = Some v
          /\ developer_claims = Some [(name, v)])
    /\ (forall name,
          CUSTOM_CLAIM_NAME cfg = Some name -> name <> "" ->
          dict_get name claims = Some PNone ->
          dict_get name profile_data = None
          /\ developer_claims = Some [(name, PNone)])
    /\ (CUSTOM_CLAIM_NAME cfg = None \/ CUSTOM_CLAIM_NAME cfg = Some ""
        \/ (exists name, CUSTOM_CLAIM_NAME cfg = Some name
                         /\ dict_get name claims = None) ->
        developer_claims = None
        /\ profile_data =
             drop_none (fixed_fields (dict_get_default "sub" claims) claims)
        /\ (forall name,
              CUSTOM_CLAIM_NAME cfg = Some name -> name <> "updated_at" ->
              dict_get name profile_data = None)).
Proof.
  intros Hsync Hmint.
  apply create_or_update_user_ok in Hsync as (sub & Hsub & -> & -> & _).
  rewrite create_custom_token_run in Hmint. injection Hmint as _ <-.
  eexists _, _, _. split; [now rewrite <- app_assoc|].
  assert (Hsubject : dict_get_default "sub" claims = PStr sub).
  { unfold dict_get_default. now rewrite Hsub. }
  unfold profile_data_of, developer_claims_of.
  fold (fixed_fields (PStr sub) claims).
  split; [|split].
  - intros name v Hcfg Hne Hget Hv.
    destruct (custom_claim_present_some _ _ _ _ Hcfg Hne Hget) as [-> ->].
    split; [|reflexivity].
    apply dict_get_drop_none_some; [apply dict_get_set_same|exact Hv].
  - intros name Hcfg Hne Hget.
    destruct (custom_claim_present_some _ _ _ _ Hcfg Hne Hget) as [-> ->].
    split; [|reflexivity].
    apply dict_get_drop_none_null; [|apply dict_get_set_same].
    apply dict_set_keys_nodup, fixed_fields_nodup.
  - intros Hnone. rewrite (custom_claim_present_none _ _ Hnone), Hsubject.
    split; [reflexivity|]. split; [reflexivity|].
    intros name Hcfg Hupd.
    destruct Hnone as [H | [H | (n & H & Hn)]]; rewrite Hcfg in H.
    + discriminate.
    + injection H as ->. now apply dict_get_drop_none_notin.
    + injection H as ->. apply fixed_fields_absent; congruence.
Qed.

Lemma custom_claim_propagation_witness :
  exists (doc : string) (profile_data : dict) (developer_claims : option dict),
    [ EvFirestoreSet "users" "12345"
        [ ("sub", PStr "idp|12345");
          ("email", PStr "user@example.com");
          ("updated_at", PSentinel "SERVER_TIMESTAMP");
          ("national_id", PStr "0101302989") ]
        true;
      EvCreateCustomToken (PStr "12345")
        (Some [("national_id", PStr "0101302989")]) ]
    = [] ++ [ EvFirestoreSet "users" doc profile_data true;
              EvCreateCustomToken (PStr "12345") developer_claims ]
    /\ dict_get "national_id" profile_data = Some (PStr "0101302989")
    /\ developer_claims = Some [("national_id", PStr "0101302989")].
Proof.
  destruct (custom_claim_propagation
              Examples.cfg_ok Examples.w_ok
              (Examples.claims_of "idp|12345"
                 [("national_id", PStr "0101302989")])
              [] (PStr "12345")
              [ EvFirestoreSet "users" "12345"
                  [ ("sub", PStr "idp|12345");
                    ("email", PStr "user@example.com");
                    ("updated_at", PSentinel "SERVER_TIMESTAMP");
                    ("national_id", PStr "0101302989") ]
                  true ]
              (Ok "signed.custom.token")
              [ EvFirestoreSet "users" "12345"
                  [ ("sub", PStr "idp|12345");
                    ("email", PStr "user@example.com");
                    ("updated_at", PSentinel "SERVER_TIMESTAMP");
                    ("national_id", PStr "0101302989") ]
                  true;
                EvCreateCustomToken (PStr "12345")
                  (Some [("national_id", PStr "0101302989")]) ]
              eq_refl eq_refl)
    as (doc & profile_data & developer_claims & Hcalls & Hpresent & _).
  exists doc, profile_data, developer_claims.
  split; [exact Hcalls|].
  apply (Hpresent "national_id" (PStr "0101302989"));
    [reflexivity | discriminate | reflexivity | discriminate].
Defined.

(** C5 as stated fails when the configured claim is present with the
    value [None]: the key is in the verified claims, the developer claims
    of the credential carry it, and the profile data written does not. *)
Lemma null_custom_claim_minted_but_not_stored :
  CUSTOM_CLAIM_NAME Examples.cfg_ok = Some "national_id"
  /\ dict_mem "national_id"
       (Examples.claims_of "idp|12345" [("national_id", PNone)]) = true
  /\ handleOAuthCallback Examples.cfg_ok
       (Examples.world_of Examples.reply_with_token
          (Examples.token_with "RS256" "k1"
             (Examples.claims_of "idp|12345" [("national_id", PNone)])))
       Examples.req_ok =
       (Ok (mk_response 200 json_headers
              (PDict [("customToken", PStr "signed.custom.token");
                      ("uid", PStr "12345")])),
        [ EvTokenPost "https://idp.example.com/oidc/token"
            [ ("grant_type", PStr "authorization_code");
              ("code", PStr "auth-code-1");
              ("code_verifier", PStr "verifier-1");
              ("client_id", PStr "client-1");
              ("client_secret", PStr "s3cret");
              ("redirect_uri", PStr "https://app.example.com/callback") ]
            10;
          EvJwksFetch "https://idp.example.com/oidc/jwks";
          EvFirestoreSet "users" "12345"
            [ ("sub", PStr "idp|12345");
              ("email", PStr "user@example.com");
              ("updated_at", PSentinel "SERVER_TIMESTAMP") ]
            true;
          EvCreateCustomToken (PStr "12345")
            (Some [("national_id", PNone)]) ]).
Proof. repeat split. Qed.

(** ** Where the handler departs from its documentation *)

(** C2, the code at a failing input.  The identity token names the key id
    ["k2"]; the provider publishes ["k1"] only.  [verify_id_token] raises
    [PyJWKClientError], which is not an [InvalidTokenError]: the request
    is answered with 500 [internal_error], not 401 [invalid_token].
    Nothing is written and nothing is minted. *)
Theorem unknown_key_id_answered_with_internal_error :
  let w := Examples.world_of Examples.reply_with_token
             (Examples.token_with "RS256" "k2"
                (Examples.claims_of "idp|12345" [])) in
  let e := mk_exn PyJWKClientError (no_signing_key (Some "k2")) in
  verify_id_token Examples.cfg_ok w (PStr "header.payload.sig") [] =
    (Raise e, [ EvJwksFetch "https://idp.example.com/oidc/jwks";
                EvJwksFetch "https://idp.example.com/oidc/jwks" ])
  /\ isinstance e InvalidTokenError = false
  /\ handleOAuthCallback Examples.cfg_ok w Examples.req_ok =
       (Ok (mk_response 500 json_headers
              (error_body "internal_error"
                 ("An unexpected error occurred: "
                  ++ no_signing_key (Some "k2")))),
        [ EvTokenPost "https://idp.example.com/oidc/token"
            [ ("grant_type", PStr "authorization_code");
              ("code", PStr "auth-code-1");
              ("code_verifier", PStr "verifier-1");
              ("client_id", PStr "client-1");
              ("client_secret", PStr "s3cret");
              ("redirect_uri", PStr "https://app.example.com/callback") ]
            10;
          EvJwksFetch "https://idp.example.com/oidc/jwks";
          EvJwksFetch "https://idp.example.com/oidc/jwks" ]).
Proof. repeat split. Qed.

(** C3, the code at a failing input.  The identity token asserts [HS256]
    and names a key id the provider does not publish.  The key lookup
    comes before [jwt.decode] and raises [PyJWKClientError]: the request
    is answered with 500 [internal_error], not 401 [invalid_token]. *)
Theorem non_rs256_unknown_key_id_answered_with_internal_error :
  let w := Examples.world_of Examples.reply_with_token
             (Examples.token_with "HS256" "k2"
                (Examples.claims_of "idp|12345" [])) in
  handleOAuthCallback Examples.cfg_ok w Examples.req_ok =
    (Ok (mk_response 500 json_headers
           (error_body "internal_error"
              ("An unexpected error occurred: "
               ++ no_signing_key (Some "k2")))),
     [ EvTokenPost "https://idp.example.com/oidc/token"
         [ ("grant_type", PStr "authorization_code");
           ("code", PStr "auth-code-1");
           ("code_verifier", PStr "verifier-1");
           ("client_id", PStr "client-1");
           ("client_secret", PStr "s3cret");
           ("redirect_uri", PStr "https://app.example.com/callback") ]
         10;
       EvJwksFetch "https://idp.example.com/oidc/jwks";
       EvJwksFetch "https://idp.example.com/oidc/jwks" ]).
Proof. reflexivity. Qed.

(** C6, the code at a failing input.  [requests.post] times out and
    raises [Timeout], which is a [RequestException] but not an
    [HTTPError]: the request is answered with 500 [internal_error], not
    500 [token_exchange_failed]. *)
Theorem timeout_answered_with_internal_error :
  let e := mk_exn Timeout "HTTPSConnectionPool(host='idp.example.com', port=443): Read timed out. (read timeout=10)" in
  let w := Examples.world_of (PostRaises e) (fun _ => None) in
  isinstance e RequestException = true
  /\ isinstance e HTTPError = false
  /\ handleOAuthCallback Examples.cfg_ok w Examples.req_ok =
       (Ok (mk_response 500 json_headers
              (error_body "internal_error"
                 "An unexpected error occurred: HTTPSConnectionPool(host='idp.example.com', port=443): Read timed out. (read timeout=10)")),
        [ EvTokenPost "https://idp.example.com/oidc/token"
            [ ("grant_type", PStr "authorization_code");
              ("code", PStr "auth-code-1");
              ("code_verifier", PStr "verifier-1");
              ("client_id", PStr "client-1");
              ("client_secret", PStr "s3cret");
              ("redirect_uri", PStr "https://app.example.com/callback") ]
            10 ]).
Proof. repeat split. Qed.

(** ** What holds around the three departures *)

(** [exchange_code_for_tokens] makes one call, whatever comes of it. *)
Lemma exchange_code_for_tokens_calls cfg w code verifier redirect t r t' :
  exchange_code_for_tokens cfg w code verifier redirect t = (r, t') ->
  t' = t ++ [token_request cfg code verifier redirect].
Proof.
  unfold exchange_code_for_tokens, token_request, token_url. run_M.
  destruct (requests_post w _ _ _) as [e|response].
  - now intros [= _ <-].
  - unfold raise_for_status, response_json. run_M.
    destruct ((400 <=? status_code response) && (status_code response <? 500));
      [now intros [= _ <-]|].
    destruct ((500 <=? status_code response) && (status_code response <? 600));
      [now intros [= _ <-]|].
    destruct (resp_json response); now intros [= _ <-].
Qed.

Lemma exchange_code_for_tokens_http_error
    cfg w code verifier redirect response t :
  requests_post w (token_url cfg)
    [ ("grant_type", PStr "authorization_code");
      ("code", code);
      ("code_verifier", verifier);
      ("client_id", PStr (OAUTH_CLIENT_ID cfg));
      ("client_secret", PStr (OAUTH_CLIENT_SECRET cfg));
      ("redirect_uri", py_or redirect (PStr (OAUTH_REDIRECT_URI cfg))) ]
    10 = PostReplies response ->
  400 <= status_code response < 600 ->
  exchange_code_for_tokens cfg w code verifier redirect t =
    (Raise (mk_exn HTTPError (status_line response)),
     t ++ [token_request cfg code verifier redirect]).
Proof.
  intros Hpost Hstatus.
  unfold exchange_code_for_tokens, token_request, status_line. run_M.
  fold (token_url cfg). rewrite Hpost.
  unfold raise_for_status. run_M.
  destruct (Z.ltb_spec (status_code response) 500) as [Hlt|Hge].
  - replace (400 <=? status_code response) with true
      by (symmetry; apply Z.leb_le; lia).
    reflexivity.
  - rewrite andb_false_r.
    replace (500 <=? status_code response) with true
      by (symmetry; apply Z.leb_le; lia).
    replace (status_code response <? 600) with true
      by (symmetry; apply Z.ltb_lt; lia).
    reflexivity.
Qed.

(** A 4xx or 5xx answer of the token endpoint is answered with 500
    [token_exchange_failed], the status line in the message. *)
Lemma http_error_status_answered_token_exchange_failed
    cfg w req code verifier redirect response :
  config_complete cfg = true ->
  well_formed_request req code verifier redirect ->
  requests_post w (token_url cfg)
    [ ("grant_type", PStr "authorization_code");
      ("code", code);
      ("code_verifier", verifier);
      ("client_id", PStr (OAUTH_CLIENT_ID cfg));
      ("client_secret", PStr (OAUTH_CLIENT_SECRET cfg));
      ("redirect_uri", py_or redirect (PStr (OAUTH_REDIRECT_URI cfg))) ]
    10 = PostReplies response ->
  400 <= status_code response < 600 ->
  handleOAuthCallback cfg w req =
    (Ok (mk_response 500 json_headers
           (error_body "token_exchange_failed"
              ("Failed to exchange authorization code: "
               ++ status_line response))),
     [token_request cfg code verifier redirect]).
Proof.
  intros Hcfg Hreq Hpost Hstatus. unfold handleOAuthCallback.
  rewrite (try_well_formed_request _ _ _ _ _ _ _ Hcfg Hreq).
  rewrite (bind_raise _ _ _ _ _
             (exchange_code_for_tokens_http_error
                cfg w code verifier redirect response [] Hpost Hstatus)).
  reflexivity.
Qed.

(** A transport failure, a [RequestException] that is not an [HTTPError]
    nor an [InvalidTokenError], is answered with 500 [internal_error]. *)
Lemma transport_failure_answered_internal_error
    cfg w req code verifier redirect e :
  config_complete cfg = true ->
  well_formed_request req code verifier redirect ->
  requests_post w (token_url cfg)
    [ ("grant_type", PStr "authorization_code");
      ("code", code);
      ("code_verifier", verifier);
      ("client_id", PStr (OAUTH_CLIENT_ID cfg));
      ("client_secret", PStr (OAUTH_CLIENT_SECRET cfg));
      ("redirect_uri", py_or redirect (PStr (OAUTH_REDIRECT_URI cfg))) ]
    10 = PostRaises e ->
  exn_cls e = Timeout \/ exn_cls e = ConnectionError ->
  handleOAuthCallback cfg w req =
    (Ok (mk_response 500 json_headers
           (error_body "internal_error"
              ("An unexpected error occurred: " ++ exn_str e))),
     [token_request cfg code verifier redirect]).
Proof.
  intros Hcfg Hreq Hpost Hcls. unfold handleOAuthCallback.
  rewrite (try_well_formed_request _ _ _ _ _ _ _ Hcfg Hreq).
  assert (Hex : exchange_code_for_tokens cfg w code verifier redirect [] =
                (Raise e, [token_request cfg code verifier redirect])).
  { unfold exchange_code_for_tokens, token_request. run_M.
    fold (token_url cfg). now rewrite Hpost. }
  rewrite (bind_raise _ _ _ _ _ Hex).
  unfold handleOAuthCallback_except, isinstance.
  destruct Hcls as [-> | ->]; reflexivity.
Qed.

Lemma silent_ret {A} (a : A) : silent (ret a).
Proof. intros t r t'. unfold ret. now intros [= _ <-]. Qed.

Lemma silent_raise {A} c msg : silent (@raise A c msg).
Proof. intros t r t'. unfold raise. now intros [= _ <-]. Qed.

Lemma silent_lift {A} (r : result A) : silent (lift r).
Proof. intros t r' t'. unfold lift. now intros [= _ <-]. Qed.

Lemma silent_bind {A B} (m : M A) (k : A -> M B) :
  silent m -> (forall a, silent (k a)) -> silent (bind m k).
Proof.
  intros Hm Hk t r t'. unfold bind.
  destruct (m t) as [[a|e] t1] eqn:E; apply Hm in E; subst t1.
  - apply Hk.
  - now intros [= _ <-].
Qed.

Ltac silence :=
  repeat first
    [ apply silent_ret | apply silent_raise | apply silent_lift
    | apply silent_bind; [|intros ?]
    | match goal with
      | |- silent (match ?x with _ => _ end) => destruct x
      end
    | progress cbv beta ].

(** [jwt.decode] makes no outbound call. *)
Lemma validate_claims_silent w audience issuer claims :
  silent (validate_claims w audience issuer claims).
Proof. unfold validate_claims, validate_timestamp. silence. Qed.

Lemma jwt_decode_silent w token key algorithms audience issuer :
  silent (jwt_decode w token key algorithms audience issuer).
Proof.
  unfold jwt_decode, jws_load, decode_payload.
  repeat first
    [ apply validate_claims_silent
    | apply silent_ret | apply silent_raise
    | apply silent_bind; [|intros ?]
    | match goal with
      | |- silent (match ?x with _ => _ end) => destruct x
      end ].
Qed.








(** A token whose header does not assert RS256 never gets through
    [jwt.decode] with [algorithms=['RS256']]. *)
Lemma jwt_decode_non_rs256 w s p key audience issuer t :
  jwt_load w s = Some p ->
  hdr_alg p <> Some "RS256" ->
  jwt_decode w (PStr s) key ["RS256"] audience issuer t =
    (Raise (mk_exn InvalidAlgorithmError
              "The specified alg value is not allowed"), t).
Proof.
  intros Hload Halg. unfold jwt_decode, jws_load. run_M. rewrite Hload.
  destruct (hdr_alg p) as [alg|]; [|reflexivity].
  cbn [existsb]. rewrite orb_false_r.
  destruct (String.eqb_spec alg "RS256") as [->|Hne]; [now elim Halg|].
  cbn [negb]. now rewrite orb_true_r.
Qed.

(** The key lookup downloads the key set once or twice and makes no
    other call. *)
Lemma get_signing_keys_calls w url attempt t r t' :
  get_signing_keys w url attempt t = (r, t') -> t' = t ++ [EvJwksFetch url].
Proof.
  unfold get_signing_keys. run_M.
  destruct (jwks_fetch w attempt url) as [keys|e]; [|now intros [= _ <-]].
  destruct (filter _ keys); now intros [= _ <-].
Qed.

Lemma get_signing_key_calls w url kid t r t' :
  get_signing_key w url kid t = (r, t') ->
  exists n, (1 <= n <= 2)%nat /\ t' = t ++ repeat (EvJwksFetch url) n.
Proof.
  unfold get_signing_key. unfold bind at 1.
  destruct (get_signing_keys w url 0 t) as [[keys|e] t1] eqn:H1;
    apply get_signing_keys_calls in H1; subst t1.
  - destruct (match_kid keys kid).
    + unfold ret. intros [= _ <-]. exists 1%nat. split; [lia|reflexivity].
    + unfold bind.
      destruct (get_signing_keys w url 1 _) as [[keys'|e] t2] eqn:H2;
        apply get_signing_keys_calls in H2; subst t2.
      * destruct (match_kid keys' kid); unfold ret, raise;
          intros [= _ <-]; exists 2%nat; rewrite <- app_assoc;
          (split; [lia|reflexivity]).
      * intros [= _ <-]. exists 2%nat. rewrite <- app_assoc.
        split; [lia|reflexivity].
  - intros [= _ <-]. exists 1%nat. split; [lia|reflexivity].
Qed.

Lemma verify_id_token_calls cfg w id_token t r t' :
  verify_id_token cfg w id_token t = (r, t') ->
  exists n, (n <= 2)%nat /\ t' = t ++ repeat (EvJwksFetch (jwks_url cfg)) n.
Proof.
  unfold verify_id_token, get_signing_key_from_jwt. fold (jwks_url cfg).
  intros H.
  assert (Hnone : t = t ++ repeat (EvJwksFetch (jwks_url cfg)) 0)
    by (cbn; now rewrite app_nil_r).
  unfold bind at 1 in H. unfold bind at 1 in H.
  destruct (jws_load w id_token t) as [[p|e] t0] eqn:Hload.
  2:{ assert (t0 = t) by (revert Hload; unfold jws_load;
        destruct id_token; try destruct (jwt_load w _);
        unfold ret, raise; now intros [= _ <-]).
      subst t0. injection H as _ <-. exists 0%nat. split; [lia|exact Hnone]. }
  assert (t0 = t) by (revert Hload; unfold jws_load;
    destruct id_token; try destruct (jwt_load w _);
    unfold ret, raise; now intros [= _ <-]).
  subst t0. unfold bind at 1 in H.
  destruct (decode_payload p t) as [[claims|e] t0] eqn:Hpayload.
  2:{ assert (t0 = t) by (revert Hpayload; unfold decode_payload;
        destruct (jwt_payload p); unfold ret, raise; now intros [= _ <-]).
      subst t0. injection H as _ <-. exists 0%nat. split; [lia|exact Hnone]. }
  assert (t0 = t) by (revert Hpayload; unfold decode_payload;
    destruct (jwt_payload p); unfold ret, raise; now intros [= _ <-]).
  subst t0.
  destruct (get_signing_key w (jwks_url cfg) (hdr_kid p) t)
    as [[key|e] t1] eqn:Hkey;
    apply get_signing_key_calls in Hkey as (n & Hn & ->).
  - unfold bind in H.
    destruct (jwt_decode w id_token key _ _ _ _) as [[claims'|e] t2] eqn:Hdec;
      apply jwt_decode_silent in Hdec; subst t2;
      injection H as _ <-; exists n; (split; [lia|reflexivity]).
  - injection H as _ <-. exists n. split; [lia|reflexivity].
Qed.


(** [except jwt.InvalidTokenError]: the 401 answer. *)
Lemma invalid_token_error_caught (e : exn) :
  isinstance e InvalidTokenError = true ->
  handleOAuthCallback_except e =
    Ok (mk_response 401 json_headers
          (error_body "invalid_token"
             ("ID token verification failed: " ++ exn_str e))).
Proof.
  unfold handleOAuthCallback_except, isinstance.
  destruct e as [c msg]. cbn [exn_cls exn_str].
  destruct c; try discriminate; reflexivity.
Qed.

(** When [verify_id_token] raises, the handler answers with what the
    [except] clauses make of the exception; only the token request and
    the key set downloads have gone out: no write, no mint. *)
Lemma verification_failure_answered
    cfg w req code verifier redirect token_response id_token e t1 t2 :
  config_complete cfg = true ->
  well_formed_request req code verifier redirect ->
  exchange_code_for_tokens cfg w code verifier redirect [] =
    (Ok (PDict token_response), t1) ->
  dict_get_default "id_token" token_response = id_token ->
  truthy id_token = true ->
  verify_id_token cfg w id_token t1 = (Raise e, t2) ->
  handleOAuthCallback cfg w req = (handleOAuthCallback_except e, t2)
  /\ exists n,
       t2 = token_request cfg code verifier redirect
            :: repeat (EvJwksFetch (jwks_url cfg)) n.
Proof.
  intros Hcfg Hreq Hex Hid Tid Hver. split.
  - unfold handleOAuthCallback.
    rewrite (try_well_formed_request _ _ _ _ _ _ _ Hcfg Hreq).
    rewrite (bind_ok _ _ _ _ _ Hex). unfold after_exchange.
    cbn [py_get]. unfold bind at 1, ret at 1. rewrite Hid, Tid. cbn [negb].
    now rewrite (bind_raise _ _ _ _ _ Hver).
  - apply exchange_code_for_tokens_calls in Hex. cbn [app] in Hex. subst t1.
    apply verify_id_token_calls in Hver as (n & _ & ->). now exists n.
Qed.

(** A verification failure that is an [InvalidTokenError] is answered
    with 401 [invalid_token]. *)
Lemma invalid_token_answered_401
    cfg w req code verifier redirect token_response id_token e t1 t2 :
  config_complete cfg = true ->
  well_formed_request req code verifier redirect ->
  exchange_code_for_tokens cfg w code verifier redirect [] =
    (Ok (PDict token_response), t1) ->
  dict_get_default "id_token" token_response = id_token ->
  truthy id_token = true ->
  verify_id_token cfg w id_token t1 = (Raise e, t2) ->
  isinstance e InvalidTokenError = true ->
  handleOAuthCallback cfg w req =
    (Ok (mk_response 401 json_headers
           (error_body "invalid_token"
              ("ID token verification failed: " ++ exn_str e))),
     t2).
Proof.
  intros Hcfg Hreq Hex Hid Tid Hver Hcls.
  destruct (verification_failure_answered
              _ _ _ _ _ _ _ _ _ _ _ Hcfg Hreq Hex Hid Tid Hver) as [-> _].
  now rewrite (invalid_token_error_caught e Hcls).
Qed.

(** When the key lookup finds an RSA key, every failure of
    [verify_id_token] is an [InvalidTokenError]; a token that does not
    assert RS256 fails with [InvalidAlgorithmError]. *)
Lemma non_rs256_rejected_when_key_found cfg w s p key t t1 :
  jwt_load w s = Some p ->
  hdr_alg p <> Some "RS256" ->
  get_signing_key_from_jwt w (jwks_url cfg) (PStr s) t = (Ok key, t1) ->
  verify_id_token cfg w (PStr s) t =
    (Raise (mk_exn InvalidAlgorithmError
              "The specified alg value is not allowed"), t1)
  /\ isinstance (mk_exn InvalidAlgorithmError
                   "The specified alg value is not allowed")
       InvalidTokenError = true.
Proof.
  intros Hload Halg Hkey. split; [|reflexivity].
  unfold verify_id_token. fold (jwks_url cfg).
  rewrite (bind_ok _ _ _ _ _ Hkey).
  now rewrite (bind_raise _ _ _ _ _
                 (jwt_decode_non_rs256 w s p key _ _ t1 Hload Halg)).
Qed.

(** The key id that no published key carries: [PyJWKClientError], which
    the [except] clauses answer with 500 [internal_error]. *)
Lemma key_lookup_error_not_invalid_token msg :
  handleOAuthCallback_except (mk_exn PyJWKClientError msg) =
    Ok (mk_response 500 json_headers
          (error_body "internal_error"
             ("An unexpected error occurred: " ++ msg))).
Proof. reflexivity. Qed.

(** ** More on the derived identifier *)

Lemma string_app_assoc (a b c : string) :
  ((a ++ b) ++ c)%string = (a ++ (b ++ c))%string.
Proof.
  induction a as [|x a IH]; [reflexivity|].
  cbn [append]. now rewrite IH.
Qed.

Lemma final_piece_no_pipe (s : string) :
  str_in "|" s = false -> final_piece s = s.
Proof.
  intros H. unfold final_piece. now rewrite (split_on_no_pipe s H).
Qed.

Lemma str_in_pipe_prefixed (prefix s : string) :
  str_in "|" (prefix ++ "|" ++ s) = true.
Proof.
  induction prefix as [|c prefix IH].
  - change ("" ++ "|" ++ s)%string with (String pipe s).
    rewrite str_in_pipe_cons. now rewrite Ascii.eqb_refl.
  - change (String c prefix ++ "|" ++ s)%string
      with (String c (prefix ++ "|" ++ s))%string.
    rewrite str_in_pipe_cons, IH. apply orb_true_r.
Qed.

Lemma final_piece_prefixed (prefix s : string) :
  str_in "|" s = false -> final_piece (prefix ++ "|" ++ s) = s.
Proof.
  intros Hs. induction prefix as [|c prefix IH].
  - change ("" ++ "|" ++ s)%string with (String pipe s).
    rewrite final_piece_cons, Ascii.eqb_refl. cbn [orb].
    now apply final_piece_no_pipe.
  - change (String c prefix ++ "|" ++ s)%string
      with (String c (prefix ++ "|" ++ s))%string.
    now rewrite final_piece_cons, str_in_pipe_prefixed, orb_true_r.
Qed.

(** X1. Whatever the subject, the derived identifier is a suffix of it
    that holds no ['|'], and deriving again from the identifier gives the
    identifier back. *)
Theorem derived_uid_is_separator_free_suffix (s : string) (t : trace) :
  exists before : string,
    auth_uid_of (PStr s) t = (Ok (PStr (derived_uid s)), t)
    /\ s = (before ++ derived_uid s)%string
    /\ str_in "|" (derived_uid s) = false
    /\ auth_uid_of (PStr (derived_uid s)) t = (Ok (PStr (derived_uid s)), t).
Proof.
  assert (Hfree : str_in "|" (derived_uid s) = false
                  /\ exists before, s = (before ++ derived_uid s)%string).
  { unfold derived_uid. destruct (str_in "|" s) eqn:Hs.
    - destruct (final_piece_after_last_pipe s Hs) as (before & Heq & Hno).
      split; [exact Hno|]. exists (before ++ "|")%string.
      now rewrite string_app_assoc.
    - split; [exact Hs|]. now exists EmptyString. }
  destruct Hfree as (Hno & before & Heq).
  exists before. split; [apply auth_uid_of_str|]. split; [exact Heq|].
  split; [exact Hno|].
  rewrite auth_uid_of_str. now rewrite Hno.
Qed.

(** X2. The provider prefix plays no part in the identifier: two
    subjects that differ only in what precedes the last ['|'] derive the
    same identifier, the part after it. *)
Theorem subjects_with_same_local_id_share_uid (p q local : string) (t : trace) :
  str_in "|" local = false ->
  auth_uid_of (PStr (p ++ "|" ++ local)) t = (Ok (PStr local), t)
  /\ auth_uid_of (PStr (q ++ "|" ++ local)) t = (Ok (PStr local), t).
Proof.
  intros Hlocal.
  rewrite !auth_uid_of_str, !str_in_pipe_prefixed.
  now rewrite !(final_piece_prefixed _ _ Hlocal).
Qed.

Lemma subjects_with_same_local_id_share_uid_witness :
  auth_uid_of (PStr ("kenni.is" ++ "|" ++ "12345")) [] = (Ok (PStr "12345"), [])
  /\ auth_uid_of (PStr ("other-idp" ++ "|" ++ "12345")) [] =
       (Ok (PStr "12345"), []).
Proof.
  apply (subjects_with_same_local_id_share_uid "kenni.is" "other-idp" "12345").
  reflexivity.
Defined.

(** ** What is stored and what is embedded *)

Lemma dict_set_in k0 v0 d k v :
  In (k, v) (dict_set k0 v0 d) -> (k = k0 /\ v = v0) \/ In (k, v) d.
Proof.
  induction d as [|[k' v'] d IH]; cbn [dict_set].
  - intros [[= <- <-]|[]]. auto.
  - destruct (String.eqb k0 k').
    + intros [[= <- <-]|H]; [auto|]. right. now right.
    + intros [H|H]; [right; now left|].
      destruct (IH H); [auto|]. right. now right.
Qed.

Lemma custom_claim_present_inv cfg claims name :
  custom_claim_present cfg claims = Some name ->
  CUSTOM_CLAIM_NAME cfg = Some name /\ name <> ""
  /\ exists v, dict_get name claims = Some v
               /\ dict_get_default name claims = v.
Proof.
  unfold custom_claim_present, dict_mem, dict_get_default.
  destruct (CUSTOM_CLAIM_NAME cfg) as [n|]; [|discriminate].
  cbn [truthy]. destruct (String.eqb_spec n ""); [discriminate|].
  cbn [negb andb].
  destruct (dict_get n claims) as [v|] eqn:Hget; [|discriminate].
  intros [= <-]. rewrite Hget. eauto.
Qed.

(** X3. Every field of the profile that [create_or_update_user] builds
    has a value other than [None], and its key is one of [sub], [email],
    [name], [given_name], [family_name], [updated_at] or the configured
    custom claim name; apart from the subject and the timestamp sentinel,
    a stored value is the value the verified claims hold under that key. *)
Theorem profile_holds_listed_fields_without_none cfg subject claims k v :
  In (k, v) (profile_data_of cfg subject claims) ->
  v <> PNone
  /\ (In k fixed_keys \/ CUSTOM_CLAIM_NAME cfg = Some k)
  /\ ((k = "sub" /\ v = subject)
      \/ (k = "updated_at" /\ v = PSentinel "SERVER_TIMESTAMP")
      \/ dict_get k claims = Some v).
Proof.
  unfold profile_data_of, drop_none. intros Hin.
  apply filter_In in Hin as [Hin Hnone]. cbn [snd] in Hnone.
  split; [destruct v; [discriminate|congruence..]|].
  assert (Hfixed : In (k, v) (fixed_fields subject claims) ->
                   In k fixed_keys
                   /\ ((k = "sub" /\ v = subject)
                       \/ (k = "updated_at"
                           /\ v = PSentinel "SERVER_TIMESTAMP")
                       \/ dict_get k claims = Some v)).
  { unfold fixed_fields, fixed_keys, dict_get_default.
    intros [H|[H|[H|[H|[H|[H|[]]]]]]]; injection H as <- Hv; cbn;
      (split; [tauto|]); auto;
      right; right;
      match goal with
      | |- dict_get ?key claims = _ =>
          destruct (dict_get key claims); [now subst|subst; discriminate]
      end. }
  fold (fixed_fields subject claims) in Hin.
  destruct (custom_claim_present cfg claims) as [name|] eqn:Hname.
  - apply custom_claim_present_inv in Hname as (Hcfg & _ & x & Hget & Hdef).
    apply dict_set_in in Hin as [[-> ->]|Hin].
    + split; [now right|]. right; right. now rewrite Hdef.
    + destruct (Hfixed Hin). auto.
  - destruct (Hfixed Hin). auto.
Qed.

Lemma profile_holds_listed_fields_without_none_witness :
  PStr "user@example.com" <> PNone
  /\ (In "email" fixed_keys
      \/ CUSTOM_CLAIM_NAME Examples.cfg_ok = Some "email")
  /\ (("email" = "sub" /\ PStr "user@example.com" = PStr "idp|12345")
      \/ ("email" = "updated_at"
          /\ PStr "user@example.com" = PSentinel "SERVER_TIMESTAMP")
      \/ dict_get "email"
           (Examples.claims_of "idp|12345" [("admin", PBool true)])
         = Some (PStr "user@example.com")).
Proof.
  apply (profile_holds_listed_fields_without_none
           Examples.cfg_ok (PStr "idp|12345")
           (Examples.claims_of "idp|12345" [("admin", PBool true)])).
  cbn. tauto.
Defined.

(** X4. [create_custom_token] makes the one signing call, for the uid it
    was given.  The developer claims it passes are [None], or the single
    entry of the configured, non-empty custom claim name with the value
    the verified claims hold under it; no other claim of the identity
    token reaches the credential. *)
Theorem credential_carries_only_the_custom_claim cfg w uid claims t :
  exists bag : option dict,
    snd (create_custom_token cfg w uid claims t) =
      t ++ [EvCreateCustomToken uid bag]
    /\ (bag = None
        \/ exists name v,
             CUSTOM_CLAIM_NAME cfg = Some name /\ name <> ""
             /\ dict_get name claims = Some v
             /\ bag = Some [(name, v)]).
Proof.
  rewrite create_custom_token_run. cbn [snd].
  eexists. split; [reflexivity|].
  unfold developer_claims_of.
  destruct (custom_claim_present cfg claims) as [name|] eqn:Hname;
    [|now left].
  apply custom_claim_present_inv in Hname as (Hcfg & Hne & v & Hget & Hdef).
  right. exists name, v. cbn [dict_set]. rewrite Hdef. auto.
Qed.

(** ** The write to the user record *)

(** Every run of [create_or_update_user]: it raises before any call, or
    the subject is a non-empty str with a valid document path and it
    makes the one write. *)
Lemma create_or_update_user_calls cfg w claims t :
  (exists e, create_or_update_user cfg w claims t = (Raise e, t))
  \/ exists sub,
       dict_get "sub" claims = Some (PStr sub) /\ sub <> ""
       /\ firestore_client w = Ok tt
       /\ document_path_ok (derived_uid sub) = true
       /\ create_or_update_user cfg w claims t =
            (match firestore_set w "users" (derived_uid sub)
                     (profile_data_of cfg (PStr sub) claims) true with
             | Ok _ => Ok (PStr (derived_uid sub))
             | Raise e => Raise e
             end,
             t ++ [EvFirestoreSet "users" (derived_uid sub)
                     (profile_data_of cfg (PStr sub) claims) true]).
Proof.
  destruct (firestore_client w) as [[]|e] eqn:Hdb.
  2:{ left. exists e. unfold create_or_update_user, bind, lift.
      now rewrite Hdb. }
  destruct (dict_get "sub" claims) as [v|] eqn:Hsub.
  2:{ left. eexists. unfold create_or_update_user, bind, lift, dict_get_default.
      rewrite Hdb, Hsub. reflexivity. }
  destruct v as [| b | z | s | l | d | n].
  4:{ destruct (String.eqb_spec s "") as [->|Hne].
      - left. eexists.
        unfold create_or_update_user, bind, lift, dict_get_default.
        rewrite Hdb, Hsub. reflexivity.
      - destruct (document_path_ok (derived_uid s)) eqn:Hpath.
        + right. exists s. split; [reflexivity|]. split; [exact Hne|].
          split; [reflexivity|]. split; [exact Hpath|].
          apply (create_or_update_user_str cfg w claims s t Hdb Hsub Hne Hpath).
        + left. eexists.
          unfold create_or_update_user, dict_get_default.
          unfold bind at 1, lift at 1. rewrite Hdb, Hsub. cbn [truthy].
          destruct (String.eqb_spec s ""); [contradiction|]. cbn [negb].
          unfold bind at 1. rewrite auth_uid_of_str.
          fold (derived_uid s). unfold bind at 1. cbn [firestore_document].
          rewrite Hpath. reflexivity. }
  all: left; unfold create_or_update_user, bind at 1, lift at 1,
         dict_get_default; rewrite Hdb, Hsub; cbn [truthy negb].
  - eexists; reflexivity.
  - destruct b; eexists; reflexivity.
  - destruct (z =? 0); eexists; reflexivity.
  - destruct l as [|x l]; [eexists; reflexivity|]. cbn [negb].
    unfold auth_uid_of, py_str_in. run_M.
    destruct (existsb _ (x :: l)); eexists; reflexivity.
  - destruct d as [|x d]; [eexists; reflexivity|]. cbn [negb].
    unfold auth_uid_of, py_str_in. run_M.
    destruct (dict_mem "|" (x :: d)); eexists; reflexivity.
  - eexists; reflexivity.
Qed.

Lemma split_on_length (sep : ascii) (s : string) :
  length (split_on sep s) = S (count_char sep s).
Proof.
  induction s as [|c s IH]; [reflexivity|].
  cbn [split_on count_char]. destruct (Ascii.eqb c sep).
  - cbn [length]. now rewrite IH.
  - destruct (split_on sep s) as [|piece pieces]; [discriminate|].
    cbn [length] in *. exact IH.
Qed.

Lemma count_char_app (sep : ascii) (a b : string) :
  count_char sep (a ++ b) = (count_char sep a + count_char sep b)%nat.
Proof.
  induction a as [|c a IH]; [reflexivity|].
  cbn [append count_char]. rewrite IH. now destruct (Ascii.eqb c sep).
Qed.

(** A document id makes a valid path exactly when it holds an even
    number of ['/']. *)
Lemma document_path_ok_slashes (uid : string) :
  document_path_ok uid = Nat.even (count_char "/"%char uid).
Proof.
  unfold document_path_ok, document_path.
  rewrite split_on_length, count_char_app.
  change (count_char "/"%char "users/") with 1%nat.
  now rewrite Nat.even_succ_succ.
Qed.

(** X5. [create_or_update_user] writes at most once.  When
    [firestore.client()] raises, it raises the same exception and nothing
    is written.  Otherwise the write is made exactly when the [sub] claim
    is a non-empty str and the derived identifier holds an even number of
    ['/'], so that [users/<uid>] is a document path: the write goes to
    collection [users], to the document named by the derived identifier,
    with [merge=True].  In every other case (no [sub], an empty or
    non-str [sub], an identifier such as ["a/b"]) it raises and nothing
    is written.  It returns the derived identifier only when the write
    has returned. *)
Theorem user_record_written_only_for_str_subject cfg w claims t :
  (forall e, firestore_client w = Raise e ->
             create_or_update_user cfg w claims t = (Raise e, t))
  /\ ((snd (create_or_update_user cfg w claims t) = t
       /\ exists e, fst (create_or_update_user cfg w claims t) = Raise e)
      \/ exists sub,
           firestore_client w = Ok tt
           /\ dict_get "sub" claims = Some (PStr sub) /\ sub <> ""
           /\ Nat.even (count_char "/"%char (derived_uid sub)) = true
           /\ snd (create_or_update_user cfg w claims t) =
                t ++ [EvFirestoreSet "users" (derived_uid sub)
                        (profile_data_of cfg (PStr sub) claims) true]
           /\ ((fst (create_or_update_user cfg w claims t) =
                  Ok (PStr (derived_uid sub))
                /\ firestore_set w "users" (derived_uid sub)
                     (profile_data_of cfg (PStr sub) claims) true = Ok tt)
               \/ exists e,
                    fst (create_or_update_user cfg w claims t) = Raise e))
  /\ (forall sub,
        firestore_client w = Ok tt ->
        dict_get "sub" claims = Some (PStr sub) -> sub <> "" ->
        (Nat.even (count_char "/"%char (derived_uid sub)) = true ->
         snd (create_or_update_user cfg w claims t) =
           t ++ [EvFirestoreSet "users" (derived_uid sub)
                   (profile_data_of cfg (PStr sub) claims) true])
        /\ (Nat.even (count_char "/"%char (derived_uid sub)) = false ->
            create_or_update_user cfg w claims t =
              (Raise (mk_exn ValueError
                        "A document must have an even number of path elements"),
               t))).
Proof.
  split; [|split].
  - intros e Hdb. unfold create_or_update_user, bind, lift. now rewrite Hdb.
  - destruct (create_or_update_user_calls cfg w claims t)
      as [(e & ->)|(sub & Hsub & Hne & Hdb & Hpath & ->)].
    + left. cbn. eauto.
    + right. exists sub. cbn [fst snd].
      rewrite document_path_ok_slashes in Hpath.
      repeat (split; [assumption|]). split; [reflexivity|].
      destruct (firestore_set w _ _ _ _) as [[]|e]; [left|right]; eauto.
  - intros sub Hdb Hsub Hne. rewrite <- document_path_ok_slashes. split.
    + intros Hpath.
      now rewrite (create_or_update_user_str cfg w claims sub t
                     Hdb Hsub Hne Hpath).
    + intros Hpath.
      unfold create_or_update_user, dict_get_default.
      unfold bind at 1, lift at 1. rewrite Hdb, Hsub. cbn [truthy].
      destruct (String.eqb_spec sub ""); [contradiction|]. cbn [negb].
      unfold bind at 1. rewrite auth_uid_of_str.
      fold (derived_uid sub). unfold bind at 1. cbn [firestore_document].
      now rewrite Hpath.
Qed.

Lemma user_record_written_only_for_str_subject_witness :
  create_or_update_user Examples.cfg_ok Examples.w_ok
    [("sub", PStr "idp|a/b")] [] =
    (Raise (mk_exn ValueError
              "A document must have an even number of path elements"),
     [])
  /\ snd (create_or_update_user Examples.cfg_ok Examples.w_ok
            [("sub", PStr "idp|12345")] []) =
       [] ++ [EvFirestoreSet "users" (derived_uid "idp|12345")
                (profile_data_of Examples.cfg_ok (PStr "idp|12345")
                   [("sub", PStr "idp|12345")]) true].
Proof.
  split.
  - apply (proj2 (proj2 (user_record_written_only_for_str_subject
                           Examples.cfg_ok Examples.w_ok
                           [("sub", PStr "idp|a/b")] [])) "idp|a/b");
      (reflexivity || discriminate).
  - apply (proj2 (proj2 (user_record_written_only_for_str_subject
                           Examples.cfg_ok Examples.w_ok
                           [("sub", PStr "idp|12345")] [])) "idp|12345");
      (reflexivity || discriminate).
Defined.

(** ** Failures after the token exchange *)

(** The handler once the exchange has returned a JSON object with an
    identity token and the token has been verified. *)
Lemma handler_after_verification
    cfg w req code verifier redirect token_response id_token claims t1 t2 :
  config_complete cfg = true ->
  well_formed_request req code verifier redirect ->
  exchange_code_for_tokens cfg w code verifier redirect [] =
    (Ok (PDict token_response), t1) ->
  dict_get_default "id_token" token_response = id_token ->
  truthy id_token = true ->
  verify_id_token cfg w id_token t1 = (Ok claims, t2) ->
  handleOAuthCallback_try cfg w req [] =
    bind (create_or_update_user cfg w claims)
      (fun uid =>
         bind (create_custom_token cfg w uid claims)
           (fun custom_token =>
              lift (json_response
                      [("customToken", PStr custom_token); ("uid", uid)]
                      200))) t2
  /\ exists n, (n <= 2)%nat
       /\ t2 = calls_in_order cfg code verifier redirect n [].
Proof.
  intros Hcfg Hreq Hex Hid Tid Hver. split.
  - rewrite (try_well_formed_request _ _ _ _ _ _ _ Hcfg Hreq).
    rewrite (bind_ok _ _ _ _ _ Hex). unfold after_exchange.
    cbn [py_get]. unfold bind at 1, ret at 1. rewrite Hid, Tid. cbn [negb].
    now rewrite (bind_ok _ _ _ _ _ Hver).
  - apply exchange_code_for_tokens_calls in Hex. cbn [app] in Hex. subst t1.
    apply verify_id_token_calls in Hver as (n & Hn & ->).
    exists n. split; [exact Hn|]. unfold calls_in_order.
    now rewrite app_nil_r.
Qed.

(** ** The paths through the handler *)

Lemma calls_in_order_app cfg code verifier redirect n tail more :
  calls_in_order cfg code verifier redirect n tail ++ more =
    calls_in_order cfg code verifier redirect n (tail ++ more).
Proof.
  unfold calls_in_order. cbn [app]. now rewrite <- app_assoc.
Qed.

Lemma calls_in_order_downloads cfg code verifier redirect n :
  calls_in_order cfg code verifier redirect 0 []
    ++ repeat (EvJwksFetch (jwks_url cfg)) n =
    calls_in_order cfg code verifier redirect n [].
Proof.
  unfold calls_in_order. cbn [repeat app]. now rewrite app_nil_r.
Qed.

(** A verification that returns has downloaded the key set. *)
Lemma verify_id_token_ok_calls cfg w id_token t claims t' :
  verify_id_token cfg w id_token t = (Ok claims, t') ->
  exists n, (1 <= n <= 2)%nat
            /\ t' = t ++ repeat (EvJwksFetch (jwks_url cfg)) n.
Proof.
  unfold verify_id_token, get_signing_key_from_jwt. fold (jwks_url cfg).
  intros H.
  apply bind_ok_inv in H as (key & t1 & Hkey & H).
  apply bind_ok_inv in H as (decoded & t2 & Hdec & H).
  apply jwt_decode_silent in Hdec. subst t2.
  injection H as _ <-.
  apply bind_ok_inv in Hkey as (p & ta & Hload & Hkey).
  apply bind_ok_inv in Hkey as (payload & tb & Hpayload & Hkey).
  assert (ta = t) as ->.
  { revert Hload. unfold jws_load. destruct id_token;
      try destruct (jwt_load w _); unfold ret, raise; now intros [= _ <-]. }
  assert (tb = t) as ->.
  { revert Hpayload. unfold decode_payload. destruct (jwt_payload p);
      unfold ret, raise; now intros [= _ <-]. }
  now apply get_signing_key_calls in Hkey.
Qed.

(** The result of [create_custom_token] does not depend on the calls made
    before it; its one call is the signing call. *)
Lemma create_custom_token_calls cfg w uid claims t :
  create_custom_token cfg w uid claims t =
    (fst (create_custom_token cfg w uid claims []),
     t ++ [EvCreateCustomToken uid (developer_claims_bag cfg claims)]).
Proof. now rewrite !create_custom_token_run. Qed.

(** Every run on a well formed request, under a complete configuration,
    follows one of the paths of [run_of]. *)
Lemma well_formed_run cfg w req code verifier redirect :
  config_complete cfg = true ->
  well_formed_request req code verifier redirect ->
  run_of cfg w code verifier redirect (handleOAuthCallback cfg w req).
Proof.
  intros Hcfg Hreq. unfold handleOAuthCallback.
  rewrite (try_well_formed_request _ _ _ _ _ _ _ Hcfg Hreq).
  destruct (exchange_code_for_tokens cfg w code verifier redirect [])
    as [[token_response|e] t1] eqn:Hex;
    pose proof (exchange_code_for_tokens_calls _ _ _ _ _ _ _ _ Hex) as Ht1;
    change ([] ++ [token_request cfg code verifier redirect])
      with (calls_in_order cfg code verifier redirect 0 []) in Ht1;
    subst t1.
  2:{ rewrite (bind_raise _ _ _ _ _ Hex). now apply RunExchangeRaises. }
  rewrite (bind_ok _ _ _ _ _ Hex). unfold after_exchange.
  destruct token_response as [| b | z | s | l | d | n0];
    try (apply (RunTokenResponseNotObject cfg w code verifier redirect _ Hex);
         intros d'; discriminate).
  cbn [py_get]. unfold bind at 1, ret at 1.
  destruct (truthy (dict_get_default "id_token" d)) eqn:Tid; cbn [negb].
  2:{ rewrite json_response_error. unfold lift.
      now apply (RunNoIdentityToken cfg w code verifier redirect d). }
  destruct (verify_id_token cfg w (dict_get_default "id_token" d)
              (calls_in_order cfg code verifier redirect 0 []))
    as [[claims|e] t2] eqn:Hver.
  2:{ rewrite (bind_raise _ _ _ _ _ Hver).
      destruct (verify_id_token_calls _ _ _ _ _ _ Hver) as (n & Hn & ->).
      rewrite calls_in_order_downloads in *.
      now apply (RunVerificationRaises cfg w code verifier redirect d). }
  rewrite (bind_ok _ _ _ _ _ Hver).
  destruct (verify_id_token_ok_calls _ _ _ _ _ _ Hver) as (n & Hn & ->).
  rewrite calls_in_order_downloads in *.
  destruct (create_or_update_user_calls cfg w claims
              (calls_in_order cfg code verifier redirect n []))
    as [(e & Hsync)|(sub & Hsub & Hne & Hdb & Hpath & Hsync)].
  { rewrite (bind_raise _ _ _ _ _ Hsync).
    now apply (RunNothingWritten cfg w code verifier redirect d claims). }
  rewrite calls_in_order_app in Hsync. cbn [app] in Hsync.
  fold (user_write cfg claims sub) in Hsync.
  destruct (firestore_set w "users" (derived_uid sub)
              (profile_data_of cfg (PStr sub) claims) true)
    as [[]|e] eqn:Hset.
  2:{ rewrite (bind_raise _ _ _ _ _ Hsync).
      now apply (RunWriteRaises cfg w code verifier redirect d claims). }
  rewrite (bind_ok _ _ _ _ _ Hsync).
  unfold bind. rewrite create_custom_token_calls.
  rewrite calls_in_order_app. cbn [app].
  fold (credential_request cfg claims sub).
  destruct (fst (create_custom_token cfg w (PStr (derived_uid sub)) claims []))
    as [custom_token|e] eqn:Hmint.
  - now apply (RunSuccess cfg w code verifier redirect d claims).
  - now apply (RunMintRaises cfg w code verifier redirect d claims).
Qed.

(** Every request is rejected before any call, or is well formed under a
    complete configuration. *)
Lemma request_cases cfg w req :
  (exists response,
     rejection cfg req response
     /\ handleOAuthCallback cfg w req = (Ok response, []))
  \/ (config_complete cfg = true
      /\ exists code verifier redirect,
           well_formed_request req code verifier redirect).
Proof.
  destruct (config_complete cfg) eqn:Hcfg.
  2:{ left. eexists. split; [now apply RejectConfiguration|].
      unfold handleOAuthCallback, handleOAuthCallback_try.
      fold (config_complete cfg). now rewrite Hcfg. }
  destruct (truthy (get_json_silent req)) eqn:Hbody.
  2:{ left. eexists. split; [now apply RejectNoBody|].
      unfold handleOAuthCallback, handleOAuthCallback_try.
      fold (config_complete cfg). now rewrite Hcfg, Hbody. }
  assert (Htry : handleOAuthCallback_try cfg w req [] =
                 bind (py_get (get_json_silent req) "code")
                   (fun code =>
                      bind (py_get (get_json_silent req) "codeVerifier")
                        (fun code_verifier =>
                           bind (py_get (get_json_silent req) "redirectUri")
                             (fun redirect_uri =>
                                if negb (truthy code)
                                   || negb (truthy code_verifier)
                                then lift (json_response
                                       [ ("error", PStr "invalid_request");
                                         ("message",
                                          PStr "Missing code or codeVerifier") ]
                                       400)
                                else
                                  bind (exchange_code_for_tokens cfg w code
                                          code_verifier redirect_uri)
                                       (after_exchange cfg w)))) []).
  { unfold handleOAuthCallback_try. fold (config_complete cfg).
    now rewrite Hcfg, Hbody. }
  unfold get_json_silent in *.
  destruct (request_json req) as [v|] eqn:Hjson; [|discriminate].
  destruct v as [| b | z | s | l | fields | n];
    try (left; eexists; split;
         [ apply (RejectNotObject cfg req _ Hcfg Hjson Hbody);
           intros fields'; discriminate
         | unfold handleOAuthCallback; now rewrite Htry ]).
  cbn [py_get] in Htry. unfold bind at 1 2 3, ret in Htry.
  destruct (truthy (dict_get_default "code" fields)) eqn:Tcode.
  2:{ left. eexists. split.
      - apply (RejectMissingField cfg req fields Hcfg Hjson); [|now left].
        intros ->. discriminate.
      - unfold handleOAuthCallback. now rewrite Htry. }
  destruct (truthy (dict_get_default "codeVerifier" fields)) eqn:Tver.
  2:{ left. eexists. split.
      - apply (RejectMissingField cfg req fields Hcfg Hjson); [|now right].
        intros ->. discriminate.
      - unfold handleOAuthCallback. now rewrite Htry. }
  right. split; [reflexivity|].
  exists (dict_get_default "code" fields),
         (dict_get_default "codeVerifier" fields),
         (dict_get_default "redirectUri" fields), fields.
  auto 7.
Qed.

Lemma calls_in_order_not_nil cfg code verifier redirect n tail :
  calls_in_order cfg code verifier redirect n tail <> [].
Proof. discriminate. Qed.

(** The calls of a run that has passed the request checks. *)
Lemma run_of_calls cfg w code verifier redirect answer calls :
  run_of cfg w code verifier redirect (answer, calls) ->
  exists n tail,
    (n <= 2)%nat
    /\ calls = calls_in_order cfg code verifier redirect n tail
    /\ write_then_mint tail.
Proof.
  unfold write_then_mint, user_write, credential_request.
  intros H. inversion H; subst;
    eexists _, _; (split; [|split; [reflexivity|]]); try lia;
    first [ now left
          | right; left; eexists _, _; reflexivity
          | right; right; eexists _, _, _; reflexivity ].
Qed.

(** An answer built by the [except] clauses has status 500 or 401, the
    JSON headers and one of three kinds. *)
Lemma except_answers (e : exn) :
  exists kind message status,
    handleOAuthCallback_except e =
      Ok (mk_response status json_headers (error_body kind message))
    /\ ((kind = "token_exchange_failed" /\ status = 500)
        \/ (kind = "invalid_token" /\ status = 401)
        \/ (kind = "internal_error" /\ status = 500)).
Proof.
  unfold handleOAuthCallback_except.
  destruct (isinstance e HTTPError).
  { rewrite json_response_error. eexists _, _, _. split; [reflexivity|].
    auto. }
  destruct (isinstance e InvalidTokenError).
  { rewrite json_response_error. eexists _, _, _. split; [reflexivity|].
    auto. }
  unfold isinstance. rewrite issubclass_Exception.
  rewrite json_response_error. eexists _, _, _. split; [reflexivity|].
  auto.
Qed.

(** X7. The handler makes no outbound call exactly when it rejects the
    request up front, and then the answer is one of four: 500
    [configuration_error] for an incomplete configuration; 400
    [invalid_request], "Request body must be JSON", for a missing or
    empty body; 500 [internal_error] for a non-empty body that is not a
    JSON object; 400 [invalid_request], "Missing code or codeVerifier",
    for an object without a truthy [code] or [codeVerifier]. *)
Theorem no_call_exactly_when_rejected cfg w req :
  snd (handleOAuthCallback cfg w req) = [] <->
  exists response,
    rejection cfg req response
    /\ handleOAuthCallback cfg w req = (Ok response, []).
Proof.
  split.
  - intros Hnone.
    destruct (request_cases cfg w req)
      as [Hrej|(Hcfg & code & verifier & redirect & Hreq)]; [exact Hrej|].
    pose proof (well_formed_run cfg w req code verifier redirect Hcfg Hreq)
      as Hrun.
    destruct (handleOAuthCallback cfg w req) as [answer calls].
    apply run_of_calls in Hrun as (n & tail & _ & -> & _).
    discriminate.
  - intros (response & _ & ->). reflexivity.
Qed.

Lemma no_call_exactly_when_rejected_witness :
  exists response,
    rejection Examples.cfg_ok (mk_request (Some (PStr "code=1"))) response
    /\ handleOAuthCallback Examples.cfg_ok Examples.w_ok
         (mk_request (Some (PStr "code=1"))) = (Ok response, []).
Proof.
  apply (proj1 (no_call_exactly_when_rejected _ _ _)). reflexivity.
Defined.

(** X8. For a well formed request under a complete configuration the
    first call is the one POST to [OAUTH_ISSUER_URL + "/oidc/token"],
    with a timeout of 10 seconds.  Its form carries the grant type
    [authorization_code], the [code] and the [codeVerifier] of the
    request unchanged, the configured client id and secret, and as
    [redirect_uri] the [redirectUri] of the request when that is truthy,
    the configured redirect URI otherwise.  No second POST follows. *)
Theorem token_request_forwards_request_fields
    cfg w req code verifier redirect :
  config_complete cfg = true ->
  well_formed_request req code verifier redirect ->
  exists rest,
    snd (handleOAuthCallback cfg w req) =
      EvTokenPost (OAUTH_ISSUER_URL cfg ++ "/oidc/token")
        [ ("grant_type", PStr "authorization_code");
          ("code", code);
          ("code_verifier", verifier);
          ("client_id", PStr (OAUTH_CLIENT_ID cfg));
          ("client_secret", PStr (OAUTH_CLIENT_SECRET cfg));
          ("redirect_uri",
           if truthy redirect then redirect
           else PStr (OAUTH_REDIRECT_URI cfg)) ]
        10
      :: rest
    /\ forall url data timeout, ~ In (EvTokenPost url data timeout) rest.
Proof.
  intros Hcfg Hreq.
  pose proof (well_formed_run cfg w req code verifier redirect Hcfg Hreq)
    as Hrun.
  destruct (handleOAuthCallback cfg w req) as [answer calls].
  apply run_of_calls in Hrun as (n & tail & _ & -> & Htail).
  eexists. split; [reflexivity|].
  intros url data timeout Hin. apply in_app_or in Hin as [Hin|Hin].
  - apply repeat_spec in Hin. discriminate.
  - destruct Htail as [->|[(uid & d & ->)|(uid & d & bag & ->)]];
      cbn in Hin; intuition discriminate.
Qed.

Lemma token_request_forwards_request_fields_witness :
  exists rest,
    snd (handleOAuthCallback Examples.cfg_ok Examples.w_ok
           (mk_request
              (Some (PDict [ ("code", PStr "auth-code-1");
                             ("codeVerifier", PStr "verifier-1");
                             ("redirectUri", PStr "app://callback") ])))) =
      EvTokenPost "https://idp.example.com/oidc/token"
        [ ("grant_type", PStr "authorization_code");
          ("code", PStr "auth-code-1");
          ("code_verifier", PStr "verifier-1");
          ("client_id", PStr "client-1");
          ("client_secret", PStr "s3cret");
          ("redirect_uri", PStr "app://callback") ]
        10
      :: rest
    /\ forall url data timeout, ~ In (EvTokenPost url data timeout) rest.
Proof.
  apply (token_request_forwards_request_fields
           Examples.cfg_ok Examples.w_ok _
           (PStr "auth-code-1") (PStr "verifier-1") (PStr "app://callback")).
  - reflexivity.
  - eexists. repeat split; reflexivity.
Defined.

(** X9. In every run the calls come in the order of the stages and none
    is repeated beyond the one refresh of the key set: no call at all, or
    one token request, then at most two downloads of the key set, then
    nothing, or the one write, or the one write followed by the one
    signing call for the uid that names the written document. *)
Theorem calls_follow_the_stages cfg w req :
  pipeline_shape cfg (snd (handleOAuthCallback cfg w req)).
Proof.
  destruct (request_cases cfg w req)
    as [(response & _ & ->)|(Hcfg & code & verifier & redirect & Hreq)].
  - now left.
  - pose proof (well_formed_run cfg w req code verifier redirect Hcfg Hreq)
      as Hrun.
    destruct (handleOAuthCallback cfg w req) as [answer calls].
    apply run_of_calls in Hrun as (n & tail & Hn & -> & Htail).
    right. exists code, verifier, redirect, n, tail. auto.
Qed.

Lemma rejection_not_200 cfg req response :
  rejection cfg req response ->
  status response <> 200 /\ headers response = json_headers.
Proof. intros H. inversion H; subst; cbn; split; (reflexivity || lia). Qed.

Lemma except_not_200 (e : exn) response :
  handleOAuthCallback_except e = Ok response ->
  status response <> 200 /\ headers response = json_headers.
Proof.
  destruct (except_answers e) as (kind & message & st & -> & Hkind).
  intros [= <-]. cbn. split; [|reflexivity].
  destruct Hkind as [[_ ->]|[[_ ->]|[_ ->]]]; lia.
Qed.

(** X10. A 200 answer is given only at the end of a complete run: the
    request was well formed, the key set was downloaded, the write to
    [users/<uid>] returned, the signing call for the same uid returned
    the credential in the body, and these were the only calls. *)
Theorem ok_answer_only_after_write_and_mint cfg w req response calls :
  handleOAuthCallback cfg w req = (Ok response, calls) ->
  status response = 200 ->
  exists code verifier redirect claims sub custom_token n,
    well_formed_request req code verifier redirect
    /\ (1 <= n <= 2)%nat
    /\ dict_get "sub" claims = Some (PStr sub)
    /\ firestore_set w "users" (derived_uid sub)
         (profile_data_of cfg (PStr sub) claims) true = Ok tt
    /\ fst (create_custom_token cfg w (PStr (derived_uid sub)) claims []) =
         Ok custom_token
    /\ response = success_response custom_token (derived_uid sub)
    /\ calls = calls_in_order cfg code verifier redirect n
                 [ user_write cfg claims sub;
                   credential_request cfg claims sub ].
Proof.
  intros Hrun H200.
  destruct (request_cases cfg w req)
    as [(r & Hrej & Heq)|(Hcfg & code & verifier & redirect & Hreq)].
  { rewrite Hrun in Heq. injection Heq as <- _.
    apply rejection_not_200 in Hrej as [Hrej _]. contradiction. }
  pose proof (well_formed_run cfg w req code verifier redirect Hcfg Hreq)
    as Hpath.
  rewrite Hrun in Hpath.
  inversion Hpath; subst;
    try match goal with
        | H : handleOAuthCallback_except _ = Ok response |- _ =>
            apply except_not_200 in H as [H _]; contradiction
        end;
    try discriminate.
  exists code, verifier, redirect, claims, sub, custom_token, n. auto 8.
Qed.

Lemma ok_answer_only_after_write_and_mint_witness :
  exists code verifier redirect claims sub custom_token n,
    well_formed_request Examples.req_ok code verifier redirect
    /\ (1 <= n <= 2)%nat
    /\ dict_get "sub" claims = Some (PStr sub)
    /\ firestore_set Examples.w_ok "users" (derived_uid sub)
         (profile_data_of Examples.cfg_ok (PStr sub) claims) true = Ok tt
    /\ fst (create_custom_token Examples.cfg_ok Examples.w_ok
              (PStr (derived_uid sub)) claims []) = Ok custom_token
    /\ success_response "signed.custom.token" "12345" =
         success_response custom_token (derived_uid sub)
    /\ snd (handleOAuthCallback Examples.cfg_ok Examples.w_ok Examples.req_ok) =
         calls_in_order Examples.cfg_ok code verifier redirect n
           [ user_write Examples.cfg_ok claims sub;
             credential_request Examples.cfg_ok claims sub ].
Proof.
  apply (ok_answer_only_after_write_and_mint
           Examples.cfg_ok Examples.w_ok Examples.req_ok
           (success_response "signed.custom.token" "12345")
           (snd (handleOAuthCallback Examples.cfg_ok Examples.w_ok
                   Examples.req_ok)));
    reflexivity.
Defined.

(** X11. There is no rollback.  When the write to the user record has
    returned and [create_custom_token] then raises, the handler answers
    with what the [except] clauses make of the exception, never with
    200, and the write stays among the calls made, followed by the
    signing call. *)
Theorem mint_failure_leaves_record_written
    cfg w req code verifier redirect token_response id_token claims uid e
    t1 t2 t3 t4 :
  config_complete cfg = true ->
  well_formed_request req code verifier redirect ->
  exchange_code_for_tokens cfg w code verifier redirect [] =
    (Ok (PDict token_response), t1) ->
  dict_get_default "id_token" token_response = id_token ->
  truthy id_token = true ->
  verify_id_token cfg w id_token t1 = (Ok claims, t2) ->
  create_or_update_user cfg w claims t2 = (Ok uid, t3) ->
  create_custom_token cfg w uid claims t3 = (Raise e, t4) ->
  exists response doc data bag,
    handleOAuthCallback cfg w req = (Ok response, t4)
    /\ handleOAuthCallback_except e = Ok response
    /\ status response <> 200
    /\ uid = PStr doc
    /\ firestore_set w "users" doc data true = Ok tt
    /\ t4 = t2 ++ [ EvFirestoreSet "users" doc data true;
                    EvCreateCustomToken uid bag ].
Proof.
  intros Hcfg Hreq Hex Hid Tid Hver Hsync Hmint.
  destruct (handler_after_verification
              _ _ _ _ _ _ _ _ _ _ _ Hcfg Hreq Hex Hid Tid Hver)
    as [Htry _].
  destruct (except_answers e) as (kind & message & st & Hexcept & Hkind).
  pose proof (except_not_200 e _ Hexcept) as [Hnot _].
  pose proof Hsync as Hsync'.
  apply create_or_update_user_ok in Hsync' as (sub & _ & -> & -> & Hset).
  rewrite create_custom_token_calls in Hmint. injection Hmint as Hres <-.
  eexists _, _, _, _. split; [|split; [exact Hexcept|]].
  - unfold handleOAuthCallback. rewrite Htry.
    rewrite (bind_ok _ _ _ _ _ Hsync).
    unfold bind. rewrite create_custom_token_calls, Hres.
    now rewrite Hexcept.
  - split; [exact Hnot|]. split; [reflexivity|]. split; [exact Hset|].
    now rewrite <- app_assoc.
Qed.

Lemma mint_failure_leaves_record_written_witness :
  exists response,
    handleOAuthCallback Examples.cfg_ok Examples.w_signer_fails
      Examples.req_ok =
      (Ok response,
       [ token_request Examples.cfg_ok (PStr "auth-code-1")
           (PStr "verifier-1") PNone;
         EvJwksFetch "https://idp.example.com/oidc/jwks";
         EvFirestoreSet "users" "12345"
           [ ("sub", PStr "idp|12345");
             ("email", PStr "user@example.com");
             ("updated_at", PSentinel "SERVER_TIMESTAMP") ] true;
         EvCreateCustomToken (PStr "12345") None ])
    /\ status response <> 200.
Proof.
  destruct (mint_failure_leaves_record_written
              Examples.cfg_ok Examples.w_signer_fails Examples.req_ok
              (PStr "auth-code-1") (PStr "verifier-1") PNone
              [ ("access_token", PStr "at-1");
                ("id_token", PStr "header.payload.sig") ]
              (PStr "header.payload.sig")
              (Examples.claims_of "idp|12345" [])
              (PStr "12345")
              (mk_exn (OtherException "CertificateFetchError")
                 "signing failed")
              [ token_request Examples.cfg_ok (PStr "auth-code-1")
                  (PStr "verifier-1") PNone ]
              [ token_request Examples.cfg_ok (PStr "auth-code-1")
                  (PStr "verifier-1") PNone;
                EvJwksFetch "https://idp.example.com/oidc/jwks" ]
              [ token_request Examples.cfg_ok (PStr "auth-code-1")
                  (PStr "verifier-1") PNone;
                EvJwksFetch "https://idp.example.com/oidc/jwks";
                EvFirestoreSet "users" "12345"
                  [ ("sub", PStr "idp|12345");
                    ("email", PStr "user@example.com");
                    ("updated_at", PSentinel "SERVER_TIMESTAMP") ] true ]
              [ token_request Examples.cfg_ok (PStr "auth-code-1")
                  (PStr "verifier-1") PNone;
                EvJwksFetch "https://idp.example.com/oidc/jwks";
                EvFirestoreSet "users" "12345"
                  [ ("sub", PStr "idp|12345");
                    ("email", PStr "user@example.com");
                    ("updated_at", PSentinel "SERVER_TIMESTAMP") ] true;
                EvCreateCustomToken (PStr "12345") None ]
              eq_refl
              (ex_intro _ [ ("code", PStr "auth-code-1");
                            ("codeVerifier", PStr "verifier-1") ]
                 (conj eq_refl (conj eq_refl (conj eq_refl
                    (conj eq_refl (conj eq_refl eq_refl))))))
              eq_refl eq_refl eq_refl eq_refl eq_refl eq_refl)
    as (response & doc & data & bag & Hrun & _ & Hstatus & _).
  exists response. split; assumption.
Defined.

(** ** The answers *)

(** X12. Every answer, success or error, has the header
    [Content-Type: application/json]. *)
Theorem every_answer_is_json cfg w req :
  exists response,
    fst (handleOAuthCallback cfg w req) = Ok response
    /\ headers response = json_headers.
Proof.
  destruct (request_cases cfg w req)
    as [(r & Hrej & ->)|(Hcfg & code & verifier & redirect & Hreq)].
  { exists r. split; [reflexivity|]. now apply rejection_not_200 in Hrej. }
  pose proof (well_formed_run cfg w req code verifier redirect Hcfg Hreq)
    as Hpath.
  destruct (handleOAuthCallback cfg w req) as [answer calls].
  inversion Hpath; subst; cbn [fst];
    try (destruct (except_answers e) as (kind & message & st & -> & _));
    try (destruct (except_answers
                     (mk_exn AttributeError (no_attribute token_response "get")))
           as (kind & message & st & -> & _));
    eexists; split; reflexivity.
Qed.

(** Where each error kind can come from. *)
Lemma error_kind_origin
    cfg w req response calls kind message :
  handleOAuthCallback cfg w req = (Ok response, calls) ->
  body response = error_body kind message ->
  (kind = "configuration_error" <-> config_complete cfg = false)
  /\ (kind = "invalid_request" -> calls = [])
  /\ (kind = "token_error" ->
      exists code verifier redirect,
        calls = [token_request cfg code verifier redirect])
  /\ (kind = "token_exchange_failed" \/ kind = "invalid_token" ->
      calls <> []).
Proof.
  intros Hrun Hbody.
  destruct (request_cases cfg w req)
    as [(r & Hrej & Heq)|(Hcfg & code & verifier & redirect & Hreq)].
  { rewrite Hrun in Heq. injection Heq as <- <-.
    inversion Hrej as [Hcfg|Hcfg ?|v Hcfg ? ? ?|fields Hcfg ? ? ?];
      subst response; cbn [body] in Hbody; injection Hbody as <- _;
      rewrite Hcfg;
      (split; [split; (reflexivity || discriminate)|]);
      (split; [reflexivity|]);
      (split; [discriminate|]); intros [|]; discriminate. }
  pose proof (well_formed_run cfg w req code verifier redirect Hcfg Hreq)
    as Hpath.
  rewrite Hrun in Hpath. rewrite Hcfg.
  assert (Hexcept : forall e,
            handleOAuthCallback_except e = Ok response ->
            kind <> "configuration_error" /\ kind <> "invalid_request"
            /\ kind <> "token_error").
  { intros e He.
    destruct (except_answers e) as (k & m & st & Heq & Hkind).
    rewrite Heq in He. injection He as <-. cbn [body] in Hbody.
    injection Hbody as <- _.
    destruct Hkind as [[-> _]|[[-> _]|[-> _]]];
      repeat split; discriminate. }
  inversion Hpath; subst;
    try match goal with
        | H : handleOAuthCallback_except _ = Ok response |- _ =>
            destruct (Hexcept _ H) as (N1 & N2 & N3);
            (split; [split; [contradiction|discriminate]|]);
            (split; [contradiction|]); (split; [contradiction|]);
            intros _; apply calls_in_order_not_nil
        end.
  - cbn [body] in Hbody. injection Hbody as <- _.
    (split; [split; discriminate|]). (split; [discriminate|]).
    split; [discriminate|]. intros [|]; discriminate.
  - cbn [body] in Hbody. injection Hbody as <- _.
    (split; [split; discriminate|]). (split; [discriminate|]).
    split; [|intros [|]; discriminate].
    intros _. exists code, verifier, redirect. reflexivity.
  - cbn in Hbody. discriminate.
Qed.

(** X13. The error kind tells how far the run went.  The kind is
    [configuration_error] exactly when the configuration is incomplete;
    [invalid_request] is answered only when no call was made;
    [token_error] only when the token request was the one call made;
    [token_exchange_failed] and [invalid_token] only after the token
    request has gone out. *)
Theorem error_kind_tells_how_far_the_run_went
    cfg w req response calls kind message :
  handleOAuthCallback cfg w req = (Ok response, calls) ->
  body response = error_body kind message ->
  (kind = "configuration_error" <-> config_complete cfg = false)
  /\ (kind = "invalid_request" -> calls = [])
  /\ (kind = "token_error" ->
      exists code verifier redirect,
        calls = [token_request cfg code verifier redirect])
  /\ (kind = "token_exchange_failed" \/ kind = "invalid_token" ->
      calls <> []).
Proof.
  exact (error_kind_origin cfg w req response calls kind message).
Qed.

Lemma error_kind_tells_how_far_the_run_went_witness :
  ("invalid_request" = "configuration_error" <->
   config_complete Examples.cfg_ok = false)
  /\ ("invalid_request" = "invalid_request" -> @nil event = [])
  /\ ("invalid_request" = "token_error" ->
      exists code verifier redirect,
        [] = [token_request Examples.cfg_ok code verifier redirect])
  /\ ("invalid_request" = "token_exchange_failed"
      \/ "invalid_request" = "invalid_token" -> @nil event <> []).
Proof.
  apply (error_kind_tells_how_far_the_run_went
           Examples.cfg_ok Examples.w_ok (mk_request None)
           (mk_response 400 json_headers
              (error_body "invalid_request" "Request body must be JSON"))
           [] "invalid_request" "Request body must be JSON");
    reflexivity.
Defined.

(** ** The token exchange *)

(** X14. [exchange_code_for_tokens] returns a value exactly when the
    token endpoint replies with a status outside 400..599 and a body
    that parses as JSON, and the value is that JSON: a reply such as 204
    or 302 is not an error for [raise_for_status]. *)
Theorem exchange_returns_json_of_non_error_reply
    cfg w code verifier redirect t v :
  fst (exchange_code_for_tokens cfg w code verifier redirect t) = Ok v <->
  exists response,
    requests_post w (token_url cfg)
      [ ("grant_type", PStr "authorization_code");
        ("code", code);
        ("code_verifier", verifier);
        ("client_id", PStr (OAUTH_CLIENT_ID cfg));
        ("client_secret", PStr (OAUTH_CLIENT_SECRET cfg));
        ("redirect_uri", py_or redirect (PStr (OAUTH_REDIRECT_URI cfg))) ]
      10 = PostReplies response
    /\ ~ (400 <= status_code response < 600)
    /\ resp_json response = Some v.
Proof.
  unfold exchange_code_for_tokens. fold (token_url cfg). run_M.
  destruct (requests_post w _ _ _) as [e|response].
  { split; [discriminate|]. intros (r & H & _). discriminate. }
  unfold raise_for_status, response_json. run_M.
  destruct (Z.leb_spec 400 (status_code response)) as [H400|H400];
    destruct (Z.ltb_spec (status_code response) 500) as [H500|H500];
    cbn [andb];
    try (split; [discriminate|];
         intros (r & [= <-] & Hst & _); exfalso; apply Hst; lia).
  - destruct (Z.leb_spec 500 (status_code response)) as [H5|H5]; [|lia].
    destruct (Z.ltb_spec (status_code response) 600) as [H6|H6]; cbn [andb].
    + split; [discriminate|].
      intros (r & [= <-] & Hst & _). exfalso. apply Hst. lia.
    + destruct (resp_json response) as [j|] eqn:Hj; cbn [fst].
      * split.
        -- intros [= ->]. exists response. repeat split; auto. lia.
        -- intros (r & [= <-] & _ & Hr). congruence.
      * split; [discriminate|].
        intros (r & [= <-] & _ & Hr). congruence.
  - destruct (Z.leb_spec 500 (status_code response)) as [H5|H5]; [lia|].
    cbn [andb].
    destruct (resp_json response) as [j|] eqn:Hj; cbn [fst].
    + split.
      * intros [= ->]. exists response. repeat split; auto. lia.
      * intros (r & [= <-] & _ & Hr). congruence.
    + split; [discriminate|].
      intros (r & [= <-] & _ & Hr). congruence.
  - lia.
Qed.

(** X15. A reply of the token endpoint with a status from 400 to 599 is
    answered with 500 [token_exchange_failed]; the message is "Failed to
    exchange authorization code: " followed by the status line that
    [raise_for_status] builds from the status, the reason and the URL.
    The token request is the only call made. *)
Theorem token_endpoint_error_status_answered
    cfg w req code verifier redirect response :
  config_complete cfg = true ->
  well_formed_request req code verifier redirect ->
  requests_post w (token_url cfg)
    [ ("grant_type", PStr "authorization_code");
      ("code", code);
      ("code_verifier", verifier);
      ("client_id", PStr (OAUTH_CLIENT_ID cfg));
      ("client_secret", PStr (OAUTH_CLIENT_SECRET cfg));
      ("redirect_uri", py_or redirect (PStr (OAUTH_REDIRECT_URI cfg))) ]
    10 = PostReplies response ->
  400 <= status_code response < 600 ->
  handleOAuthCallback cfg w req =
    (Ok (mk_response 500 json_headers
           (error_body "token_exchange_failed"
              ("Failed to exchange authorization code: "
               ++ string_of_Z (status_code response)
               ++ (if status_code response <? 500 then " Client Error: "
                   else " Server Error: ")
               ++ reason response ++ " for url: " ++ resp_url response))),
     [token_request cfg code verifier redirect]).
Proof.
  intros Hcfg Hreq Hpost Hstatus.
  exact (http_error_status_answered_token_exchange_failed
           cfg w req code verifier redirect response Hcfg Hreq Hpost Hstatus).
Qed.

Lemma token_endpoint_error_status_answered_witness :
  handleOAuthCallback Examples.cfg_ok
    (Examples.world_of
       (PostReplies (mk_http_response 400 "Bad Request"
                       "https://idp.example.com/oidc/token" None))
       (fun _ => None))
    Examples.req_ok =
    (Ok (mk_response 500 json_headers
           (error_body "token_exchange_failed"
              "Failed to exchange authorization code: 400 Client Error: Bad Request for url: https://idp.example.com/oidc/token")),
     [ token_request Examples.cfg_ok (PStr "auth-code-1")
         (PStr "verifier-1") PNone ]).
Proof.
  apply (token_endpoint_error_status_answered
           Examples.cfg_ok _ Examples.req_ok
           (PStr "auth-code-1") (PStr "verifier-1") PNone
           (mk_http_response 400 "Bad Request"
              "https://idp.example.com/oidc/token" None)).
  - reflexivity.
  - eexists. repeat split; reflexivity.
  - reflexivity.
  - cbn. lia.
Defined.

(** X16. A reply of the token endpoint that raises no [HTTPError] but is
    of no use, because its body is not JSON or is JSON other than an
    object, is answered with 500 [internal_error]; the token request is
    the only call made. *)
Theorem unusable_token_reply_answered_internal_error
    cfg w req code verifier redirect response :
  config_complete cfg = true ->
  well_formed_request req code verifier redirect ->
  requests_post w (token_url cfg)
    [ ("grant_type", PStr "authorization_code");
      ("code", code);
      ("code_verifier", verifier);
      ("client_id", PStr (OAUTH_CLIENT_ID cfg));
      ("client_secret", PStr (OAUTH_CLIENT_SECRET cfg));
      ("redirect_uri", py_or redirect (PStr (OAUTH_REDIRECT_URI cfg))) ]
    10 = PostReplies response ->
  ~ (400 <= status_code response < 600) ->
  (forall d, resp_json response <> Some (PDict d)) ->
  exists message,
    handleOAuthCallback cfg w req =
      (Ok (mk_response 500 json_headers
             (error_body "internal_error"
                ("An unexpected error occurred: " ++ message))),
       [token_request cfg code verifier redirect]).
Proof.
  intros Hcfg Hreq Hpost Hstatus Hbody. unfold handleOAuthCallback.
  rewrite (try_well_formed_request _ _ _ _ _ _ _ Hcfg Hreq).
  assert (Hex : exchange_code_for_tokens cfg w code verifier redirect [] =
                (match resp_json response with
                 | Some v => Ok v
                 | None => Raise (mk_exn RequestsJSONDecodeError
                                    "Expecting value")
                 end, [token_request cfg code verifier redirect])).
  { unfold exchange_code_for_tokens, token_request. run_M.
    fold (token_url cfg). rewrite Hpost.
    unfold raise_for_status, response_json. run_M.
    destruct (Z.leb_spec 400 (status_code response));
      destruct (Z.ltb_spec (status_code response) 500);
      destruct (Z.leb_spec 500 (status_code response));
      destruct (Z.ltb_spec (status_code response) 600);
      cbn [andb]; try lia;
      destruct (resp_json response); reflexivity. }
  destruct (resp_json response) as [v|] eqn:Hjson.
  - rewrite (bind_ok _ _ _ _ _ Hex). unfold after_exchange.
    destruct v as [| b | z | s | l | d | n];
      try (eexists; reflexivity).
    now elim (Hbody d).
  - rewrite (bind_raise _ _ _ _ _ Hex). eexists. reflexivity.
Qed.

Lemma unusable_token_reply_answered_internal_error_witness :
  exists message,
    handleOAuthCallback Examples.cfg_ok
      (Examples.world_of
         (PostReplies (mk_http_response 204 "No Content"
                         "https://idp.example.com/oidc/token" None))
         (fun _ => None))
      Examples.req_ok =
      (Ok (mk_response 500 json_headers
             (error_body "internal_error"
                ("An unexpected error occurred: " ++ message))),
       [ token_request Examples.cfg_ok (PStr "auth-code-1")
           (PStr "verifier-1") PNone ]).
Proof.
  apply (unusable_token_reply_answered_internal_error
           Examples.cfg_ok _ Examples.req_ok
           (PStr "auth-code-1") (PStr "verifier-1") PNone
           (mk_http_response 204 "No Content"
              "https://idp.example.com/oidc/token" None)).
  - reflexivity.
  - eexists. repeat split; reflexivity.
  - reflexivity.
  - cbn. lia.
  - discriminate.
Defined.

(** ** Verification *)

Lemma option_string_eqb_eq (a b : option string) :
  option_string_eqb a b = true -> a = b.
Proof.
  destruct a as [x|], b as [y|]; cbn; try discriminate; [|reflexivity].
  intros H. apply String.eqb_eq in H. now subst.
Qed.

Lemma validate_timestamp_ok w claims name cls message check t u t' v :
  validate_timestamp w claims name cls message check t = (Ok u, t') ->
  dict_get name claims = Some v ->
  exists z, py_int w v = IntValue z /\ check z t = (Ok u, t').
Proof.
  unfold validate_timestamp. intros H Hget. rewrite Hget in H.
  destruct (py_int w v) as [z| |]; [eauto|discriminate..].
Qed.

(** What the claims satisfy when [validate_claims] returns. *)
Lemma validate_claims_ok w audience issuer claims t u t' :
  validate_claims w audience issuer claims t = (Ok u, t') ->
  dict_get "iss" claims = Some (PStr issuer)
  /\ (dict_get "aud" claims = Some (PStr audience)
      \/ exists l, dict_get "aud" claims = Some (PList l)
                   /\ In (PStr audience) l)
  /\ (forall v, dict_get "exp" claims = Some v ->
        exists e, py_int w v = IntValue e /\ clock_now w < e)
  /\ (forall v, dict_get "nbf" claims = Some v ->
        exists n, py_int w v = IntValue n /\ n <= clock_now w)
  /\ (forall v, dict_get "iat" claims = Some v ->
        exists i, py_int w v = IntValue i /\ i <= clock_now w)
  /\ (forall v, dict_get "sub" claims = Some v -> exists s, v = PStr s)
  /\ (forall v, dict_get "jti" claims = Some v -> exists s, v = PStr s).
Proof.
  unfold validate_claims. intros H.
  apply bind_ok_inv in H as (u1 & t1 & Hiat & H).
  apply bind_ok_inv in H as (u2 & t2 & Hnbf & H).
  apply bind_ok_inv in H as (u3 & t3 & Hexp & H).
  apply bind_ok_inv in H as (u4 & t4 & Hiss & H).
  apply bind_ok_inv in H as (u5 & t5 & Haud & H).
  apply bind_ok_inv in H as (u6 & t6 & Hsub & Hjti).
  split; [|split; [|split; [|split; [|split; [|split]]]]].
  - destruct (dict_get "iss" claims) as [[| | |i| | |]|];
      try discriminate.
    destruct (String.eqb_spec i issuer); [now subst|discriminate].
  - destruct (dict_get "aud" claims) as [v|]; [|discriminate].
    destruct (negb (truthy v)); [discriminate|].
    destruct v as [| | |a|l| |]; try discriminate.
    + destruct (String.eqb_spec a audience); [left; now subst|discriminate].
    + right. exists l. split; [reflexivity|].
      destruct (forallb _ l); [|discriminate].
      destruct (existsb _ l) eqn:Hex; [|discriminate].
      apply existsb_exists in Hex as (x & Hin & Hx).
      destruct x as [| | |a| | |]; try discriminate.
      apply String.eqb_eq in Hx. now subst.
  - intros v Hv.
    destruct (validate_timestamp_ok _ _ _ _ _ _ _ _ _ _ Hexp Hv)
      as (e & He & Hcheck).
    exists e. split; [exact He|]. cbv beta in Hcheck.
    destruct (Z.leb_spec e (clock_now w)); [discriminate|assumption].
  - intros v Hv.
    destruct (validate_timestamp_ok _ _ _ _ _ _ _ _ _ _ Hnbf Hv)
      as (n & Hn & Hcheck).
    exists n. split; [exact Hn|]. cbv beta in Hcheck.
    destruct (Z.ltb_spec (clock_now w) n); [discriminate|assumption].
  - intros v Hv.
    destruct (validate_timestamp_ok _ _ _ _ _ _ _ _ _ _ Hiat Hv)
      as (i & Hi & Hcheck).
    exists i. split; [exact Hi|]. cbv beta in Hcheck.
    destruct (Z.ltb_spec (clock_now w) i); [discriminate|assumption].
  - intros v Hv. rewrite Hv in Hsub.
    destruct v as [| | |x| | |]; try discriminate. eauto.
  - intros v Hv. rewrite Hv in Hjti.
    destruct v as [| | |x| | |]; try discriminate. eauto.
Qed.

Lemma jwt_decode_ok w token key algorithms audience issuer t claims t' :
  jwt_decode w token key algorithms audience issuer t = (Ok claims, t') ->
  exists s p,
    token = PStr s /\ jwt_load w s = Some p
    /\ key_is_rsa key = true /\ rsa_verify w key s = true
    /\ jwt_payload p = Some claims
    /\ exists u t1, validate_claims w audience issuer claims t
                    = (Ok u, t1).
Proof.
  unfold jwt_decode, jws_load, decode_payload. run_M.
  destruct token as [| | |s| | |]; try discriminate.
  destruct (jwt_load w s) as [p|] eqn:Hload; [|discriminate].
  destruct (hdr_alg p) as [alg|]; [|discriminate].
  destruct (String.eqb alg "" || negb (existsb (String.eqb alg) algorithms));
    [discriminate|].
  destruct (key_is_rsa key); [|discriminate]. cbn [negb].
  destruct (rsa_verify w key s) eqn:Hsig; [|discriminate]. cbn [negb].
  destruct (jwt_payload p) as [payload|] eqn:Hpayload; [|discriminate].
  destruct (validate_claims w audience issuer payload t)
    as [[u|e] t1] eqn:Hv; [|discriminate].
  intros [= <- <-]. exists s, p. repeat split; eauto.
Qed.





(** Claims that [verify_id_token] returns hold no [sub] or a str. *)
Lemma verified_subject_is_str cfg w id_token t claims t' v :
  verify_id_token cfg w id_token t = (Ok claims, t') ->
  dict_get "sub" claims = Some v -> exists x, v = PStr x.
Proof.
  unfold verify_id_token. intros Hver.
  apply bind_ok_inv in Hver as (key & t1 & _ & H).
  apply bind_ok_inv in H as (decoded & t2 & Hdec & H).
  injection H as -> _.
  apply jwt_decode_ok in Hdec
    as (s & p & _ & _ & _ & _ & _ & u & t3 & Hval).
  apply validate_claims_ok in Hval as (_ & _ & _ & _ & _ & Hsub & _).
  apply Hsub.
Qed.

(** X6. When the verified claims hold a [sub] that is not truthy, they
    hold no [sub] or the empty str (a [sub] that is no str does not pass
    verification).  [firestore.client()] runs first: when it returns, the
    handler answers 500 [internal_error] with the message of the
    [ValueError]; when it raises, the handler answers with what the
    [except] clauses make of that exception.  Either way the token
    request and the key set downloads are the only calls made: nothing
    is written, nothing is minted. *)
Theorem missing_subject_answered_internal_error
    cfg w req code verifier redirect token_response id_token claims t1 t2 :
  config_complete cfg = true ->
  well_formed_request req code verifier redirect ->
  exchange_code_for_tokens cfg w code verifier redirect [] =
    (Ok (PDict token_response), t1) ->
  dict_get_default "id_token" token_response = id_token ->
  truthy id_token = true ->
  verify_id_token cfg w id_token t1 = (Ok claims, t2) ->
  truthy (dict_get_default "sub" claims) = false ->
  (dict_get "sub" claims = None \/ dict_get "sub" claims = Some (PStr ""))
  /\ (forall db, firestore_client w = Ok db ->
        handleOAuthCallback cfg w req =
          (Ok (mk_response 500 json_headers
                 (error_body "internal_error"
                    "An unexpected error occurred: ID token missing 'sub' claim")),
           t2))
  /\ (forall e, firestore_client w = Raise e ->
        handleOAuthCallback cfg w req = (handleOAuthCallback_except e, t2))
  /\ exists n, (n <= 2)%nat
       /\ t2 = calls_in_order cfg code verifier redirect n [].
Proof.
  intros Hcfg Hreq Hex Hid Tid Hver Hsub.
  destruct (handler_after_verification
              _ _ _ _ _ _ _ _ _ _ _ Hcfg Hreq Hex Hid Tid Hver)
    as [Htry Hcalls].
  split; [|split; [|split; [|exact Hcalls]]].
  - revert Hsub. unfold dict_get_default.
    destruct (dict_get "sub" claims) as [v|] eqn:Hget; [|now left].
    destruct (verified_subject_is_str _ _ _ _ _ _ _ Hver Hget) as (x & ->).
    cbn. destruct (String.eqb_spec x ""); [subst; now right|discriminate].
  - intros db Hdb. unfold handleOAuthCallback. rewrite Htry.
    unfold create_or_update_user, bind, lift. rewrite Hdb, Hsub. reflexivity.
  - intros e Hdb. unfold handleOAuthCallback. rewrite Htry.
    unfold create_or_update_user, bind, lift. rewrite Hdb. reflexivity.
Qed.

Lemma missing_subject_answered_internal_error_witness :
  handleOAuthCallback Examples.cfg_ok
    (Examples.world_of Examples.reply_with_token
       (Examples.token_with "RS256" "k1"
          [ ("iss", PStr "https://idp.example.com");
            ("aud", PStr "client-1");
            ("exp", PInt 2000);
            ("sub", PStr "") ]))
    Examples.req_ok =
    (Ok (mk_response 500 json_headers
           (error_body "internal_error"
              "An unexpected error occurred: ID token missing 'sub' claim")),
     calls_in_order Examples.cfg_ok (PStr "auth-code-1") (PStr "verifier-1")
       PNone 1 []).
Proof.
  destruct (missing_subject_answered_internal_error
              Examples.cfg_ok
              (Examples.world_of Examples.reply_with_token
                 (Examples.token_with "RS256" "k1"
                    [ ("iss", PStr "https://idp.example.com");
                      ("aud", PStr "client-1");
                      ("exp", PInt 2000);
                      ("sub", PStr "") ]))
              Examples.req_ok
              (PStr "auth-code-1") (PStr "verifier-1") PNone
              [ ("access_token", PStr "at-1");
                ("id_token", PStr "header.payload.sig") ]
              (PStr "header.payload.sig")
              [ ("iss", PStr "https://idp.example.com");
                ("aud", PStr "client-1");
                ("exp", PInt 2000);
                ("sub", PStr "") ]
              [ token_request Examples.cfg_ok (PStr "auth-code-1")
                  (PStr "verifier-1") PNone ]
              (calls_in_order Examples.cfg_ok (PStr "auth-code-1")
                 (PStr "verifier-1") PNone 1 [])
              eq_refl
              (ex_intro _ [ ("code", PStr "auth-code-1");
                            ("codeVerifier", PStr "verifier-1") ]
                 (conj eq_refl (conj eq_refl (conj eq_refl
                    (conj eq_refl (conj eq_refl eq_refl))))))
              eq_refl eq_refl eq_refl eq_refl eq_refl)
    as (_ & Hanswer & _).
  exact (Hanswer tt eq_refl).
Defined.

(** X18. When [verify_id_token] raises an [InvalidTokenError], the
    handler answers 401 [invalid_token] with the message "ID token
    verification failed: " followed by the text of the exception; the
    token request and at most two downloads of the key set are the only
    calls made, so nothing is written and nothing is minted. *)
Theorem invalid_token_answered_unauthorized
    cfg w req code verifier redirect token_response id_token e t1 t2 :
  config_complete cfg = true ->
  well_formed_request req code verifier redirect ->
  exchange_code_for_tokens cfg w code verifier redirect [] =
    (Ok (PDict token_response), t1) ->
  dict_get_default "id_token" token_response = id_token ->
  truthy id_token = true ->
  verify_id_token cfg w id_token t1 = (Raise e, t2) ->
  isinstance e InvalidTokenError = true ->
  handleOAuthCallback cfg w req =
    (Ok (mk_response 401 json_headers
           (error_body "invalid_token"
              ("ID token verification failed: " ++ exn_str e))),
     t2)
  /\ exists n, (n <= 2)%nat
       /\ t2 = token_request cfg code verifier redirect
               :: repeat (EvJwksFetch (jwks_url cfg)) n.
Proof.
  intros Hcfg Hreq Hex Hid Tid Hver Hcls.
  destruct (verification_failure_answered
              _ _ _ _ _ _ _ _ _ _ _ Hcfg Hreq Hex Hid Tid Hver) as [-> _].
  rewrite (invalid_token_error_caught e Hcls). split; [reflexivity|].
  apply exchange_code_for_tokens_calls in Hex. cbn [app] in Hex. subst t1.
  apply verify_id_token_calls in Hver as (n & Hn & ->). now exists n.
Qed.

Lemma invalid_token_answered_unauthorized_witness :
  handleOAuthCallback Examples.cfg_ok
    (Examples.world_of Examples.reply_with_token
       (Examples.token_with "RS256" "k1"
          [ ("iss", PStr "https://idp.example.com");
            ("aud", PStr "another-client");
            ("exp", PInt 2000);
            ("sub", PStr "idp|12345") ]))
    Examples.req_ok =
    (Ok (mk_response 401 json_headers
           (error_body "invalid_token"
              "ID token verification failed: Audience doesn't match")),
     [ token_request Examples.cfg_ok (PStr "auth-code-1")
         (PStr "verifier-1") PNone;
       EvJwksFetch "https://idp.example.com/oidc/jwks" ]).
Proof.
  apply (proj1 (invalid_token_answered_unauthorized
                  Examples.cfg_ok
                  (Examples.world_of Examples.reply_with_token
                     (Examples.token_with "RS256" "k1"
                        [ ("iss", PStr "https://idp.example.com");
                          ("aud", PStr "another-client");
                          ("exp", PInt 2000);
                          ("sub", PStr "idp|12345") ]))
                  Examples.req_ok
                  (PStr "auth-code-1") (PStr "verifier-1") PNone
                  [ ("access_token", PStr "at-1");
                    ("id_token", PStr "header.payload.sig") ]
                  (PStr "header.payload.sig")
                  (mk_exn InvalidAudienceError "Audience doesn't match")
                  [ token_request Examples.cfg_ok (PStr "auth-code-1")
                      (PStr "verifier-1") PNone ]
                  [ token_request Examples.cfg_ok (PStr "auth-code-1")
                      (PStr "verifier-1") PNone;
                    EvJwksFetch "https://idp.example.com/oidc/jwks" ]
                  eq_refl
                  (ex_intro _ [ ("code", PStr "auth-code-1");
                                ("codeVerifier", PStr "verifier-1") ]
                     (conj eq_refl (conj eq_refl (conj eq_refl
                        (conj eq_refl (conj eq_refl eq_refl))))))
                  eq_refl eq_refl eq_refl eq_refl eq_refl)).
Defined.



(** X22. [int()] of a timestamp claim that is [null], a list or an
    object is a [TypeError], which [jwt.decode] does not catch and which
    is no [InvalidTokenError].  When the token is otherwise acceptable up
    to that check (RS256, a signature that verifies under the RSA key
    found, a JSON object as payload, no other timestamp claim present),
    the handler answers 500 [internal_error], not 401. *)
Theorem unconvertible_timestamp_answered_internal_error
    cfg w req code verifier redirect token_response s p key claims name v
    t1 t2 :
  config_complete cfg = true ->
  well_formed_request req code verifier redirect ->
  exchange_code_for_tokens cfg w code verifier redirect [] =
    (Ok (PDict token_response), t1) ->
  dict_get_default "id_token" token_response = PStr s ->
  s <> "" ->
  get_signing_key_from_jwt w (jwks_url cfg) (PStr s) t1 = (Ok key, t2) ->
  key_is_rsa key = true ->
  jwt_load w s = Some p ->
  hdr_alg p = Some "RS256" ->
  rsa_verify w key s = true ->
  jwt_payload p = Some claims ->
  In name ["iat"; "nbf"; "exp"] ->
  dict_get name claims = Some v ->
  py_int w v = IntTypeError ->
  (forall other, In other ["iat"; "nbf"; "exp"] -> other <> name ->
                 dict_get other claims = None) ->
  let e := mk_exn TypeError
             ("int() argument must be a string, a bytes-like object or a "
              ++ "real number, not '" ++ type_name v ++ "'") in
  verify_id_token cfg w (PStr s) t1 = (Raise e, t2)
  /\ isinstance e InvalidTokenError = false
  /\ handleOAuthCallback cfg w req =
       (Ok (mk_response 500 json_headers
              (error_body "internal_error"
                 ("An unexpected error occurred: " ++ exn_str e))),
        t2).
Proof.
  intros Hcfg Hreq Hex Hid Hne Hkey Hrsa Hload Halg Hsig Hpayload
    Hin Hget Hint Hothers e.
  assert (Tid : truthy (PStr s) = true).
  { cbn. now destruct (String.eqb_spec s ""). }
  assert (Hver : verify_id_token cfg w (PStr s) t1 = (Raise e, t2)).
  { unfold verify_id_token. fold (jwks_url cfg).
    rewrite (bind_ok _ _ _ _ _ Hkey).
    unfold jwt_decode, jws_load. run_M. rewrite Hload, Halg.
    change (String.eqb "RS256" "" || negb (existsb (String.eqb "RS256")
                                             ["RS256"])) with false.
    cbv iota. rewrite Hrsa, Hsig. cbn [negb].
    unfold decode_payload. run_M. rewrite Hpayload.
    unfold validate_claims, validate_timestamp. run_M.
    destruct Hin as [<-|[<-|[<-|[]]]].
    - now rewrite Hget, Hint.
    - rewrite (Hothers "iat") by (cbn; tauto || discriminate).
      now rewrite Hget, Hint.
    - rewrite (Hothers "iat") by (cbn; tauto || discriminate).
      rewrite (Hothers "nbf") by (cbn; tauto || discriminate).
      now rewrite Hget, Hint. }
  split; [exact Hver|]. split; [reflexivity|].
  destruct (verification_failure_answered
              _ _ _ _ _ _ _ _ _ _ _ Hcfg Hreq Hex Hid Tid Hver) as [-> _].
  reflexivity.
Qed.

Lemma unconvertible_timestamp_answered_internal_error_witness :
  handleOAuthCallback Examples.cfg_ok
    (Examples.world_of Examples.reply_with_token
       (Examples.token_with "RS256" "k1"
          [ ("iss", PStr "https://idp.example.com");
            ("aud", PStr "client-1");
            ("exp", PNone);
            ("sub", PStr "idp|12345") ]))
    Examples.req_ok =
    (Ok (mk_response 500 json_headers
           (error_body "internal_error"
              ("An unexpected error occurred: int() argument must be a "
               ++ "string, a bytes-like object or a real number, "
               ++ "not 'NoneType'"))),
     [ token_request Examples.cfg_ok (PStr "auth-code-1")
         (PStr "verifier-1") PNone;
       EvJwksFetch "https://idp.example.com/oidc/jwks" ]).
Proof.
  destruct (unconvertible_timestamp_answered_internal_error
              Examples.cfg_ok
              (Examples.world_of Examples.reply_with_token
                 (Examples.token_with "RS256" "k1"
                    [ ("iss", PStr "https://idp.example.com");
                      ("aud", PStr "client-1");
                      ("exp", PNone);
                      ("sub", PStr "idp|12345") ]))
              Examples.req_ok
              (PStr "auth-code-1") (PStr "verifier-1") PNone
              [ ("access_token", PStr "at-1");
                ("id_token", PStr "header.payload.sig") ]
              "header.payload.sig"
              (mk_jwt_parts (Some "RS256") (Some "k1")
                 (Some [ ("iss", PStr "https://idp.example.com");
                         ("aud", PStr "client-1");
                         ("exp", PNone);
                         ("sub", PStr "idp|12345") ]))
              Examples.key1
              [ ("iss", PStr "https://idp.example.com");
                ("aud", PStr "client-1");
                ("exp", PNone);
                ("sub", PStr "idp|12345") ]
              "exp" PNone
              [ token_request Examples.cfg_ok (PStr "auth-code-1")
                  (PStr "verifier-1") PNone ]
              [ token_request Examples.cfg_ok (PStr "auth-code-1")
                  (PStr "verifier-1") PNone;
                EvJwksFetch "https://idp.example.com/oidc/jwks" ]
              eq_refl
              (ex_intro _ [ ("code", PStr "auth-code-1");
                            ("codeVerifier", PStr "verifier-1") ]
                 (conj eq_refl (conj eq_refl (conj eq_refl
                    (conj eq_refl (conj eq_refl eq_refl))))))
              eq_refl eq_refl
              (fun H => match H with eq_refl => I end)
              eq_refl eq_refl eq_refl eq_refl eq_refl eq_refl
              (or_intror (or_intror (or_introl eq_refl)))
              eq_refl eq_refl
              (fun other Hin Hne => ltac:(
                 destruct Hin as [<-|[<-|[<-|[]]]];
                 [reflexivity | reflexivity | now elim Hne])))
    as (_ & _ & Hanswer).
  exact Hanswer.
Defined.

(** The key lookup when no published signing key carries the key id of
    the token. *)
Lemma get_signing_key_unknown_kid w url kid keys0 keys1 t :
  jwks_fetch w 0%nat url = Ok keys0 ->
  jwks_fetch w 1%nat url = Ok keys1 ->
  (forall k, In k keys0 \/ In k keys1 -> key_id k <> kid) ->
  get_signing_key w url kid t =
    (Raise (mk_exn PyJWKClientError (message_on_miss keys0 keys1 kid)),
     t ++ repeat (EvJwksFetch url) (downloads_on_miss keys0)).
Proof.
  intros H0 H1 Hnone.
  assert (Hmiss : forall keys f,
            (forall k, In k keys -> key_id k <> kid) ->
            match_kid (filter f keys) kid = None).
  { intros keys f Hk. unfold match_kid.
    destruct (find _ (filter f keys)) as [k|] eqn:Hfind; [|reflexivity].
    apply find_some in Hfind as [Hin Heq].
    apply filter_In in Hin as [Hin _].
    apply option_string_eqb_eq in Heq. now elim (Hk k Hin). }
  unfold message_on_miss, downloads_on_miss, signing_keys.
  unfold get_signing_key, get_signing_keys. run_M. rewrite H0.
  match goal with
  | |- context [filter ?f keys0] =>
      pose proof (Hmiss keys0 f (fun k Hk => Hnone k (or_introl Hk))) as M0;
      destruct (filter f keys0) as [|k0 ks0] eqn:F0
  end.
  { reflexivity. }
  rewrite M0, H1.
  match goal with
  | |- context [filter ?f keys1] =>
      pose proof (Hmiss keys1 f (fun k Hk => Hnone k (or_intror Hk))) as M1;
      destruct (filter f keys1) as [|k1 ks1] eqn:F1
  end.
  { now rewrite <- app_assoc. }
  rewrite M1. now rewrite <- app_assoc.
Qed.

(** X20. When the provider's key set can be downloaded but no key in it
    carries the key id of the identity token, [verify_id_token] raises
    [PyJWKClientError], which is no [InvalidTokenError], after one or two
    downloads of the key set; its text names the key id, or says that
    the set holds no signing key.  The handler answers 500
    [internal_error] with that text, and nothing is written or minted. *)
Theorem unpublished_key_id_answered_internal_error
    cfg w req code verifier redirect token_response s p payload
    keys0 keys1 :
  config_complete cfg = true ->
  well_formed_request req code verifier redirect ->
  exchange_code_for_tokens cfg w code verifier redirect [] =
    (Ok (PDict token_response),
     [token_request cfg code verifier redirect]) ->
  dict_get_default "id_token" token_response = PStr s ->
  s <> "" ->
  jwt_load w s = Some p ->
  jwt_payload p = Some payload ->
  jwks_fetch w 0%nat (jwks_url cfg) = Ok keys0 ->
  jwks_fetch w 1%nat (jwks_url cfg) = Ok keys1 ->
  (forall k, In k keys0 \/ In k keys1 -> key_id k <> hdr_kid p) ->
  exists message n,
    (1 <= n <= 2)%nat
    /\ (message = no_signing_key (hdr_kid p)
        \/ message = "The JWKS endpoint did not contain any signing keys")
    /\ verify_id_token cfg w (PStr s)
         [token_request cfg code verifier redirect] =
         (Raise (mk_exn PyJWKClientError message),
          token_request cfg code verifier redirect
          :: repeat (EvJwksFetch (jwks_url cfg)) n)
    /\ isinstance (mk_exn PyJWKClientError message) InvalidTokenError
       = false
    /\ handleOAuthCallback cfg w req =
         (Ok (mk_response 500 json_headers
                (error_body "internal_error"
                   ("An unexpected error occurred: " ++ message))),
          token_request cfg code verifier redirect
          :: repeat (EvJwksFetch (jwks_url cfg)) n).
Proof.
  intros Hcfg Hreq Hex Hid Hne Hload Hpayload H0 H1 Hnone.
  pose proof (get_signing_key_unknown_kid w (jwks_url cfg) (hdr_kid p)
                keys0 keys1 [token_request cfg code verifier redirect]
                H0 H1 Hnone) as Hkey.
  exists (message_on_miss keys0 keys1 (hdr_kid p)), (downloads_on_miss keys0).
  assert (Tid : truthy (PStr s) = true).
  { cbn. now destruct (String.eqb_spec s ""). }
  assert (Hver : verify_id_token cfg w (PStr s)
                   [token_request cfg code verifier redirect] =
                 (Raise (mk_exn PyJWKClientError
                           (message_on_miss keys0 keys1 (hdr_kid p))),
                  token_request cfg code verifier redirect
                  :: repeat (EvJwksFetch (jwks_url cfg))
                       (downloads_on_miss keys0))).
  { unfold verify_id_token, get_signing_key_from_jwt. fold (jwks_url cfg).
    unfold jws_load. run_M. rewrite Hload.
    unfold decode_payload. run_M. rewrite Hpayload.
    now rewrite Hkey. }
  split.
  { unfold downloads_on_miss. destruct (signing_keys keys0); lia. }
  split.
  { unfold message_on_miss.
    destruct (signing_keys keys0), (signing_keys keys1); auto. }
  split; [exact Hver|]. split; [reflexivity|].
  destruct (verification_failure_answered
              _ _ _ _ _ _ _ _ _ _ _ Hcfg Hreq Hex Hid Tid Hver) as [-> _].
  reflexivity.
Qed.

Lemma unpublished_key_id_answered_internal_error_witness :
  exists message n,
    (1 <= n <= 2)%nat
    /\ isinstance (mk_exn PyJWKClientError message) InvalidTokenError
       = false
    /\ handleOAuthCallback Examples.cfg_ok
         (Examples.world_of Examples.reply_with_token
            (Examples.token_with "RS256" "k2"
               (Examples.claims_of "idp|12345" [])))
         Examples.req_ok =
         (Ok (mk_response 500 json_headers
                (error_body "internal_error"
                   ("An unexpected error occurred: " ++ message))),
          token_request Examples.cfg_ok (PStr "auth-code-1")
            (PStr "verifier-1") PNone
          :: repeat (EvJwksFetch (jwks_url Examples.cfg_ok)) n).
Proof.
  destruct (unpublished_key_id_answered_internal_error
              Examples.cfg_ok
              (Examples.world_of Examples.reply_with_token
                 (Examples.token_with "RS256" "k2"
                    (Examples.claims_of "idp|12345" [])))
              Examples.req_ok
              (PStr "auth-code-1") (PStr "verifier-1") PNone
              [ ("access_token", PStr "at-1");
                ("id_token", PStr "header.payload.sig") ]
              "header.payload.sig"
              (mk_jwt_parts (Some "RS256") (Some "k2")
                 (Some (Examples.claims_of "idp|12345" [])))
              (Examples.claims_of "idp|12345" [])
              [Examples.key1] [Examples.key1]
              eq_refl
              (ex_intro _ [ ("code", PStr "auth-code-1");
                            ("codeVerifier", PStr "verifier-1") ]
                 (conj eq_refl (conj eq_refl (conj eq_refl
                    (conj eq_refl (conj eq_refl eq_refl))))))
              eq_refl eq_refl
              (fun H => match H with eq_refl => I end)
              eq_refl eq_refl eq_refl eq_refl
              (fun k H => ltac:(
                 destruct H as [[<-|[]]|[<-|[]]]; discriminate)))
    as (message & n & Hn & _ & _ & Hcls & Hanswer).
  exists message, n. auto.
Defined.

(** ** The configuration read from the environment *)

(** X21. When one of the environment variables [OAUTH_ISSUER_URL],
    [OAUTH_CLIENT_ID], [OAUTH_CLIENT_SECRET] and [OAUTH_REDIRECT_URI] is
    unset or set to the empty string, the configuration loaded from the
    environment makes every request end with 500 [configuration_error]
    and no outbound call; when all four are set to non-empty values, no
    request is answered with [configuration_error]. *)
Theorem environment_decides_configuration_error env w req :
  ((exists name,
      In name required_variables
      /\ (environ_get name env = None \/ environ_get name env = Some "")) ->
   handleOAuthCallback (load_config env) w req =
     (Ok (mk_response 500 json_headers
            (error_body "configuration_error"
               "Cloud Function not properly configured. Check environment variables.")),
      []))
  /\ ((forall name, In name required_variables ->
         exists value, environ_get name env = Some value /\ value <> "") ->
      forall response message,
        fst (handleOAuthCallback (load_config env) w req) = Ok response ->
        body response <> error_body "configuration_error" message).
Proof.
  split.
  - intros (name & Hin & Hunset).
    assert (Hempty : environ_get_or_empty name env = "").
    { unfold environ_get_or_empty. now destruct Hunset as [-> | ->]. }
    assert (Hcfg : config_complete (load_config env) = false).
    { destruct (config_complete (load_config env)) eqn:H; [|reflexivity].
      apply config_complete_iff in H. cbn in H, Hin.
      destruct H as (A & B & C & D).
      destruct Hin as [<-|[<-|[<-|[<-|[]]]]]; contradiction. }
    unfold handleOAuthCallback, handleOAuthCallback_try.
    fold (config_complete (load_config env)). now rewrite Hcfg.
  - intros Hset response message Hrun Hbody.
    assert (Hcfg : config_complete (load_config env) = true).
    { apply config_complete_iff. cbn. unfold environ_get_or_empty.
      repeat split;
        match goal with
        | |- context [environ_get ?name env] =>
            destruct (Hset name) as (v & -> & Hv); [cbn; tauto|exact Hv]
        end. }
    destruct (handleOAuthCallback (load_config env) w req)
      as [answer calls] eqn:Heq.
    cbn [fst] in Hrun. subst answer.
    destruct (error_kind_origin (load_config env) w req response calls
                "configuration_error" message Heq Hbody) as [Hiff _].
    rewrite Hcfg in Hiff. destruct Hiff as [Hiff _].
    specialize (Hiff eq_refl). discriminate.
Qed.

Lemma environment_decides_configuration_error_witness :
  handleOAuthCallback
    (load_config [ ("OAUTH_ISSUER_URL", "https://idp.example.com");
                   ("OAUTH_CLIENT_ID", "client-1");
                   ("OAUTH_REDIRECT_URI", "https://app.example.com/callback") ])
    Examples.w_ok Examples.req_ok =
    (Ok (mk_response 500 json_headers
           (error_body "configuration_error"
              "Cloud Function not properly configured. Check environment variables.")),
     []).
Proof.
  apply (proj1 (environment_decides_configuration_error _ _ _)).
  exists "OAUTH_CLIENT_SECRET". split; [cbn; tauto|]. left. reflexivity.
Defined.
